(** * Loyalty platform: ledger, event router, accrual rules, RFM and tier engines

    A shallow embedding of the Go services of the loyalty platform and the
    properties of its specification, settled against the code.

    Conventions used throughout:
    - Go [string] is [string] (a sequence of bytes);
    - Go [uint64] and [int] are [Z] with the wrap-around written out
      ([uint64], [int64]);
    - [time.Time] is an instant on the time line, a [Z] count of nanoseconds;
      every read of the clock ([time.Now()]) and every random identifier is an
      explicit argument of the function that reads it;
    - a Go map is a [gmap]; a MongoDB collection is the list of its documents
      in natural order;
    - a call that can fail returns its error as an [option string];
    - Go [float64] is the rational value of a finite binary64 number, every
      operation rounding its exact result to nearest, ties to even, at 53
      bits ([F64]); infinities, NaN and the limits of the exponent are outside
      the model. *)

From Stdlib Require Import ZArith QArith Qround Qabs Qpower Lia List String Ascii Bool.
From Stdlib Require Import DecimalString PrimFloat SpecFloat FloatOps Uint63.
From stdpp Require Import gmap strings list fin_maps sorting.

Local Open Scope string_scope.
Local Open Scope Z_scope.

(** ** Machine integers *)

Definition uint64 (z : Z) : Z := z mod 2 ^ 64.

Definition int64 (z : Z) : Z := (z + 2 ^ 63) mod 2 ^ 64 - 2 ^ 63.

Definition is_uint64 (z : Z) : Prop := 0 <= z < 2 ^ 64.

(** ** Ledger: models (services/ledger/internal/models/account.go) *)

Module Account.
Record t := mk {
  ID : string;
  OrgID : string;
  CustomerID : string;
  AccountType : Z;
  Code : Z;
  DebitsPosted : Z;
  DebitsPending : Z;
  CreditsPosted : Z;
  CreditsPending : Z;
  Timestamp : Z
}.

(** [account.DebitsPosted += amount] and [account.CreditsPosted += amount]. *)
Definition addDebitsPosted (a : t) (amount : Z) : t :=
  mk (ID a) (OrgID a) (CustomerID a) (AccountType a) (Code a)
     (uint64 (DebitsPosted a + amount)) (DebitsPending a)
     (CreditsPosted a) (CreditsPending a) (Timestamp a).

Definition addCreditsPosted (a : t) (amount : Z) : t :=
  mk (ID a) (OrgID a) (CustomerID a) (AccountType a) (Code a)
     (DebitsPosted a) (DebitsPending a)
     (uint64 (CreditsPosted a + amount)) (CreditsPending a) (Timestamp a).
End Account.

Module Transfer.
Record t := mk {
  ID : string;
  DebitAccountID : string;
  CreditAccountID : string;
  Amount : Z;
  Code : Z;
  Reference : string;
  Timestamp : Z
}.
End Transfer.

Module CreateTransferRequest.
Record t := mk {
  OrgID : string;
  CustomerID : string;
  TransactionType : string;
  Amount : Z;
  Code : Z;
  Reference : string
}.
End CreateTransferRequest.

Module TransferResponse.
Record t := mk {
  TransferID : string;
  Status : string
}.
End TransferResponse.

Module CreateAccountRequest.
Record t := mk {
  OrgID : string;
  CustomerID : string;
  AccountType : Z;
  Code : Z
}.
End CreateAccountRequest.

(** ** Ledger: the in-memory repository (MockTigerBeetleRepo) *)

Module Ledger.

Record MockTigerBeetleRepo := mkRepo {
  accounts : gmap string Account.t;
  transfers : gmap string Transfer.t
}.

Definition NewMockTigerBeetleRepo : MockTigerBeetleRepo := mkRepo ∅ ∅.

Definition generateOrgLiabilityAccount (orgID : string) : string :=
  "liability_" ++ orgID.

Definition generateCustomerPointsAccount (orgID customerID : string) : string :=
  "points_" ++ orgID ++ "_" ++ customerID.

Definition generateCustomerStampsAccount (orgID customerID : string) : string :=
  "stamps_" ++ orgID ++ "_" ++ customerID.

(** [updateAccountBalance]: the account is created on demand, then one of its
    two posted counters is incremented ([+=] on a [uint64]). [now] is the
    clock read of the creation, in Unix seconds. *)
Definition updateAccountBalance (accs : gmap string Account.t)
    (accountID : string) (amount : Z) (isDebit : bool) (now : Z)
  : gmap string Account.t :=
  let account :=
    match accs !! accountID with
    | Some account => account
    | None => Account.mk accountID "" "" 0 0 0 0 0 0 (uint64 now)
    end in
  if isDebit
  then <[accountID := Account.addDebitsPosted account amount]> accs
  else <[accountID := Account.addCreditsPosted account amount]> accs.

Definition isRedemption (transactionType : string) : bool :=
  String.eqb transactionType "points_redemption"
  || String.eqb transactionType "stamps_redemption".

(** The pair (debit account, credit account) chosen by [CreateTransfer]:
    liability and customer points account, swapped for a redemption. *)
Definition transferAccounts (req : CreateTransferRequest.t) : string * string :=
  let debitAccountID :=
    generateOrgLiabilityAccount (CreateTransferRequest.OrgID req) in
  let creditAccountID :=
    generateCustomerPointsAccount (CreateTransferRequest.OrgID req)
                                  (CreateTransferRequest.CustomerID req) in
  if isRedemption (CreateTransferRequest.TransactionType req)
  then (creditAccountID, debitAccountID)
  else (debitAccountID, creditAccountID).

(** [CreateTransfer]; [transferID] is the random identifier drawn by
    [generateStringID], [now], [nowDebit] and [nowCredit] the three clock
    reads (Unix seconds). The error result is always [nil]. *)
Definition CreateTransfer (r : MockTigerBeetleRepo) (transferID : string)
    (now nowDebit nowCredit : Z) (req : CreateTransferRequest.t)
  : MockTigerBeetleRepo * TransferResponse.t * option string :=
  let '(debitAccountID, creditAccountID) := transferAccounts req in
  let transfer :=
    Transfer.mk transferID debitAccountID creditAccountID
                (CreateTransferRequest.Amount req)
                (CreateTransferRequest.Code req)
                (CreateTransferRequest.Reference req)
                (uint64 now) in
  let transfers' := <[transferID := transfer]> (transfers r) in
  let accs1 :=
    updateAccountBalance (accounts r) debitAccountID
                         (CreateTransferRequest.Amount req) true nowDebit in
  let accs2 :=
    updateAccountBalance accs1 creditAccountID
                         (CreateTransferRequest.Amount req) false nowCredit in
  (mkRepo accs2 transfers', TransferResponse.mk transferID "success", None).

Definition GetAccount (r : MockTigerBeetleRepo) (accountID : string)
  : option Account.t * option string :=
  match accounts r !! accountID with
  | Some account => (Some account, None)
  | None => (None, Some "account not found")
  end.

(** [GetBalance]: the returned Go map has exactly the keys "points" and
    "stamps". *)
Definition GetBalance (r : MockTigerBeetleRepo) (orgID customerID : string)
  : gmap string Z * option string :=
  let pointsAccountID := generateCustomerPointsAccount orgID customerID in
  let stampsAccountID := generateCustomerStampsAccount orgID customerID in
  let balances : gmap string Z := <["stamps" := 0]> (<["points" := 0]> ∅) in
  let balances :=
    match accounts r !! pointsAccountID with
    | Some account =>
        <["points" := uint64 (Account.CreditsPosted account
                              - Account.DebitsPosted account)]> balances
    | None => balances
    end in
  let balances :=
    match accounts r !! stampsAccountID with
    | Some account =>
        <["stamps" := uint64 (Account.CreditsPosted account
                              - Account.DebitsPosted account)]> balances
    | None => balances
    end in
  (balances, None).

(** Posted counters of an account identifier; an account that does not exist
    yet counts as zero (it is created with zero counters on its first
    transfer). *)
Definition debitsPosted (r : MockTigerBeetleRepo) (id : string) : Z :=
  match accounts r !! id with
  | Some a => Account.DebitsPosted a
  | None => 0
  end.

Definition creditsPosted (r : MockTigerBeetleRepo) (id : string) : Z :=
  match accounts r !! id with
  | Some a => Account.CreditsPosted a
  | None => 0
  end.

(** The repository after a transfer. *)
Definition afterTransfer (r : MockTigerBeetleRepo) (transferID : string)
    (now nowDebit nowCredit : Z) (req : CreateTransferRequest.t)
  : MockTigerBeetleRepo :=
  (CreateTransfer r transferID now nowDebit nowCredit req).1.1.

(** The balance [GetBalance] reports for an account identifier. *)
Definition balance (r : MockTigerBeetleRepo) (accountID : string) : Z :=
  match accounts r !! accountID with
  | Some account =>
      uint64 (Account.CreditsPosted account - Account.DebitsPosted account)
  | None => 0
  end.

(** Requests used as examples below. *)
Definition giftRedemption : CreateTransferRequest.t :=
  CreateTransferRequest.mk "org1" "cust1" "gift_redemption" 10 1 "ref".

Definition stampsAccrual : CreateTransferRequest.t :=
  CreateTransferRequest.mk "org1" "cust1" "stamps_accrual" 3 2 "ref".

Definition maxTransfer : CreateTransferRequest.t :=
  CreateTransferRequest.mk "org1" "cust1" "points_accrual" (2 ^ 64 - 1) 1 "ref".

Definition unitTransfer : CreateTransferRequest.t :=
  CreateTransferRequest.mk "org1" "cust1" "points_accrual" 1 1 "ref".

Definition repoAtMax : MockTigerBeetleRepo :=
  afterTransfer NewMockTigerBeetleRepo "t1" 0 0 0 maxTransfer.

(** [generateStringID]: [fmt.Sprintf("%x", bytes)] of the eight random bytes,
    two lower-case hexadecimal digits per byte. *)
Definition hexDigit (n : nat) : ascii :=
  match n with
  | 0 => "0" | 1 => "1" | 2 => "2" | 3 => "3" | 4 => "4" | 5 => "5" | 6 => "6"
  | 7 => "7" | 8 => "8" | 9 => "9" | 10 => "a" | 11 => "b" | 12 => "c"
  | 13 => "d" | 14 => "e" | _ => "f"
  end%nat%char.

Fixpoint generateStringID (bytes : list ascii) : string :=
  match bytes with
  | [] => ""
  | b :: rest =>
      String (hexDigit (nat_of_ascii b / 16))
        (String (hexDigit (nat_of_ascii b mod 16)) (generateStringID rest))
  end.

(** [CreateAccount]; [accountID] is the identifier [generateStringID] drew,
    [now] the clock read (Unix seconds). The error result is always [nil]. *)
Definition CreateAccount (r : MockTigerBeetleRepo) (accountID : string) (now : Z)
    (req : CreateAccountRequest.t)
  : MockTigerBeetleRepo * Account.t * option string :=
  let account :=
    Account.mk accountID (CreateAccountRequest.OrgID req)
      (CreateAccountRequest.CustomerID req)
      (CreateAccountRequest.AccountType req) (CreateAccountRequest.Code req)
      0 0 0 0 (uint64 now) in
  (mkRepo (<[accountID := account]> (accounts r)) (transfers r), account, None).

(** The books of the repository: the posted debits and the posted credits,
    summed over all accounts. *)
Definition total (f : Account.t -> Z) (accs : gmap string Account.t) : Z :=
  map_fold (fun _ account sum => f account + sum) 0 accs.

Definition totalDebits (r : MockTigerBeetleRepo) : Z :=
  total Account.DebitsPosted (accounts r).

Definition totalCredits (r : MockTigerBeetleRepo) : Z :=
  total Account.CreditsPosted (accounts r).

(** A run of [CreateTransfer] calls, each with its identifier, its three
    clock reads and its request. *)
Definition afterTransfers (r : MockTigerBeetleRepo)
    (calls : list (string * Z * Z * Z * CreateTransferRequest.t))
  : MockTigerBeetleRepo :=
  fold_left
    (fun r call =>
       let '(transferID, now, nowDebit, nowCredit, req) := call in
       afterTransfer r transferID now nowDebit nowCredit req)
    calls r.

End Ledger.


(** ** Go's [strings] package, as far as the services use it *)

Module Strings.

Fixpoint HasPrefix (s prefix : string) : bool :=
  match prefix, s with
  | EmptyString, _ => true
  | String p prefix', String c s' => Ascii.eqb c p && HasPrefix s' prefix'
  | String _ _, EmptyString => false
  end.

Fixpoint Contains (s substr : string) : bool :=
  HasPrefix s substr
  || match s with
     | EmptyString => false
     | String _ s' => Contains s' substr
     end.

Definition HasSuffix (s suffix : string) : bool :=
  let n := String.length s in
  let k := String.length suffix in
  (k <=? n)%nat && String.eqb (substring (n - k) k s) suffix.

(** [Split s sep] for a separator of one byte: the substrings between the
    separators, at least one, possibly empty. *)
Fixpoint Split (s : string) (sep : ascii) : list string :=
  match s with
  | EmptyString => [EmptyString]
  | String c s' =>
      if Ascii.eqb c sep then EmptyString :: Split s' sep
      else match Split s' sep with
           | part :: parts => String c part :: parts
           | [] => [String c EmptyString]
           end
  end.

(** A string that holds no dot: a single segment of a topic. *)
Definition noDot (s : string) : Prop := Contains s "." = false.

End Strings.

(** ** JSON values and [encoding/json] decoding into struct fields

    A number keeps what matters to the decoder: whether its literal is a
    plain integer ([Int]) or has a fraction or an exponent ([Frac]). *)

Module JSON.

Inductive value :=
| Null
| Bool (b : bool)
| Int (z : Z)
| Frac (q : Q)
| Str (s : string)
| Arr
| Obj.

(** A JSON object as the list of its members, in the order of the text; a
    body that is not a JSON object does not decode at all. *)
Definition object := list (string * value).

(** Decoding a member into a field of the given Go type: [Some None] leaves
    the field as it is ([null]), [None] is a type error. *)
Definition toString (v : value) : option (option string) :=
  match v with
  | Str s => Some (Some s)
  | Null => Some None
  | _ => None
  end.

Definition toUint (bits : Z) (v : value) : option (option Z) :=
  match v with
  | Int z => if (0 <=? z) && (z <? 2 ^ bits) then Some (Some z) else None
  | Null => Some None
  | _ => None
  end.

Definition toInt (v : value) : option (option Z) :=
  match v with
  | Int z => if (- 2 ^ 63 <=? z) && (z <? 2 ^ 63) then Some (Some z) else None
  | Null => Some None
  | _ => None
  end.

(** A decoded member sets its field, [null] leaves it, a type error fails. *)
Definition assign {A S : Type} (decoded : option (option A)) (set : A -> S -> S)
    (s : S) : option S :=
  match decoded with
  | Some (Some a) => Some (set a s)
  | Some None => Some s
  | None => None
  end.

(** Keys name fields without regard to the case of ASCII letters. *)
Definition toLower (c : ascii) : ascii :=
  let n := nat_of_ascii c in
  if ((65 <=? n) && (n <=? 90))%nat then ascii_of_nat (n + 32) else c.

Fixpoint EqualFold (s t : string) : bool :=
  match s, t with
  | EmptyString, EmptyString => true
  | String a s', String b t' => Ascii.eqb (toLower a) (toLower b) && EqualFold s' t'
  | _, _ => false
  end.

(** A struct decoder: for every member whose key names a field, the setter
    of that field; members in order, a later duplicate overriding an earlier
    one; the first type error is the error of the whole decoding. *)
Fixpoint decode {S : Type} (field : string -> value -> S -> option S)
    (members : object) (s : S) : option S :=
  match members with
  | [] => Some s
  | (key, v) :: rest =>
      match field key v s with
      | Some s' => decode field rest s'
      | None => None
      end
  end.

End JSON.


(** ** Ledger: the HTTP handler (services/ledger/internal/handlers) *)

Module LedgerHandler.

Definition setOrgID (s : string) (r : CreateTransferRequest.t) :=
  CreateTransferRequest.mk s (CreateTransferRequest.CustomerID r)
    (CreateTransferRequest.TransactionType r) (CreateTransferRequest.Amount r)
    (CreateTransferRequest.Code r) (CreateTransferRequest.Reference r).

Definition setCustomerID (s : string) (r : CreateTransferRequest.t) :=
  CreateTransferRequest.mk (CreateTransferRequest.OrgID r) s
    (CreateTransferRequest.TransactionType r) (CreateTransferRequest.Amount r)
    (CreateTransferRequest.Code r) (CreateTransferRequest.Reference r).

Definition setTransactionType (s : string) (r : CreateTransferRequest.t) :=
  CreateTransferRequest.mk (CreateTransferRequest.OrgID r)
    (CreateTransferRequest.CustomerID r) s (CreateTransferRequest.Amount r)
    (CreateTransferRequest.Code r) (CreateTransferRequest.Reference r).

Definition setAmount (z : Z) (r : CreateTransferRequest.t) :=
  CreateTransferRequest.mk (CreateTransferRequest.OrgID r)
    (CreateTransferRequest.CustomerID r)
    (CreateTransferRequest.TransactionType r) z
    (CreateTransferRequest.Code r) (CreateTransferRequest.Reference r).

Definition setCode (z : Z) (r : CreateTransferRequest.t) :=
  CreateTransferRequest.mk (CreateTransferRequest.OrgID r)
    (CreateTransferRequest.CustomerID r)
    (CreateTransferRequest.TransactionType r) (CreateTransferRequest.Amount r)
    z (CreateTransferRequest.Reference r).

Definition setReference (s : string) (r : CreateTransferRequest.t) :=
  CreateTransferRequest.mk (CreateTransferRequest.OrgID r)
    (CreateTransferRequest.CustomerID r)
    (CreateTransferRequest.TransactionType r) (CreateTransferRequest.Amount r)
    (CreateTransferRequest.Code r) s.

(** The [json:"..."] tags of [models.CreateTransferRequest]: the field a
    member's key names, if any (keys match without regard to case). *)
Inductive Field :=
| FOrgID | FCustomerID | FTransactionType | FAmount | FCode | FReference.

Definition fieldNamed (key : string) : option Field :=
  if JSON.EqualFold key "org_id" then Some FOrgID
  else if JSON.EqualFold key "customer_id" then Some FCustomerID
  else if JSON.EqualFold key "transaction_type" then Some FTransactionType
  else if JSON.EqualFold key "amount" then Some FAmount
  else if JSON.EqualFold key "code" then Some FCode
  else if JSON.EqualFold key "reference" then Some FReference
  else None.

Definition transferField (key : string) (v : JSON.value)
    (r : CreateTransferRequest.t) : option CreateTransferRequest.t :=
  match fieldNamed key with
  | Some FOrgID => JSON.assign (JSON.toString v) setOrgID r
  | Some FCustomerID => JSON.assign (JSON.toString v) setCustomerID r
  | Some FTransactionType => JSON.assign (JSON.toString v) setTransactionType r
  | Some FAmount => JSON.assign (JSON.toUint 64 v) setAmount r
  | Some FCode => JSON.assign (JSON.toUint 16 v) setCode r
  | Some FReference => JSON.assign (JSON.toString v) setReference r
  | None => Some r
  end.

(** The [binding:"required"] tags: [OrgID], [TransactionType] and [Amount]
    must differ from the zero value of their type. *)
Definition required (r : CreateTransferRequest.t) : bool :=
  negb (String.eqb (CreateTransferRequest.OrgID r) "")
  && negb (String.eqb (CreateTransferRequest.TransactionType r) "")
  && negb (CreateTransferRequest.Amount r =? 0).

(** [c.ShouldBindJSON(&req)]; [None] is a body that is not a JSON object. *)
Definition ShouldBindJSON (body : option JSON.object)
  : CreateTransferRequest.t + string :=
  match body with
  | None => inr "invalid request body"
  | Some members =>
      match JSON.decode transferField members
              (CreateTransferRequest.mk "" "" "" 0 0 "") with
      | None => inr "json: cannot unmarshal value into Go struct field"
      | Some req =>
          if required req then inl req
          else inr "Field validation failed on the 'required' tag"
      end
  end.

Inductive ResponseBody :=
| ErrorBody (error : string)
| TransferBody (response : TransferResponse.t).

Definition StatusBadRequest : Z := 400.
Definition StatusInternalServerError : Z := 500.
Definition StatusCreated : Z := 201.

(** [LedgerHandler.CreateTransfer] over the repository [main] installs. *)
Definition CreateTransfer (repo : Ledger.MockTigerBeetleRepo)
    (transferID : string) (now nowDebit nowCredit : Z)
    (body : option JSON.object)
  : Z * ResponseBody * Ledger.MockTigerBeetleRepo :=
  match ShouldBindJSON body with
  | inr err => (StatusBadRequest, ErrorBody err, repo)
  | inl req =>
      match Ledger.CreateTransfer repo transferID now nowDebit nowCredit req with
      | (repo', _, Some err) => (StatusInternalServerError, ErrorBody err, repo')
      | (repo', response, None) => (StatusCreated, TransferBody response, repo')
      end
  end.

(** The amount a request body states: the number of its last "amount"
    member that is a number, an integer literal or not. *)
Fixpoint statedAmount (members : JSON.object) : option Q :=
  match members with
  | [] => None
  | (key, v) :: rest =>
      match statedAmount rest with
      | Some q => Some q
      | None =>
          match fieldNamed key, v with
          | Some FAmount, JSON.Int z => Some (inject_Z z)
          | Some FAmount, JSON.Frac q => Some q
          | _, _ => None
          end
      end
  end.

(** Request bodies used as examples below. *)
Definition zeroAmountBody : JSON.object :=
  [("org_id", JSON.Str "org1"); ("customer_id", JSON.Str "cust1");
   ("transaction_type", JSON.Str "points_accrual"); ("amount", JSON.Int 0)].

Definition negativeAmountBody : JSON.object :=
  [("org_id", JSON.Str "org1"); ("customer_id", JSON.Str "cust1");
   ("transaction_type", JSON.Str "points_accrual"); ("amount", JSON.Int (-5))].

(** *** Accounts and balances *)

(** The [json:"..."] tags of [models.CreateAccountRequest]; [AccountType] is
    a [uint32], [Code] a [uint16]. *)
Definition accountField (key : string) (v : JSON.value)
    (r : CreateAccountRequest.t) : option CreateAccountRequest.t :=
  if JSON.EqualFold key "org_id"
  then JSON.assign (JSON.toString v)
         (fun s r => CreateAccountRequest.mk s (CreateAccountRequest.CustomerID r)
                       (CreateAccountRequest.AccountType r)
                       (CreateAccountRequest.Code r)) r
  else if JSON.EqualFold key "customer_id"
  then JSON.assign (JSON.toString v)
         (fun s r => CreateAccountRequest.mk (CreateAccountRequest.OrgID r) s
                       (CreateAccountRequest.AccountType r)
                       (CreateAccountRequest.Code r)) r
  else if JSON.EqualFold key "account_type"
  then JSON.assign (JSON.toUint 32 v)
         (fun z r => CreateAccountRequest.mk (CreateAccountRequest.OrgID r)
                       (CreateAccountRequest.CustomerID r) z
                       (CreateAccountRequest.Code r)) r
  else if JSON.EqualFold key "code"
  then JSON.assign (JSON.toUint 16 v)
         (fun z r => CreateAccountRequest.mk (CreateAccountRequest.OrgID r)
                       (CreateAccountRequest.CustomerID r)
                       (CreateAccountRequest.AccountType r) z) r
  else Some r.

(** The [binding:"required"] tags: [OrgID] and [AccountType]. *)
Definition requiredAccount (r : CreateAccountRequest.t) : bool :=
  negb (String.eqb (CreateAccountRequest.OrgID r) "")
  && negb (CreateAccountRequest.AccountType r =? 0).

Definition ShouldBindAccountJSON (body : option JSON.object)
  : CreateAccountRequest.t + string :=
  match body with
  | None => inr "invalid request body"
  | Some members =>
      match JSON.decode accountField members (CreateAccountRequest.mk "" "" 0 0) with
      | None => inr "json: cannot unmarshal value into Go struct field"
      | Some req =>
          if requiredAccount req then inl req
          else inr "Field validation failed on the 'required' tag"
      end
  end.

(** The bodies of the account and balance routes; an account is a pointer,
    [None] when it is [nil]. *)
Inductive Response :=
| ErrorResponse (error : string)
| AccountResponse (account : option Account.t)
| BalanceResponse (org_id customer_id : string) (points_balance stamps_balance : Z).

Definition StatusOK : Z := 200.
Definition StatusNotFound : Z := 404.

(** [LedgerHandler.CreateAccount]. *)
Definition CreateAccount (repo : Ledger.MockTigerBeetleRepo) (accountID : string)
    (now : Z) (body : option JSON.object)
  : Z * Response * Ledger.MockTigerBeetleRepo :=
  match ShouldBindAccountJSON body with
  | inr err => (StatusBadRequest, ErrorResponse err, repo)
  | inl req =>
      match Ledger.CreateAccount repo accountID now req with
      | (repo', _, Some err) => (StatusInternalServerError, ErrorResponse err, repo')
      | (repo', account, None) =>
          (StatusCreated, AccountResponse (Some account), repo')
      end
  end.

(** [LedgerHandler.GetAccount]; [accountID] is the route parameter. *)
Definition GetAccount (repo : Ledger.MockTigerBeetleRepo) (accountID : string)
  : Z * Response :=
  if String.eqb accountID "" then
    (StatusBadRequest, ErrorResponse "account ID is required")
  else
    match Ledger.GetAccount repo accountID with
    | (_, Some err) => (StatusNotFound, ErrorResponse err)
    | (account, None) => (StatusOK, AccountResponse account)
    end.

(** [LedgerHandler.GetBalance]; [orgID] and [customerID] are the query
    parameters, empty when the query does not carry them. Reading a key a Go
    map does not hold gives zero. *)
Definition GetBalance (repo : Ledger.MockTigerBeetleRepo) (orgID customerID : string)
  : Z * Response :=
  if String.eqb orgID "" || String.eqb customerID "" then
    (StatusBadRequest, ErrorResponse "org_id and customer_id are required")
  else
    match Ledger.GetBalance repo orgID customerID with
    | (_, Some err) => (StatusInternalServerError, ErrorResponse err)
    | (balances, None) =>
        (StatusOK,
         BalanceResponse orgID customerID
           (default 0 (balances !! "points")) (default 0 (balances !! "stamps")))
    end.

End LedgerHandler.

(** ** Event router (stream processor [main]) *)

Module Router.

(** The inner loop of [shouldProcessTopic], over two slices of one length. *)
Fixpoint matchParts (parts topicParts : list string) : bool :=
  match parts, topicParts with
  | part :: parts', topicPart :: topicParts' =>
      if negb (String.eqb part "*") && negb (String.eqb part topicPart)
      then false
      else matchParts parts' topicParts'
  | _, _ => true
  end.

Fixpoint shouldProcessTopic (topic : string) (patterns : list string) : bool :=
  match patterns with
  | [] => false
  | pattern :: rest =>
      if Strings.Contains pattern "*" then
        let parts := Strings.Split pattern "." in
        let topicParts := Strings.Split topic "." in
        if (length parts =? length topicParts)%nat then
          if matchParts parts topicParts then true
          else shouldProcessTopic topic rest
        else shouldProcessTopic topic rest
      else if String.eqb topic pattern then true
      else shouldProcessTopic topic rest
  end.

(** The subscriptions of the stream processor. *)
Definition topics : list string :=
  ["*.pos.transaction"; "*.loyalty.action"; "*.customer.updated"].

End Router.

(** ** The mock broker (MockKafkaServer) *)

Module MockKafka.

(** [topicMatches]: a pattern that starts with a star is matched by its
    suffix, [topic[len(topic)-len(suffix):] == suffix]. *)
Definition topicMatches (pattern topic : string) : bool :=
  if String.eqb pattern "*" then true
  else
    match pattern with
    | String "*" suffix =>
        (String.length suffix <=? String.length topic)%nat
        && String.eqb (substring (String.length topic - String.length suffix)
                                 (String.length suffix) topic)
                      suffix
    | _ => String.eqb pattern topic
    end.

End MockKafka.


(** ** Outcomes of code that can panic *)

Inductive Outcome (A : Type) :=
| Done (a : A)
| Panic.

Arguments Done {A} a.
Arguments Panic {A}.

(** ** Binary64 arithmetic *)

Module F64.

Definition float64 := Q.

Definition pow2 (e : Z) : Q := (2 ^ e)%Q.

(** The binary exponent of a positive rational: [pow2 (Qlog2 q) <= q <
    pow2 (Qlog2 q + 1)]. *)
Definition Qlog2 (q : Q) : Z :=
  let l := Z.log2 (Qnum q) - Z.log2 (Zpos (Qden q)) in
  if Qle_bool (pow2 l) q then l else l - 1.

(** Rounding to the nearest integer, ties to even. *)
Definition rne (x : Q) : Z :=
  let f := Qfloor x in
  match Qcompare (x - inject_Z f) (1 # 2) with
  | Lt => f
  | Gt => f + 1
  | Eq => if Z.even f then f else f + 1
  end.

(** Rounding to 53 significant bits. *)
Definition round (q : Q) : float64 :=
  if Qeq_bool q 0 then 0%Q
  else let e := Qlog2 (Qabs q) - 52 in
       Qred (inject_Z (rne (q / pow2 e)) * pow2 e).

Definition add (x y : float64) : float64 := round (x + y).
Definition mul (x y : float64) : float64 := round (x * y).
Definition div (x y : float64) : float64 := round (x / y).

(** [float64(n)] of an integer, and a decimal constant of the source. *)
Definition ofInt (z : Z) : float64 := round (inject_Z z).
Definition const (q : Q) : float64 := round q.

(** [math.Ceil], [math.Floor], and the conversion [int(x)], which truncates
    (Go defines it where the truncated value fits the [int]). *)
Definition Ceil (x : float64) : float64 := inject_Z (Qceiling x).
Definition Floor (x : float64) : float64 := inject_Z (Qfloor x).
Definition toInt (x : float64) : Z :=
  if Qle_bool 0 x then Qfloor x else Qceiling x.

Definition leb (x y : float64) : bool := Qle_bool x y.
Definition ltb (x y : float64) : bool := negb (Qle_bool y x).

(** The limits of the exponent, which [round] does not have: the largest
    finite number and the smallest positive normal number of binary64. A
    rational is in range when rounding it to 53 bits neither overflows nor
    underflows: it is zero, or its magnitude lies between the two. *)
Definition maxFloat : Q := inject_Z (2 ^ 53 - 1) * pow2 971.
Definition minNormal : Q := pow2 (-1022).

Definition inRange (q : Q) : bool :=
  Qeq_bool q 0 || (Qle_bool minNormal (Qabs q) && Qle_bool (Qabs q) maxFloat).

(** A number of binary64 that is zero or normal. *)
Definition normal (x : float64) : bool := Qeq_bool (round x) x && inRange x.

(** [int(x)] where the operand can be any number: the truncated value where
    it fits the 64-bit [int]; where it does not, Go leaves the result to the
    implementation, and it is the [int] that [outOfRange] gives for [x]. *)
Definition toIntOr (outOfRange : float64 -> Z) (x : float64) : Z :=
  let z := toInt x in
  if (- 2 ^ 63 <=? z) && (z <? 2 ^ 63) then z
  else (outOfRange x + 2 ^ 63) mod 2 ^ 64 - 2 ^ 63.

(** The conversion of amd64, whose instruction answers every operand out of
    range with the smallest [int]. *)
Definition amd64 : float64 -> Z := fun _ => - 2 ^ 63.

(** The value of a finite binary64 number of the kernel, to compare the
    operations above with the machine's. *)
Definition ofPrim (f : PrimFloat.float) : option Q :=
  match Prim2SF f with
  | S754_zero _ => Some 0%Q
  | S754_finite s m e =>
      Some (Qred ((if s then -1 else 1) * inject_Z (Zpos m) * pow2 e))
  | _ => None
  end.

Definition primOfInt (z : Z) : PrimFloat.float :=
  if z <? 0 then PrimFloat.opp (PrimFloat.of_uint63 (Uint63.of_Z (- z)))
  else PrimFloat.of_uint63 (Uint63.of_Z z).

End F64.

(** ** Accrual rules engine (services/stream/internal/processor) *)

Module LoyaltyAction.
Record t := mk {
  ActionType : string;
  Points : Z;
  Stamps : Z;
  RewardID : string;
  Reference : string
}.
End LoyaltyAction.

Module BaseEvent.
Record t := mk {
  EventID : string;
  EventType : string;
  OrgID : string;
  LocationID : string;
  CustomerID : string;
  Timestamp : Z;
  Payload : JSON.object
}.
End BaseEvent.

Module RewardTriggered.
Record t := mk {
  RewardID : string;
  RewardType : string;
  RewardValue : string;
  Description : string;
  TriggeredAt : Z
}.
End RewardTriggered.

Module ProcessingResult.
Record t := mk {
  EventID : string;
  ProcessedAt : Z;
  Success : bool;
  Error : string;
  PointsEarned : Z;
  StampsEarned : Z;
  RewardsTriggered : list RewardTriggered.t;
  Actions : list string
}.
End ProcessingResult.

Module Processor.

(** The two calls of [clients.LedgerClientInterface]. *)
Inductive LedgerCall :=
| CreatePointsTransfer (orgID customerID : string) (points : Z) (reference : string)
| CreateStampsTransfer (orgID customerID : string) (stamps : Z) (reference : string).

(** The ledger client as the processor sees it: the error of a call, if any
    (the response itself is dropped by the processor). *)
Definition LedgerClient := LedgerCall -> option string.

(** The request a call posts to the ledger (clients/ledger.go). *)
Definition requestOf (call : LedgerCall) : CreateTransferRequest.t :=
  match call with
  | CreatePointsTransfer orgID customerID points reference =>
      CreateTransferRequest.mk orgID customerID "points_accrual"
                               (uint64 points) 1 reference
  | CreateStampsTransfer orgID customerID stamps reference =>
      CreateTransferRequest.mk orgID customerID "stamps_accrual"
                               (uint64 stamps) 2 reference
  end.

(** [%d] of [fmt.Sprintf]. *)
Definition itoa (z : Z) : string := NilZero.string_of_int (Z.to_int z).

Definition setActionType (s : string) (a : LoyaltyAction.t) :=
  LoyaltyAction.mk s (LoyaltyAction.Points a) (LoyaltyAction.Stamps a)
                   (LoyaltyAction.RewardID a) (LoyaltyAction.Reference a).

Definition setPoints (z : Z) (a : LoyaltyAction.t) :=
  LoyaltyAction.mk (LoyaltyAction.ActionType a) z (LoyaltyAction.Stamps a)
                   (LoyaltyAction.RewardID a) (LoyaltyAction.Reference a).

Definition setStamps (z : Z) (a : LoyaltyAction.t) :=
  LoyaltyAction.mk (LoyaltyAction.ActionType a) (LoyaltyAction.Points a) z
                   (LoyaltyAction.RewardID a) (LoyaltyAction.Reference a).

Definition setRewardID (s : string) (a : LoyaltyAction.t) :=
  LoyaltyAction.mk (LoyaltyAction.ActionType a) (LoyaltyAction.Points a)
                   (LoyaltyAction.Stamps a) s (LoyaltyAction.Reference a).

Definition setReference (s : string) (a : LoyaltyAction.t) :=
  LoyaltyAction.mk (LoyaltyAction.ActionType a) (LoyaltyAction.Points a)
                   (LoyaltyAction.Stamps a) (LoyaltyAction.RewardID a) s.

(** The [json:"..."] tags of [models.LoyaltyAction]; [extra_data] is a map
    and takes an object or [null] only. *)
Definition actionField (key : string) (v : JSON.value) (a : LoyaltyAction.t)
  : option LoyaltyAction.t :=
  if JSON.EqualFold key "action_type"
  then JSON.assign (JSON.toString v) setActionType a
  else if JSON.EqualFold key "points"
  then JSON.assign (JSON.toInt v) setPoints a
  else if JSON.EqualFold key "stamps"
  then JSON.assign (JSON.toInt v) setStamps a
  else if JSON.EqualFold key "reward_id"
  then JSON.assign (JSON.toString v) setRewardID a
  else if JSON.EqualFold key "reference"
  then JSON.assign (JSON.toString v) setReference a
  else if JSON.EqualFold key "extra_data"
  then match v with
       | JSON.Obj | JSON.Null => Some a
       | _ => None
       end
  else Some a.

(** [json.Marshal(event.Payload)] followed by [json.Unmarshal] into a
    [models.LoyaltyAction]. *)
Definition decodeLoyaltyAction (payload : JSON.object) : option LoyaltyAction.t :=
  JSON.decode actionField payload (LoyaltyAction.mk "" 0 0 "" "").

Definition failed (eventID : string) (now : Z) (error : string)
  : ProcessingResult.t :=
  ProcessingResult.mk eventID now false error 0 0 [] [].

(** [processLoyaltyAction]: the result and the ledger calls made, in order. *)
Definition processLoyaltyAction (ledger : LedgerClient) (now : Z)
    (event : BaseEvent.t) : ProcessingResult.t * list LedgerCall :=
  let eventID := BaseEvent.EventID event in
  match decodeLoyaltyAction (BaseEvent.Payload event) with
  | None => (failed eventID now "failed to unmarshal loyalty action data", [])
  | Some action =>
      let actionType := LoyaltyAction.ActionType action in
      if String.eqb actionType "manual_points" then
        if 0 <? LoyaltyAction.Points action then
          let call :=
            CreatePointsTransfer (BaseEvent.OrgID event)
              (BaseEvent.CustomerID event) (LoyaltyAction.Points action)
              (LoyaltyAction.Reference action) in
          match ledger call with
          | Some err =>
              (failed eventID now ("failed to create points transfer: " ++ err),
               [call])
          | None =>
              (ProcessingResult.mk eventID now true ""
                 (LoyaltyAction.Points action) 0 []
                 ["manual award: " ++ itoa (LoyaltyAction.Points action)
                                   ++ " points"],
               [call])
          end
        else (ProcessingResult.mk eventID now true "" 0 0 [] [], [])
      else if String.eqb actionType "bonus_stamps" then
        if 0 <? LoyaltyAction.Stamps action then
          let call :=
            CreateStampsTransfer (BaseEvent.OrgID event)
              (BaseEvent.CustomerID event) (LoyaltyAction.Stamps action)
              (LoyaltyAction.Reference action) in
          match ledger call with
          | Some err =>
              (failed eventID now ("failed to create stamps transfer: " ++ err),
               [call])
          | None =>
              (ProcessingResult.mk eventID now true "" 0
                 (LoyaltyAction.Stamps action) []
                 ["bonus stamps: " ++ itoa (LoyaltyAction.Stamps action)],
               [call])
          end
        else (ProcessingResult.mk eventID now true "" 0 0 [] [], [])
      else
        (failed eventID now ("unknown loyalty action type: " ++ actionType), [])
  end.

(** *** POS transactions *)

Record POSTransaction := mkPOSTransaction {
  TransactionID : string;
  Amount : F64.float64;
  PaymentMethod : string;
  ReceiptNumber : string;
  Cashier : string
}.

(** What the membership service returns (clients/membership.go). *)
Record RewardThreshold := mkRewardThreshold {
  ThresholdPoints : Z;
  ThresholdStamps : Z;
  RewardType : string;
  RewardValue : string;
  Description : string
}.

Record OrgSettings := mkOrgSettings {
  PointsPerDollar : F64.float64;
  StampsPerVisit : Z;
  RewardThresholds : list RewardThreshold;
  MaxStampsPerCard : Z
}.

Record Organization := mkOrganization {
  OrgID : string;
  Name : string;
  Settings : OrgSettings
}.

(** [clients.MembershipClientInterface]: the error of [GetCustomer] (the
    customer itself is not read), and the organization or the error of
    [GetOrganization]. *)
Record MembershipClient := mkMembershipClient {
  GetCustomer : string -> option string;
  GetOrganization : string -> Organization + string
}.

(** A JSON number decoded into a [float64]: the nearest binary64 number,
    for a number in range ([F64.inRange]); a number that underflows or
    overflows is outside the model. *)
Definition toFloat64 (v : JSON.value) : option (option F64.float64) :=
  match v with
  | JSON.Int z => Some (Some (F64.const (inject_Z z)))
  | JSON.Frac q => Some (Some (F64.const q))
  | JSON.Null => Some None
  | _ => None
  end.

(** The [json:"..."] tags of [models.POSTransaction]; [items] is a slice
    and takes an array or [null] only (the items are not read). *)
Definition transactionField (key : string) (v : JSON.value) (t : POSTransaction)
  : option POSTransaction :=
  if JSON.EqualFold key "transaction_id"
  then JSON.assign (JSON.toString v)
         (fun s t => mkPOSTransaction s (Amount t) (PaymentMethod t)
                                      (ReceiptNumber t) (Cashier t)) t
  else if JSON.EqualFold key "amount"
  then JSON.assign (toFloat64 v)
         (fun a t => mkPOSTransaction (TransactionID t) a (PaymentMethod t)
                                      (ReceiptNumber t) (Cashier t)) t
  else if JSON.EqualFold key "items"
  then match v with
       | JSON.Arr | JSON.Null => Some t
       | _ => None
       end
  else if JSON.EqualFold key "payment_method"
  then JSON.assign (JSON.toString v)
         (fun s t => mkPOSTransaction (TransactionID t) (Amount t) s
                                      (ReceiptNumber t) (Cashier t)) t
  else if JSON.EqualFold key "receipt_number"
  then JSON.assign (JSON.toString v)
         (fun s t => mkPOSTransaction (TransactionID t) (Amount t)
                                      (PaymentMethod t) s (Cashier t)) t
  else if JSON.EqualFold key "cashier"
  then JSON.assign (JSON.toString v)
         (fun s t => mkPOSTransaction (TransactionID t) (Amount t)
                                      (PaymentMethod t) (ReceiptNumber t) s) t
  else Some t.

Definition decodePOSTransaction (payload : JSON.object) : option POSTransaction :=
  JSON.decode transactionField payload (mkPOSTransaction "" 0%Q "" "" "").

(** [calculatePoints]: [int(math.Floor(amount * pointsPerDollar))]. The
    product can be any number, so the conversion takes the platform's answer
    [outOfRange] for a floor that does not fit the [int]. The product itself
    is the float64 product where it is in range ([F64.inRange]); a product
    that underflows or overflows is outside the model. *)
Definition calculatePoints (outOfRange : F64.float64 -> Z)
    (amount pointsPerDollar : F64.float64) : Z :=
  if F64.leb pointsPerDollar 0%Q then 0
  else F64.toIntOr outOfRange (F64.Floor (F64.mul amount pointsPerDollar)).

(** The two quantities [processPOSTransaction] computes for an event. *)
Definition earned (outOfRange : F64.float64 -> Z) (amount : F64.float64)
    (settings : OrgSettings) : Z * Z :=
  (calculatePoints outOfRange amount (PointsPerDollar settings),
   StampsPerVisit settings).

Definition checkRewardThresholds (thresholds : list RewardThreshold)
    (points stamps : Z) (now : Z) : list RewardTriggered.t :=
  map (fun threshold =>
         RewardTriggered.mk
           ("reward_" ++ itoa (ThresholdPoints threshold) ++ "_"
                      ++ itoa (ThresholdStamps threshold))
           (RewardType threshold) (RewardValue threshold)
           (Description threshold) now)
      (List.filter
         (fun threshold =>
            ((0 <? ThresholdPoints threshold)
             && (ThresholdPoints threshold <=? points))
            || ((0 <? ThresholdStamps threshold)
                && (ThresholdStamps threshold <=? stamps)))
         thresholds).

(** [processPOSTransaction]: the result and the ledger calls made, in order. *)
Definition processPOSTransaction (outOfRange : F64.float64 -> Z)
    (membership : MembershipClient) (ledger : LedgerClient) (now : Z)
    (event : BaseEvent.t)
  : ProcessingResult.t * list LedgerCall :=
  let eventID := BaseEvent.EventID event in
  match decodePOSTransaction (BaseEvent.Payload event) with
  | None => (failed eventID now "failed to unmarshal transaction data", [])
  | Some transaction =>
  match GetCustomer membership (BaseEvent.CustomerID event) with
  | Some err => (failed eventID now ("failed to get customer: " ++ err), [])
  | None =>
  match GetOrganization membership (BaseEvent.OrgID event) with
  | inr err => (failed eventID now ("failed to get organization: " ++ err), [])
  | inl org =>
      let '(pointsEarned, stampsEarned) :=
        earned outOfRange (Amount transaction) (Settings org) in
      let reference := "pos_transaction_" ++ TransactionID transaction in
      let pointsCall :=
        CreatePointsTransfer (BaseEvent.OrgID event) (BaseEvent.CustomerID event)
                             pointsEarned reference in
      let stampsCall :=
        CreateStampsTransfer (BaseEvent.OrgID event) (BaseEvent.CustomerID event)
                             stampsEarned reference in
      let pointsCalls := if 0 <? pointsEarned then [pointsCall] else [] in
      let pointsActions :=
        if 0 <? pointsEarned
        then ["awarded " ++ itoa pointsEarned ++ " points"] else [] in
      let stampsAction := "awarded " ++ itoa stampsEarned ++ " stamps" in
      let resultPoints := if 0 <? pointsEarned then pointsEarned else 0 in
      match (if 0 <? pointsEarned then ledger pointsCall else None) with
      | Some err =>
          (failed eventID now ("failed to create points transfer: " ++ err),
           pointsCalls)
      | None =>
          if 0 <? stampsEarned then
            match ledger stampsCall with
            | Some err =>
                (ProcessingResult.mk eventID now false
                   ("failed to create stamps transfer: " ++ err)
                   resultPoints 0 [] pointsActions,
                 (pointsCalls ++ [stampsCall])%list)
            | None =>
                (ProcessingResult.mk eventID now true "" resultPoints stampsEarned
                   (checkRewardThresholds (RewardThresholds (Settings org))
                                          pointsEarned stampsEarned now)
                   (pointsActions ++ [stampsAction])%list,
                 (pointsCalls ++ [stampsCall])%list)
            end
          else
            (ProcessingResult.mk eventID now true "" resultPoints 0
               (checkRewardThresholds (RewardThresholds (Settings org))
                                      pointsEarned stampsEarned now)
               pointsActions,
             pointsCalls)
      end
  end end end.

(** [ProcessEvent]: the dispatch on the event type. [message] is the event
    the message decodes to, or the error of [json.Unmarshal]; the result is a
    pointer ([None]: [nil]) and an error, with the ledger calls made. *)
Definition EventTypePOSTransaction : string := "pos.transaction".
Definition EventTypeLoyaltyAction : string := "loyalty.action".
Definition EventTypeCustomerUpdated : string := "customer.updated".

Definition ProcessEvent (outOfRange : F64.float64 -> Z)
    (membership : MembershipClient) (ledger : LedgerClient)
    (now : Z) (message : BaseEvent.t + string)
  : option ProcessingResult.t * option string * list LedgerCall :=
  match message with
  | inr err => (None, Some ("failed to unmarshal event: " ++ err), [])
  | inl event =>
      if String.eqb (BaseEvent.EventType event) EventTypePOSTransaction then
        let '(result, calls) :=
          processPOSTransaction outOfRange membership ledger now event in
        (Some result, None, calls)
      else if String.eqb (BaseEvent.EventType event) EventTypeLoyaltyAction then
        let '(result, calls) := processLoyaltyAction ledger now event in
        (Some result, None, calls)
      else
        (Some (failed (BaseEvent.EventID event) now
                      ("unknown event type: " ++ BaseEvent.EventType event)),
         None, [])
  end.

(** Events and a ledger used as examples below. *)
Definition posEvent (amount : Q) : BaseEvent.t :=
  BaseEvent.mk "evt_456" "pos.transaction" "org1" "loc1" "cust1" 0
    [("transaction_id", JSON.Str "txn_1"); ("amount", JSON.Frac amount)].

Definition membershipUp (pointsPerDollar : Q) (stampsPerVisit : Z)
  : MembershipClient :=
  mkMembershipClient (fun _ => None)
    (fun orgID =>
       inl (mkOrganization orgID "Org"
              (mkOrgSettings (F64.const pointsPerDollar) stampsPerVisit [] 10))).

Definition loyaltyEvent (actionType : string) (points stamps : Z) : BaseEvent.t :=
  BaseEvent.mk "evt_123" "loyalty.action" "org1" "loc1" "cust1" 0
    [("action_type", JSON.Str actionType); ("points", JSON.Int points);
     ("stamps", JSON.Int stamps); ("reference", JSON.Str "manual_award")].

Definition ledgerUp : LedgerClient := fun _ => None.

(** A ledger that takes points transfers and answers 500 to stamps
    transfers. *)
Definition ledgerStampsDown : LedgerClient :=
  fun call =>
    match call with
    | CreateStampsTransfer _ _ _ _ => Some "ledger service returned status 500"
    | CreatePointsTransfer _ _ _ _ => None
    end.

Definition isPointsCall (call : LedgerCall) : bool :=
  match call with
  | CreatePointsTransfer _ _ _ _ => true
  | CreateStampsTransfer _ _ _ _ => false
  end.

(** The thresholds of [TestCheckRewardThresholds]. *)
Definition testThresholds : list RewardThreshold :=
  [ mkRewardThreshold 100 0 "discount" "10.0" "10% discount at 100 points";
    mkRewardThreshold 0 5 "free_item" "0.0" "Free item at 5 stamps";
    mkRewardThreshold 200 10 "voucher" "25.0"
      "$25 voucher at 200 points and 10 stamps" ].

End Processor.


(** ** [time.Time] and [time.Duration] *)

Module GoTime.

Definition Hour : Z := 3600000000000.

(** [t.Sub(u)]: the duration in nanoseconds, saturating at the ends of
    [int64]. *)
Definition Sub (t u : Z) : Z :=
  Z.max (- 2 ^ 63) (Z.min (2 ^ 63 - 1) (t - u)).

(** [d.Hours()]. *)
Definition Hours (d : Z) : F64.float64 :=
  F64.add (F64.ofInt (Z.quot d Hour))
          (F64.div (F64.ofInt (Z.rem d Hour)) (F64.const 3600000000000)).

Definition Before (t u : Z) : bool := t <? u.

End GoTime.

(** ** RFM analytics: models *)

Module CustomerActivity.
Record t := mk {
  OrgID : string;
  LocationID : string;
  CustomerID : string;
  TransactionDate : Z;
  Amount : F64.float64;
  FirstTransaction : Z;
  LastTransaction : Z;
  TotalTransactions : Z;
  TotalSpent : F64.float64
}.
End CustomerActivity.

Module RFMQuintiles.
Record t := mk {
  OrgID : string;
  RecencyQuintiles : list Z;
  FrequencyQuintiles : list Z;
  MonetaryQuintiles : list F64.float64;
  CalculatedAt : Z
}.
End RFMQuintiles.

(** An RFM score; [AvgOrderValue] is [None] when the quotient is not a
    finite number (a customer with no transaction). *)
Module RFMScore.
Record t := mk {
  OrgID : string;
  LocationID : string;
  CustomerID : string;
  RecencyScore : Z;
  FrequencyScore : Z;
  MonetaryScore : Z;
  RFMSegment : string;
  LastTransaction : Z;
  TotalTransactions : Z;
  TotalSpent : F64.float64;
  AvgOrderValue : option F64.float64;
  DaysSinceFirst : Z;
  DaysSinceLast : Z;
  CalculatedAt : Z;
  UpdatedAt : Z
}.
End RFMScore.

(** ** RFM analytics: quintiles (services/analytics/internal/rfm) *)

Module RFM.

Definition Qle_dec (x y : Q) : {(x <= y)%Q} + {~ (x <= y)%Q} :=
  match Qlt_le_dec y x with
  | left H => right (Qlt_not_le _ _ H)
  | right H => left H
  end.

#[export] Instance Qle_rel_dec : RelDecision Qle := Qle_dec.

(** [sort.Ints] and [sort.Float64s]: the ascending arrangement. *)
Definition sortInts (values : list Z) : list Z := merge_sort Z.le values.
Definition sortFloat64s (values : list F64.float64) : list F64.float64 :=
  merge_sort Qle values.

(** [percentile := float64(i+1) * 0.2] and [percentile*float64(n)]. *)
Definition percentile (i : Z) : F64.float64 :=
  F64.mul (F64.ofInt (i + 1)) (F64.const (2 # 10)).

Definition scaledRank (i n : Z) : F64.float64 :=
  F64.mul (percentile i) (F64.ofInt n).

(** The same two products on the kernel's binary64 numbers. *)
Definition primPercentile (i : Z) : PrimFloat.float :=
  PrimFloat.mul (F64.primOfInt (i + 1))
                (PrimFloat.div (F64.primOfInt 2) (F64.primOfInt 10)).

Definition primScaledRank (i n : Z) : PrimFloat.float :=
  PrimFloat.mul (primPercentile i) (F64.primOfInt n).

(** The index read for quintile [i] of [n] sorted values:
    [percentile := float64(i+1) * 0.2],
    [index := int(math.Ceil(percentile*float64(n))) - 1], capped at [n - 1]. *)
Definition quintileIndex (i n : Z) : Z :=
  let index := F64.toInt (F64.Ceil (scaledRank i n)) - 1 in
  if index >=? n then n - 1 else index.

(** The loop [for i := 0; i < 5; i++ { ...; quintiles[i] = values[index] }];
    an index outside the slice panics. *)
Fixpoint quintilesFrom {A : Type} (values : list A) (indices : list Z)
  : option (list A) :=
  match indices with
  | [] => Some []
  | i :: rest =>
      let index := quintileIndex i (Z.of_nat (length values)) in
      if index <? 0 then None
      else match values !! Z.to_nat index, quintilesFrom values rest with
           | Some v, Some quintiles => Some (v :: quintiles)
           | _, _ => None
           end
  end.

Definition calculateIntQuintiles (values : list Z) : option (list Z) :=
  quintilesFrom (sortInts values) [0; 1; 2; 3; 4].

Definition calculateFloatQuintiles (values : list F64.float64)
  : option (list F64.float64) :=
  quintilesFrom (sortFloat64s values) [0; 1; 2; 3; 4].

Definition getDefaultQuintiles (orgID : string) (now : Z) : RFMQuintiles.t :=
  RFMQuintiles.mk orgID [7; 30; 90; 180; 365] [1; 2; 5; 10; 20]
    [F64.const 10; F64.const 25; F64.const 50; F64.const 100; F64.const 250]
    now.

(** [int(now.Sub(activity.LastTransaction).Hours() / 24)]. *)
Definition daysSince (now t : Z) : Z :=
  F64.toInt (F64.div (GoTime.Hours (GoTime.Sub now t)) (F64.const 24)).

(** [CalculateQuintilesForOrg]; [activities] is what
    [storage.GetCustomerActivities] returned, [now] and [calculatedAt] are the
    two clock reads. *)
Definition CalculateQuintilesForOrg
    (activities : list CustomerActivity.t + string) (orgID : string)
    (now calculatedAt : Z) : Outcome (RFMQuintiles.t * option string) :=
  match activities with
  | inr err =>
      Done (RFMQuintiles.mk "" [] [] [] 0,
            Some ("failed to get customer activities: " ++ err))
  | inl activities =>
      if (length activities <? 5)%nat
      then Done (getDefaultQuintiles orgID now, None)
      else
        let recencyDays :=
          map (fun a => daysSince now (CustomerActivity.LastTransaction a))
              activities in
        let frequencies := map CustomerActivity.TotalTransactions activities in
        let monetaryValues := map CustomerActivity.TotalSpent activities in
        match calculateIntQuintiles recencyDays,
              calculateIntQuintiles frequencies,
              calculateFloatQuintiles monetaryValues with
        | Some recency, Some frequency, Some monetary =>
            Done (RFMQuintiles.mk orgID recency frequency monetary calculatedAt,
                  None)
        | _, _, _ => Panic
        end
  end.

(** *** Scores and segments *)

(** [RFMSegments]: the segment of a key of three scores. *)
Definition RFMSegments : gmap string string :=
  list_to_map
    [ ("555", "Champions"); ("554", "Champions"); ("544", "Champions");
      ("545", "Champions"); ("454", "Champions"); ("455", "Champions");
      ("445", "Champions");
      ("543", "Loyal Customers"); ("444", "Loyal Customers");
      ("435", "Loyal Customers"); ("355", "Loyal Customers");
      ("354", "Loyal Customers"); ("345", "Loyal Customers");
      ("344", "Loyal Customers"); ("335", "Loyal Customers");
      ("512", "Potential Loyalists"); ("511", "Potential Loyalists");
      ("422", "Potential Loyalists"); ("421", "Potential Loyalists");
      ("412", "Potential Loyalists"); ("411", "Potential Loyalists");
      ("333", "New Customers"); ("323", "New Customers");
      ("322", "New Customers"); ("232", "New Customers");
      ("241", "New Customers"); ("251", "New Customers");
      ("155", "Cannot Lose Them"); ("154", "Cannot Lose Them");
      ("144", "Cannot Lose Them"); ("214", "Cannot Lose Them");
      ("215", "Cannot Lose Them"); ("115", "Cannot Lose Them");
      ("245", "At Risk"); ("254", "At Risk"); ("253", "At Risk");
      ("244", "At Risk"); ("234", "At Risk");
      ("331", "Need Attention"); ("321", "Need Attention");
      ("312", "Need Attention"); ("231", "Need Attention");
      ("152", "About to Sleep"); ("242", "About to Sleep");
      ("142", "About to Sleep");
      ("111", "Lost"); ("112", "Lost"); ("121", "Lost"); ("131", "Lost");
      ("141", "Lost"); ("151", "Lost") ].

(** [getRecencyScore]: the loop [for i, threshold := range quintiles], from
    index [i] on. *)
Fixpoint recencyFrom (i daysSinceLast : Z) (quintiles : list Z) : Z :=
  match quintiles with
  | [] => 1
  | threshold :: rest =>
      if daysSinceLast <=? threshold then 5 - i
      else recencyFrom (i + 1) daysSinceLast rest
  end.

Definition getRecencyScore (daysSinceLast : Z) (quintiles : list Z) : Z :=
  recencyFrom 0 daysSinceLast quintiles.

(** The loop [for i := len(quintiles) - 1; i >= 0; i--] of
    [getFrequencyScore] and [getMonetaryScore]: [reversed] holds the thresholds
    from index [i] down to index 0. *)
Fixpoint scoreFrom {A : Type} (reached : A -> bool) (reversed : list A) (i : Z)
  : Z :=
  match reversed with
  | [] => 1
  | threshold :: rest =>
      if reached threshold then i + 1 else scoreFrom reached rest (i - 1)
  end.

Definition getFrequencyScore (totalTransactions : Z) (quintiles : list Z) : Z :=
  scoreFrom (fun threshold => threshold <=? totalTransactions) (rev quintiles)
            (Z.of_nat (length quintiles) - 1).

Definition getMonetaryScore (totalSpent : F64.float64)
    (quintiles : list F64.float64) : Z :=
  scoreFrom (fun threshold => F64.leb threshold totalSpent) (rev quintiles)
            (Z.of_nat (length quintiles) - 1).

(** [getRFMSegment]: the table first, the rules for the keys it does not
    hold. *)
Definition getRFMSegment (r f m : Z) : string :=
  let key := Processor.itoa r ++ Processor.itoa f ++ Processor.itoa m in
  match RFMSegments !! key with
  | Some segment => segment
  | None =>
      if (4 <=? r) && (4 <=? f) && (4 <=? m) then "Champions"
      else if (3 <=? r) && (3 <=? f) && (3 <=? m) then "Loyal Customers"
      else if (3 <=? r) && (f <=? 2) && (m <=? 2) then "Potential Loyalists"
      else if (4 <=? r) && (f <=? 2) && (m <=? 2) then "New Customers"
      else if (r <=? 2) && (4 <=? f) && (4 <=? m) then "Cannot Lose Them"
      else if (r <=? 2) && (3 <=? f) && (3 <=? m) then "At Risk"
      else if (r <=? 3) && (f <=? 2) && (3 <=? m) then "Need Attention"
      else if (r <=? 2) && (f <=? 2) && (3 <=? m) then "About to Sleep"
      else "Lost"
  end.

(** [calculateRFMScore]; [now], [calculatedAt] and [updatedAt] are its three
    clock reads. *)
Definition calculateRFMScore (activity : CustomerActivity.t)
    (quintiles : RFMQuintiles.t) (now calculatedAt updatedAt : Z) : RFMScore.t :=
  let daysSinceLast := daysSince now (CustomerActivity.LastTransaction activity) in
  let daysSinceFirst := daysSince now (CustomerActivity.FirstTransaction activity) in
  let avgOrderValue :=
    if CustomerActivity.TotalTransactions activity =? 0 then None
    else Some (F64.div (CustomerActivity.TotalSpent activity)
                       (F64.ofInt (CustomerActivity.TotalTransactions activity))) in
  let recencyScore :=
    getRecencyScore daysSinceLast (RFMQuintiles.RecencyQuintiles quintiles) in
  let frequencyScore :=
    getFrequencyScore (CustomerActivity.TotalTransactions activity)
                      (RFMQuintiles.FrequencyQuintiles quintiles) in
  let monetaryScore :=
    getMonetaryScore (CustomerActivity.TotalSpent activity)
                     (RFMQuintiles.MonetaryQuintiles quintiles) in
  let segment := getRFMSegment recencyScore frequencyScore monetaryScore in
  RFMScore.mk (CustomerActivity.OrgID activity)
    (CustomerActivity.LocationID activity) (CustomerActivity.CustomerID activity)
    recencyScore frequencyScore monetaryScore segment
    (CustomerActivity.LastTransaction activity)
    (CustomerActivity.TotalTransactions activity)
    (CustomerActivity.TotalSpent activity) avgOrderValue
    daysSinceFirst daysSinceLast calculatedAt updatedAt.

(** The nine segment names. *)
Definition segmentNames : list string :=
  ["Champions"; "Loyal Customers"; "Potential Loyalists"; "New Customers";
   "Cannot Lose Them"; "At Risk"; "Need Attention"; "About to Sleep"; "Lost"].

End RFM.



(** ** RFM analytics: the customer_activities collection (storage) *)

Module ActivityDoc.
Record t := mk {
  org_id : string;
  location_id : string;
  customer_id : string;
  last_transaction : Z;
  total_transactions : Z;
  total_spent : F64.float64;
  updated_at : Z;
  first_transaction : Z;
  created_at : Z
}.
End ActivityDoc.

Module ActivityStorage.

Definition collection := list ActivityDoc.t.

(** Decoding a document into a [models.CustomerActivity]. The struct carries
    [json] tags and no [bson] tag, and the storage sets no option of the
    driver, so the driver looks each field up under its lower-cased name
    ([orgid], [customerid], [firsttransaction], [totaltransactions], ...). A
    stored document has none of these keys (it has [org_id], [customer_id],
    [first_transaction], [total_transactions], ...): every field of the
    decoded activity keeps its zero value, whatever the document holds. *)
Definition decode (d : ActivityDoc.t) : CustomerActivity.t :=
  CustomerActivity.mk "" "" "" 0 0%Q 0 0 0 0%Q.

(** [GetCustomerActivities]: [Find] with the filter [{org_id}]; [failure] is
    the error of the database, if any. *)
Definition GetCustomerActivities (docs : collection) (orgID : string)
    (failure : option string) : list CustomerActivity.t + string :=
  match failure with
  | Some err => inr ("failed to find customer activities: " ++ err)
  | None =>
      inl (map decode
             (List.filter (fun d => String.eqb (ActivityDoc.org_id d) orgID) docs))
  end.

Definition matches (activity : CustomerActivity.t) (d : ActivityDoc.t) : bool :=
  String.eqb (ActivityDoc.org_id d) (CustomerActivity.OrgID activity)
  && String.eqb (ActivityDoc.location_id d) (CustomerActivity.LocationID activity)
  && String.eqb (ActivityDoc.customer_id d) (CustomerActivity.CustomerID activity).

(** The [$set] part of the update, on a document that exists. *)
Definition applySet (activity : CustomerActivity.t) (updatedAt : Z)
    (d : ActivityDoc.t) : ActivityDoc.t :=
  ActivityDoc.mk (CustomerActivity.OrgID activity)
    (CustomerActivity.LocationID activity) (CustomerActivity.CustomerID activity)
    (CustomerActivity.LastTransaction activity)
    (CustomerActivity.TotalTransactions activity)
    (CustomerActivity.TotalSpent activity) updatedAt
    (ActivityDoc.first_transaction d) (ActivityDoc.created_at d).

(** The document an upsert inserts: [$set] and [$setOnInsert]. *)
Definition inserted (activity : CustomerActivity.t) (updatedAt createdAt : Z)
  : ActivityDoc.t :=
  ActivityDoc.mk (CustomerActivity.OrgID activity)
    (CustomerActivity.LocationID activity) (CustomerActivity.CustomerID activity)
    (CustomerActivity.LastTransaction activity)
    (CustomerActivity.TotalTransactions activity)
    (CustomerActivity.TotalSpent activity) updatedAt
    (CustomerActivity.FirstTransaction activity) createdAt.

(** [UpdateOne]: the first document matching the filter is updated. *)
Fixpoint updateOne (activity : CustomerActivity.t) (updatedAt : Z)
    (docs : collection) : option collection :=
  match docs with
  | [] => None
  | d :: rest =>
      if matches activity d then Some (applySet activity updatedAt d :: rest)
      else match updateOne activity updatedAt rest with
           | Some rest' => Some (d :: rest')
           | None => None
           end
  end.

(** [UpdateCustomerActivity]: [UpdateOne] with [SetUpsert(true)]. *)
Definition UpdateCustomerActivity (docs : collection)
    (activity : CustomerActivity.t) (updatedAt createdAt : Z)
    (failure : option string) : collection * option string :=
  match failure with
  | Some err => (docs, Some ("failed to update customer activity: " ++ err))
  | None =>
      match updateOne activity updatedAt docs with
      | Some docs' => (docs', None)
      | None => ((docs ++ [inserted activity updatedAt createdAt])%list, None)
      end
  end.

End ActivityStorage.

(** ** RFM analytics: quintile cache and scores (RFMStorage, MongoStorage) *)

Module RFMStorage.

(** The three collections of the RFM engine, each in natural order. *)
Record Storage := mkStorage {
  customer_activities : ActivityStorage.collection;
  rfm_quintiles : list RFMQuintiles.t;
  rfm_scores : list RFMScore.t
}.

(** The errors of the database on the calls of one
    [ProcessCustomerTransaction], [None] where the call goes through. *)
Record Failures := mkFailures {
  getQuintilesFailure : option string;
  findActivitiesFailure : option string;
  saveQuintilesFailure : option string;
  saveScoreFailure : option string
}.

Definition noFailures : Failures := mkFailures None None None None.

(** The clock reads of one [ProcessCustomerTransaction], in order:
    [time.Since], the two of [CalculateQuintilesForOrg], the three of
    [calculateRFMScore]. *)
Record Clock := mkClock {
  sinceNow : Z;
  quintilesNow : Z;
  quintilesCalculatedAt : Z;
  scoreNow : Z;
  scoreCalculatedAt : Z;
  scoreUpdatedAt : Z
}.

Definition GetQuintiles (s : Storage) (orgID : string) (failure : option string)
  : option RFMQuintiles.t * option string :=
  match failure with
  | Some err => (None, Some ("failed to get quintiles: " ++ err))
  | None =>
      match List.find (fun q => String.eqb (RFMQuintiles.OrgID q) orgID)
                      (rfm_quintiles s) with
      | Some quintiles => (Some quintiles, None)
      | None => (None, Some "quintiles not found")
      end
  end.

Fixpoint upsertQuintiles (quintiles : RFMQuintiles.t) (docs : list RFMQuintiles.t)
  : list RFMQuintiles.t :=
  match docs with
  | [] => [quintiles]
  | d :: rest =>
      if String.eqb (RFMQuintiles.OrgID d) (RFMQuintiles.OrgID quintiles)
      then quintiles :: rest
      else d :: upsertQuintiles quintiles rest
  end.

Definition SaveQuintiles (s : Storage) (quintiles : RFMQuintiles.t)
    (failure : option string) : Storage * option string :=
  match failure with
  | Some err => (s, Some ("failed to save quintiles: " ++ err))
  | None =>
      (mkStorage (customer_activities s)
                 (upsertQuintiles quintiles (rfm_quintiles s)) (rfm_scores s),
       None)
  end.

Definition sameCustomer (score d : RFMScore.t) : bool :=
  String.eqb (RFMScore.OrgID d) (RFMScore.OrgID score)
  && String.eqb (RFMScore.LocationID d) (RFMScore.LocationID score)
  && String.eqb (RFMScore.CustomerID d) (RFMScore.CustomerID score).

Fixpoint upsertScore (score : RFMScore.t) (docs : list RFMScore.t)
  : list RFMScore.t :=
  match docs with
  | [] => [score]
  | d :: rest =>
      if sameCustomer score d then score :: rest
      else d :: upsertScore score rest
  end.

Definition SaveRFMScore (s : Storage) (score : RFMScore.t)
    (failure : option string) : Storage * option string :=
  match failure with
  | Some err => (s, Some ("failed to save RFM score: " ++ err))
  | None =>
      (mkStorage (customer_activities s) (rfm_quintiles s)
                 (upsertScore score (rfm_scores s)),
       None)
  end.

(** [GetRFMScoreByLocation]: [FindOne] with the filter
    [{org_id, location_id, customer_id}]. *)
Definition GetRFMScoreByLocation (s : Storage) (orgID locationID customerID : string)
    (failure : option string) : option RFMScore.t * option string :=
  match failure with
  | Some err => (None, Some ("failed to get RFM score by location: " ++ err))
  | None =>
      match List.find (fun d => String.eqb (RFMScore.OrgID d) orgID
                                && String.eqb (RFMScore.LocationID d) locationID
                                && String.eqb (RFMScore.CustomerID d) customerID)
                      (rfm_scores s) with
      | Some score => (Some score, None)
      | None => (None, Some "RFM score not found for location")
      end
  end.

(** [GetOrCalculateQuintiles]: the stored quintiles while they are at most
    24 hours old, fresh ones otherwise; an error of [SaveQuintiles] is
    dropped. *)
Definition GetOrCalculateQuintiles (s : Storage) (failures : Failures)
    (clock : Clock) (orgID : string)
  : Outcome (Storage * RFMQuintiles.t * option string) :=
  let calculated :=
    RFM.CalculateQuintilesForOrg
      (ActivityStorage.GetCustomerActivities (customer_activities s) orgID
                                             (findActivitiesFailure failures))
      orgID (quintilesNow clock) (quintilesCalculatedAt clock) in
  match GetQuintiles s orgID (getQuintilesFailure failures) with
  | (_, Some _) =>
      match calculated with
      | Panic => Panic
      | Done (_, Some calcErr) =>
          Done (s, RFMQuintiles.mk "" [] [] [] 0,
                Some ("failed to calculate quintiles: " ++ calcErr))
      | Done (newQuintiles, None) =>
          Done ((SaveQuintiles s newQuintiles (saveQuintilesFailure failures)).1,
                newQuintiles, None)
      end
  | (None, None) => Panic
  | (Some quintiles, None) =>
      if 24 * GoTime.Hour
         <? GoTime.Sub (sinceNow clock) (RFMQuintiles.CalculatedAt quintiles)
      then
        match calculated with
        | Panic => Panic
        | Done (newQuintiles, None) =>
            Done ((SaveQuintiles s newQuintiles (saveQuintilesFailure failures)).1,
                  newQuintiles, None)
        | Done (_, Some _) => Done (s, quintiles, None)
        end
      else Done (s, quintiles, None)
  end.

(** [RFMCalculator.ProcessCustomerTransaction]. *)
Definition ProcessCustomerTransaction (s : Storage) (failures : Failures)
    (clock : Clock) (activity : CustomerActivity.t)
  : Outcome (Storage * option string) :=
  match GetOrCalculateQuintiles s failures clock
          (CustomerActivity.OrgID activity) with
  | Panic => Panic
  | Done (s1, _, Some err) => Done (s1, Some ("failed to get quintiles: " ++ err))
  | Done (s1, quintiles, None) =>
      let rfmScore :=
        RFM.calculateRFMScore activity quintiles (scoreNow clock)
          (scoreCalculatedAt clock) (scoreUpdatedAt clock) in
      Done (SaveRFMScore s1 rfmScore (saveScoreFailure failures))
  end.

End RFMStorage.

(** ** RFM analytics: the consumer ([processMessage] of the RFM processor) *)

Module POSTransaction.
Record t := mk {
  TransactionID : string;
  Amount : F64.float64;
  Timestamp : Z
}.
End POSTransaction.

(** The consumer's [BaseEvent]; [Payload] is the payload decoded into a
    [POSTransaction], [None] when it does not decode. *)
Module AnalyticsEvent.
Record t := mk {
  EventID : string;
  EventType : string;
  OrgID : string;
  LocationID : string;
  CustomerID : string;
  Timestamp : Z;
  Payload : option POSTransaction.t
}.
End AnalyticsEvent.

Module RFMConsumer.

(** The first activity of the customer, as the [range] loop finds it. *)
Fixpoint findCustomer (activities : list CustomerActivity.t)
    (customerID : string) : option CustomerActivity.t :=
  match activities with
  | [] => None
  | activity :: rest =>
      if String.eqb (CustomerActivity.CustomerID activity) customerID
      then Some activity
      else findCustomer rest customerID
  end.

(** [getExistingActivity]: a pointer, [nil] when the customer has no
    activity, and an error. *)
Definition getExistingActivity (docs : ActivityStorage.collection)
    (orgID customerID : string) (findFailure : option string)
  : option CustomerActivity.t * option string :=
  match ActivityStorage.GetCustomerActivities docs orgID findFailure with
  | inr err => (None, Some err)
  | inl activities => (findCustomer activities customerID, None)
  end.

(** [processMessage]. [message] is the decoded message ([None]: it is not
    an event), [findFailure] and [updateFailure] the errors of the database
    on the two calls, [calculator] the error of
    [calculator.ProcessCustomerTransaction], [updatedAt] and [createdAt] the
    clock reads of the update. Reading a field through the [nil] pointer
    panics. *)
Definition processMessage (docs : ActivityStorage.collection)
    (findFailure updateFailure : option string)
    (calculator : CustomerActivity.t -> option string)
    (updatedAt createdAt : Z) (message : option AnalyticsEvent.t)
  : Outcome (ActivityStorage.collection * option string) :=
  match message with
  | None => Done (docs, Some "invalid message")
  | Some event =>
      if negb (String.eqb (AnalyticsEvent.EventType event) "pos.transaction")
      then Done (docs, None)
      else
        match AnalyticsEvent.Payload event with
        | None => Done (docs, Some "invalid transaction payload")
        | Some transaction =>
            let orgID := AnalyticsEvent.OrgID event in
            let customerID := AnalyticsEvent.CustomerID event in
            let timestamp := POSTransaction.Timestamp transaction in
            let amount := POSTransaction.Amount transaction in
            let existingActivity :=
              match getExistingActivity docs orgID customerID findFailure with
              | (_, Some _) =>
                  Some (CustomerActivity.mk orgID "" customerID 0 0%Q
                          timestamp timestamp 0 0%Q)
              | (existingActivity, None) => existingActivity
              end in
            match existingActivity with
            | None => Panic
            | Some existingActivity =>
                let firstTransaction :=
                  if GoTime.Before timestamp
                       (CustomerActivity.FirstTransaction existingActivity)
                  then timestamp
                  else CustomerActivity.FirstTransaction existingActivity in
                let activity :=
                  CustomerActivity.mk orgID "" customerID timestamp amount
                    firstTransaction timestamp
                    (int64 (CustomerActivity.TotalTransactions existingActivity + 1))
                    (F64.add (CustomerActivity.TotalSpent existingActivity) amount) in
                match ActivityStorage.UpdateCustomerActivity docs activity
                        updatedAt createdAt updateFailure with
                | (docs', Some err) => Done (docs', Some err)
                | (docs', None) =>
                    match calculator activity with
                    | Some err => Done (docs', Some err)
                    | None => Done (docs', None)
                    end
                end
            end
        end
  end.

(** The stored record of a customer: the first document of the organisation
    with the customer's identifier. *)
Fixpoint storedRecord (docs : ActivityStorage.collection)
    (orgID customerID : string) : option ActivityDoc.t :=
  match docs with
  | [] => None
  | d :: rest =>
      if String.eqb (ActivityDoc.org_id d) orgID
         && String.eqb (ActivityDoc.customer_id d) customerID
      then Some d
      else storedRecord rest orgID customerID
  end.

(** Events used as examples below: the first event of a customer, a second
    one of a smaller amount, and one with an earlier timestamp. *)
Definition firstEvent : AnalyticsEvent.t :=
  AnalyticsEvent.mk "evt_1" "pos.transaction" "org1" "loc1" "cust1" 100
    (Some (POSTransaction.mk "txn_1" (F64.const 10) 100)).

Definition secondEvent : AnalyticsEvent.t :=
  AnalyticsEvent.mk "evt_2" "pos.transaction" "org1" "loc1" "cust1" 200
    (Some (POSTransaction.mk "txn_2" (F64.const 5) 200)).

Definition lateEvent : AnalyticsEvent.t :=
  AnalyticsEvent.mk "evt_3" "pos.transaction" "org1" "loc1" "cust1" 50
    (Some (POSTransaction.mk "txn_3" (F64.const 10) 50)).

(** The record the first event leaves when its read of the collection
    failed (the one way an event gets stored). *)
Definition storedActivity : ActivityDoc.t :=
  ActivityDoc.mk "org1" "" "cust1" 100 1 (F64.const 10) 100 100 100.

Definition calculatorUp : CustomerActivity.t -> option string := fun _ => None.

(** [shouldProcessMessage]: the topic holds one of the two patterns. *)
Definition shouldProcessMessage (topic : string) : bool :=
  Strings.Contains topic ".pos.transaction"
  || Strings.Contains topic ".loyalty.action".

End RFMConsumer.


(** ** Tier engine: models (services/analytics/internal/tiers/models.go) *)

Module TierRule.
Record t := mk {
  Name : string;
  Level : Z;
  MinSpentLifetime : F64.float64;
  MinSpentYear : F64.float64;
  MinVisitsLifetime : Z;
  MinVisitsYear : Z;
  PointsMultiplier : F64.float64;
  Benefits : list string;
  Color : string;
  Icon : string
}.
End TierRule.

Module CustomerTier.
Record t := mk {
  OrgID : string;
  LocationID : string;
  CustomerID : string;
  CurrentTier : string;
  PreviousTier : string;
  TierSince : Z;
  NextTier : string;
  ProgressToNext : F64.float64;
  TotalSpent : F64.float64;
  TotalVisits : Z;
  SpentThisYear : F64.float64;
  VisitsThisYear : Z;
  SpentThisMonth : F64.float64;
  VisitsThisMonth : Z;
  LastTransaction : Z;
  PointsMultiplier : F64.float64;
  Benefits : list string;
  CalculatedAt : Z;
  UpdatedAt : Z
}.
End CustomerTier.

Module OrgTierConfig.
Record t := mk {
  OrgID : string;
  TierRules : list TierRule.t;
  CreatedAt : Z;
  UpdatedAt : Z
}.
End OrgTierConfig.

Module TierUpgrade.
Record t := mk {
  OrgID : string;
  CustomerID : string;
  FromTier : string;
  ToTier : string;
  TriggeredBy : string;
  TriggerValue : F64.float64;
  UpgradedAt : Z;
  Notified : bool
}.
End TierUpgrade.

Module CustomerMetrics.
Record t := mk {
  OrgID : string;
  LocationID : string;
  CustomerID : string;
  TotalSpent : F64.float64;
  TotalVisits : Z;
  SpentThisYear : F64.float64;
  VisitsThisYear : Z;
  SpentThisMonth : F64.float64;
  VisitsThisMonth : Z;
  LastTransaction : Z;
  TransactionAmount : F64.float64
}.
End CustomerMetrics.

(** ** Tier engine: storage and calculator *)

Module Tiers.

Definition GetDefaultTierRules : list TierRule.t :=
  [ TierRule.mk "Bronze" 1 (F64.const 0) (F64.const 0) 0 0 (F64.const 1)
      ["Basic rewards"; "Birthday bonus"] "#CD7F32" "bronze-medal";
    TierRule.mk "Silver" 2 (F64.const 250) (F64.const 100) 5 3
      (F64.const (125 # 100))
      ["25% bonus points"; "Priority support"; "Birthday bonus"; "Monthly offers"]
      "#C0C0C0" "silver-medal";
    TierRule.mk "Gold" 3 (F64.const 750) (F64.const 300) 15 8
      (F64.const (15 # 10))
      ["50% bonus points"; "Free shipping"; "Early access"; "VIP support";
       "Birthday bonus"]
      "#FFD700" "gold-medal";
    TierRule.mk "Platinum" 4 (F64.const 2000) (F64.const 800) 30 15 (F64.const 2)
      ["Double points"; "Exclusive events"; "Personal concierge"; "Premium support"]
      "#E5E4E2" "platinum-medal";
    TierRule.mk "Diamond" 5 (F64.const 5000) (F64.const 2000) 50 25 (F64.const 3)
      ["Triple points"; "Lifetime benefits"; "Dedicated manager"; "Annual gifts"]
      "#B9F2FF" "diamond" ].

(** The three collections of the tier engine, each in natural order. *)
Record Storage := mkStorage {
  tier_configs : list OrgTierConfig.t;
  customer_tiers : list CustomerTier.t;
  tier_upgrades : list TierUpgrade.t
}.

(** The errors of the database on the five calls of one
    [ProcessCustomerMetrics], [None] where the call goes through. *)
Record Failures := mkFailures {
  getTierConfigFailure : option string;
  saveTierConfigFailure : option string;
  getCustomerTierFailure : option string;
  saveCustomerTierFailure : option string;
  saveTierUpgradeFailure : option string
}.

Definition noFailures : Failures := mkFailures None None None None None.

Definition GetTierConfig (s : Storage) (orgID : string) (failure : option string)
  : option OrgTierConfig.t * option string :=
  match failure with
  | Some err => (None, Some ("failed to get tier config: " ++ err))
  | None =>
      match List.find (fun c => String.eqb (OrgTierConfig.OrgID c) orgID)
                      (tier_configs s) with
      | Some config => (Some config, None)
      | None => (None, Some "tier config not found")
      end
  end.

Fixpoint upsertConfig (config : OrgTierConfig.t) (configs : list OrgTierConfig.t)
  : list OrgTierConfig.t :=
  match configs with
  | [] => [config]
  | c :: rest =>
      if String.eqb (OrgTierConfig.OrgID c) (OrgTierConfig.OrgID config)
      then config :: rest
      else c :: upsertConfig config rest
  end.

Definition SaveTierConfig (s : Storage) (config : OrgTierConfig.t)
    (failure : option string) : Storage * option string :=
  match failure with
  | Some err => (s, Some ("failed to save tier config: " ++ err))
  | None =>
      (mkStorage (upsertConfig config (tier_configs s)) (customer_tiers s)
                 (tier_upgrades s), None)
  end.

Definition GetCustomerTier (s : Storage) (orgID customerID : string)
    (failure : option string) : option CustomerTier.t * option string :=
  match failure with
  | Some err => (None, Some ("failed to get customer tier: " ++ err))
  | None =>
      match List.find (fun t => String.eqb (CustomerTier.OrgID t) orgID
                                && String.eqb (CustomerTier.CustomerID t) customerID)
                      (customer_tiers s) with
      | Some tier => (Some tier, None)
      | None => (None, Some "customer tier not found")
      end
  end.

Fixpoint upsertTier (tier : CustomerTier.t) (tiers : list CustomerTier.t)
  : list CustomerTier.t :=
  match tiers with
  | [] => [tier]
  | t :: rest =>
      if String.eqb (CustomerTier.OrgID t) (CustomerTier.OrgID tier)
         && String.eqb (CustomerTier.LocationID t) (CustomerTier.LocationID tier)
         && String.eqb (CustomerTier.CustomerID t) (CustomerTier.CustomerID tier)
      then tier :: rest
      else t :: upsertTier tier rest
  end.

Definition SaveCustomerTier (s : Storage) (tier : CustomerTier.t)
    (failure : option string) : Storage * option string :=
  match failure with
  | Some err => (s, Some ("failed to save customer tier: " ++ err))
  | None =>
      (mkStorage (tier_configs s) (upsertTier tier (customer_tiers s))
                 (tier_upgrades s), None)
  end.

Definition SaveTierUpgrade (s : Storage) (upgrade : TierUpgrade.t)
    (failure : option string) : Storage * option string :=
  match failure with
  | Some err => (s, Some ("failed to save tier upgrade: " ++ err))
  | None =>
      (mkStorage (tier_configs s) (customer_tiers s)
                 (tier_upgrades s ++ [upgrade])%list, None)
  end.

Definition meetsRequirements (metrics : CustomerMetrics.t) (rule : TierRule.t)
  : bool :=
  let meetsSpentLifetime :=
    F64.leb (TierRule.MinSpentLifetime rule) (CustomerMetrics.TotalSpent metrics) in
  let meetsSpentYear :=
    F64.leb (TierRule.MinSpentYear rule) (CustomerMetrics.SpentThisYear metrics) in
  let meetsVisitsLifetime :=
    TierRule.MinVisitsLifetime rule <=? CustomerMetrics.TotalVisits metrics in
  let meetsVisitsYear :=
    TierRule.MinVisitsYear rule <=? CustomerMetrics.VisitsThisYear metrics in
  meetsSpentLifetime && meetsSpentYear && meetsVisitsLifetime && meetsVisitsYear.

Definition higherLevel (x y : TierRule.t) : Prop :=
  TierRule.Level y <= TierRule.Level x.

Definition lowerLevel (x y : TierRule.t) : Prop :=
  TierRule.Level x <= TierRule.Level y.

#[export] Instance higherLevel_dec : RelDecision higherLevel :=
  fun x y => Z_le_dec (TierRule.Level y) (TierRule.Level x).

#[export] Instance lowerLevel_dec : RelDecision lowerLevel :=
  fun x y => Z_le_dec (TierRule.Level x) (TierRule.Level y).

(** [calculateTier]: the rules by descending level, the first one met;
    [rules[len(rules)-1]] otherwise, which panics on an empty slice. *)
Definition calculateTier (metrics : CustomerMetrics.t) (rules : list TierRule.t)
  : Outcome TierRule.t :=
  let rules := merge_sort higherLevel rules in
  match List.find (meetsRequirements metrics) rules with
  | Some rule => Done rule
  | None =>
      match last rules with
      | Some rule => Done rule
      | None => Panic
      end
  end.

(** [calculateNextTierProgress]: the next tier and the progress towards it. *)
Definition calculateNextTierProgress (currentTier : TierRule.t)
    (metrics : CustomerMetrics.t) : string * F64.float64 :=
  let rules := merge_sort lowerLevel GetDefaultTierRules in
  match List.find (fun rule => TierRule.Level currentTier <? TierRule.Level rule)
                  rules with
  | Some nextTier =>
      let spentProgress :=
        if F64.ltb 0%Q (TierRule.MinSpentYear nextTier)
        then F64.div (CustomerMetrics.SpentThisYear metrics)
                     (TierRule.MinSpentYear nextTier)
        else 0%Q in
      let visitsProgress :=
        if 0 <? TierRule.MinVisitsYear nextTier
        then F64.div (F64.ofInt (CustomerMetrics.VisitsThisYear metrics))
                     (F64.ofInt (TierRule.MinVisitsYear nextTier))
        else 0%Q in
      let progress :=
        F64.div (F64.add spentProgress visitsProgress) (F64.const 2) in
      (TierRule.Name nextTier,
       if F64.ltb (F64.const 1) progress then F64.const 1 else progress)
  | None => ("", F64.const 1)
  end.

Definition updateCustomerTier (current : CustomerTier.t) (newTier : TierRule.t)
    (metrics : CustomerMetrics.t) (now : Z) : CustomerTier.t :=
  let changed :=
    negb (String.eqb (CustomerTier.CurrentTier current) (TierRule.Name newTier)) in
  let '(nextTier, progress) := calculateNextTierProgress newTier metrics in
  CustomerTier.mk (CustomerTier.OrgID current) (CustomerTier.LocationID current)
    (CustomerTier.CustomerID current)
    (if changed then TierRule.Name newTier else CustomerTier.CurrentTier current)
    (if changed then CustomerTier.CurrentTier current
     else CustomerTier.PreviousTier current)
    (if changed then now else CustomerTier.TierSince current)
    nextTier progress
    (CustomerMetrics.TotalSpent metrics) (CustomerMetrics.TotalVisits metrics)
    (CustomerMetrics.SpentThisYear metrics) (CustomerMetrics.VisitsThisYear metrics)
    (CustomerMetrics.SpentThisMonth metrics)
    (CustomerMetrics.VisitsThisMonth metrics)
    (CustomerMetrics.LastTransaction metrics)
    (TierRule.PointsMultiplier newTier) (TierRule.Benefits newTier) now now.

(** [ProcessCustomerMetrics]; every clock read of the call is the instant
    [now]. *)
Definition ProcessCustomerMetrics (s : Storage) (failures : Failures) (now : Z)
    (metrics : CustomerMetrics.t) : Outcome (Storage * option string) :=
  let orgID := CustomerMetrics.OrgID metrics in
  let customerID := CustomerMetrics.CustomerID metrics in
  let '(tierConfig, s1) :=
    match GetTierConfig s orgID (getTierConfigFailure failures) with
    | (Some config, None) => (config, s)
    | _ =>
        let config := OrgTierConfig.mk orgID GetDefaultTierRules now now in
        (config, (SaveTierConfig s config (saveTierConfigFailure failures)).1)
    end in
  let currentTier :=
    match GetCustomerTier s1 orgID customerID (getCustomerTierFailure failures) with
    | (Some tier, None) => tier
    | _ =>
        CustomerTier.mk orgID (CustomerMetrics.LocationID metrics) customerID
          "Bronze" "" now "" 0%Q 0%Q 0 0%Q 0 0%Q 0 0 0%Q [] 0 0
    end in
  match calculateTier metrics (OrgTierConfig.TierRules tierConfig) with
  | Panic => Panic
  | Done newTier =>
      let updated := updateCustomerTier currentTier newTier metrics now in
      match SaveCustomerTier s1 updated (saveCustomerTierFailure failures) with
      | (_, Some err) => Done (s1, Some ("failed to save customer tier: " ++ err))
      | (s2, None) =>
          if negb (String.eqb (CustomerTier.CurrentTier updated)
                              (CustomerTier.PreviousTier updated))
             && negb (String.eqb (CustomerTier.PreviousTier updated) "")
          then
            let upgrade :=
              TierUpgrade.mk orgID customerID (CustomerTier.PreviousTier updated)
                (CustomerTier.CurrentTier updated) "transaction"
                (CustomerMetrics.TransactionAmount metrics) now false in
            Done ((SaveTierUpgrade s2 upgrade (saveTierUpgradeFailure failures)).1,
                  None)
          else Done (s2, None)
      end
  end.

(** The configuration one [ProcessCustomerMetrics] works with, when the
    database does not fail: the stored one, the default rules otherwise. *)
Definition configFor (s : Storage) (now : Z) (metrics : CustomerMetrics.t)
  : OrgTierConfig.t :=
  match GetTierConfig s (CustomerMetrics.OrgID metrics) None with
  | (Some config, None) => config
  | _ => OrgTierConfig.mk (CustomerMetrics.OrgID metrics) GetDefaultTierRules now now
  end.

(** The tier one [ProcessCustomerMetrics] starts from, when the database
    does not fail: the stored one, a new Bronze customer otherwise. *)
Definition tierFor (s : Storage) (now : Z) (metrics : CustomerMetrics.t)
  : CustomerTier.t :=
  match GetCustomerTier s (CustomerMetrics.OrgID metrics)
                        (CustomerMetrics.CustomerID metrics) None with
  | (Some tier, None) => tier
  | _ =>
      CustomerTier.mk (CustomerMetrics.OrgID metrics)
        (CustomerMetrics.LocationID metrics) (CustomerMetrics.CustomerID metrics)
        "Bronze" "" now "" 0%Q 0%Q 0 0%Q 0 0%Q 0 0 0%Q [] 0 0
  end.

(** The tier the customer has on record before an event, as
    [ProcessCustomerMetrics] reads it. *)
Definition tierBefore (s : Storage) (metrics : CustomerMetrics.t)
  : option CustomerTier.t :=
  (GetCustomerTier s (CustomerMetrics.OrgID metrics)
                   (CustomerMetrics.CustomerID metrics) None).1.

(** The storage after an event, with a database that does not fail. *)
Definition afterMetrics (s : Storage) (now : Z) (metrics : CustomerMetrics.t)
  : Storage :=
  match ProcessCustomerMetrics s noFailures now metrics with
  | Done (s', _) => s'
  | Panic => s
  end.

(** A customer at the thresholds of Silver, used as an example below: the
    metrics after the fifth and after the sixth visit of the year. *)
Definition silverMetrics (visits : Z) : CustomerMetrics.t :=
  CustomerMetrics.mk "org1" "" "cust1" (F64.const 250) visits (F64.const 100)
    (visits - 2) (F64.const 100) (visits - 2) 1000 (F64.const 20).

Definition silverCustomer : Storage :=
  afterMetrics (mkStorage [] [] []) 1000 (silverMetrics 5).

End Tiers.

(** ** Tier engine: the consumer ([processMessage] of the tier processor) *)

Module TierConsumer.

(** [shouldProcessMessage]: the topic holds one of the two patterns. *)
Definition shouldProcessMessage (topic : string) : bool :=
  Strings.Contains topic ".pos.transaction"
  || Strings.Contains topic ".loyalty.action".

(** The metrics [processMessage] hands to the calculator; [yearStart] and
    [monthStart] are the first instants of the year and of the month of the
    clock read. *)
Definition metricsOf (existingTier : CustomerTier.t) (event : AnalyticsEvent.t)
    (transaction : POSTransaction.t) (yearStart monthStart : Z)
  : CustomerMetrics.t :=
  let amount := POSTransaction.Amount transaction in
  let beforeYear :=
    GoTime.Before (CustomerTier.LastTransaction existingTier) yearStart in
  let beforeMonth :=
    GoTime.Before (CustomerTier.LastTransaction existingTier) monthStart in
  CustomerMetrics.mk (AnalyticsEvent.OrgID event) ""
    (AnalyticsEvent.CustomerID event)
    (F64.add (CustomerTier.TotalSpent existingTier) amount)
    (int64 (CustomerTier.TotalVisits existingTier + 1))
    (if beforeYear then amount
     else F64.add (CustomerTier.SpentThisYear existingTier) amount)
    (if beforeYear then 1
     else int64 (CustomerTier.VisitsThisYear existingTier + 1))
    (if beforeMonth then amount
     else F64.add (CustomerTier.SpentThisMonth existingTier) amount)
    (if beforeMonth then 1
     else int64 (CustomerTier.VisitsThisMonth existingTier + 1))
    (POSTransaction.Timestamp transaction) amount.

(** [processMessage]. [message] is the decoded message ([None]: it is not
    an event), [getFailure] the error of the database on the consumer's own
    read, [failures] those on the calls of the calculator, [tierSince] and
    [now] the clock reads of the consumer and of the calculator. *)
Definition processMessage (s : Tiers.Storage) (getFailure : option string)
    (failures : Tiers.Failures) (tierSince yearStart monthStart now : Z)
    (message : option AnalyticsEvent.t)
  : Outcome (Tiers.Storage * option string) :=
  match message with
  | None => Done (s, Some "invalid message")
  | Some event =>
      if negb (String.eqb (AnalyticsEvent.EventType event) "pos.transaction")
      then Done (s, None)
      else
        match AnalyticsEvent.Payload event with
        | None => Done (s, Some "invalid transaction payload")
        | Some transaction =>
            let existingTier :=
              match Tiers.GetCustomerTier s (AnalyticsEvent.OrgID event)
                      (AnalyticsEvent.CustomerID event) getFailure with
              | (Some tier, None) => tier
              | _ =>
                  CustomerTier.mk (AnalyticsEvent.OrgID event) ""
                    (AnalyticsEvent.CustomerID event) "Bronze" "" tierSince ""
                    0%Q 0%Q 0 0%Q 0 0%Q 0 0 0%Q [] 0 0
              end in
            Tiers.ProcessCustomerMetrics s failures now
              (metricsOf existingTier event transaction yearStart monthStart)
        end
  end.

End TierConsumer.


(** * Properties *)

(** ** Ledger: double entry, direction, balances *)

Module LedgerFacts.
Import Ledger.

Lemma uint64_range z : is_uint64 (uint64 z).
Proof. unfold is_uint64, uint64. apply Z.mod_pos_bound. lia. Qed.

Lemma uint64_small z : is_uint64 z -> uint64 z = z.
Proof. unfold is_uint64, uint64. intros H. apply Z.mod_small. lia. Qed.

Lemma liability_ne_points org org' cust :
  generateOrgLiabilityAccount org <> generateCustomerPointsAccount org' cust.
Proof. unfold generateOrgLiabilityAccount, generateCustomerPointsAccount. intros H. inversion H. Qed.

Lemma transferAccounts_distinct req :
  (transferAccounts req).1 <> (transferAccounts req).2.
Proof.
  unfold transferAccounts. destruct (isRedemption _); simpl.
  - intros H. symmetry in H. revert H. apply liability_ne_points.
  - apply liability_ne_points.
Qed.

Lemma updateAccountBalance_other accs id id' amount isDebit now :
  id <> id' -> updateAccountBalance accs id amount isDebit now !! id' = accs !! id'.
Proof.
  intros Hne. unfold updateAccountBalance.
  destruct isDebit; rewrite lookup_insert_ne; auto.
Qed.

Lemma updateAccountBalance_debit_lookup accs id amount now :
  exists a, updateAccountBalance accs id amount true now !! id = Some a
    /\ Account.DebitsPosted a =
       uint64 (match accs !! id with Some a0 => Account.DebitsPosted a0 | None => 0 end + amount)
    /\ Account.CreditsPosted a =
       match accs !! id with Some a0 => Account.CreditsPosted a0 | None => 0 end.
Proof.
  unfold updateAccountBalance. rewrite lookup_insert_eq.
  eexists; split; [reflexivity|]. destruct (accs !! id); simpl; auto.
Qed.

Lemma updateAccountBalance_credit_lookup accs id amount now :
  exists a, updateAccountBalance accs id amount false now !! id = Some a
    /\ Account.CreditsPosted a =
       uint64 (match accs !! id with Some a0 => Account.CreditsPosted a0 | None => 0 end + amount)
    /\ Account.DebitsPosted a =
       match accs !! id with Some a0 => Account.DebitsPosted a0 | None => 0 end.
Proof.
  unfold updateAccountBalance. rewrite lookup_insert_eq.
  eexists; split; [reflexivity|]. destruct (accs !! id); simpl; auto.
Qed.

(** The transfer recorded under the identifier of the call. *)
Lemma CreateTransfer_recorded r transferID now nowDebit nowCredit req :
  transfers (afterTransfer r transferID now nowDebit nowCredit req) !! transferID
  = Some (Transfer.mk transferID (transferAccounts req).1 (transferAccounts req).2
            (CreateTransferRequest.Amount req) (CreateTransferRequest.Code req)
            (CreateTransferRequest.Reference req) (uint64 now)).
Proof.
  unfold afterTransfer, CreateTransfer.
  destruct (transferAccounts req) as [d c]. simpl. apply lookup_insert_eq.
Qed.

(** C1 (amended): every CreateTransfer call with amount A records one
    transfer from a debit account to a different credit account; the debit
    account's debits_posted becomes its old value plus A modulo 2^64 and the
    credit account's credits_posted becomes its old value plus A modulo 2^64
    (an account that does not exist yet counts from zero); the other counter
    of each of the two accounts is unchanged, and so is every other account. *)
Theorem CreateTransfer_double_entry r transferID now nowDebit nowCredit req :
  let r' := afterTransfer r transferID now nowDebit nowCredit req in
  let d := (transferAccounts req).1 in
  let c := (transferAccounts req).2 in
  let A := CreateTransferRequest.Amount req in
  (exists transfer,
      transfers r' !! transferID = Some transfer
      /\ Transfer.DebitAccountID transfer = d
      /\ Transfer.CreditAccountID transfer = c
      /\ Transfer.Amount transfer = A)
  /\ d <> c
  /\ debitsPosted r' d = uint64 (debitsPosted r d + A)
  /\ creditsPosted r' c = uint64 (creditsPosted r c + A)
  /\ creditsPosted r' d = creditsPosted r d
  /\ debitsPosted r' c = debitsPosted r c
  /\ (forall id, id <> d -> id <> c -> accounts r' !! id = accounts r !! id).
Proof.
  intros r' d c A.
  split.
  { eexists. split; [apply CreateTransfer_recorded|]. repeat split. }
  assert (Hdc : d <> c) by apply transferAccounts_distinct.
  assert (Hr' : accounts r' =
     updateAccountBalance (updateAccountBalance (accounts r) d A true nowDebit)
                          c A false nowCredit).
  { subst r' d c A. unfold afterTransfer, CreateTransfer.
    destruct (transferAccounts req) as [d0 c0]. reflexivity. }
  destruct (updateAccountBalance_debit_lookup (accounts r) d A nowDebit)
    as (ad & Had & HadD & HadC).
  destruct (updateAccountBalance_credit_lookup
              (updateAccountBalance (accounts r) d A true nowDebit) c A nowCredit)
    as (ac & Hac & HacC & HacD).
  rewrite (updateAccountBalance_other _ d c) in HacC, HacD by assumption.
  split; [assumption|].
  unfold debitsPosted, creditsPosted. rewrite Hr'.
  rewrite Hac.
  rewrite (updateAccountBalance_other _ c d) by congruence.
  rewrite Had.
  repeat split; auto.
  intros id Hd Hc.
  rewrite !updateAccountBalance_other by congruence. reflexivity.
Qed.

(** Below 2^64 the counters grow by exactly the amount. *)
Lemma CreateTransfer_exact_increase r transferID now nowDebit nowCredit req :
  let r' := afterTransfer r transferID now nowDebit nowCredit req in
  let d := (transferAccounts req).1 in
  let A := CreateTransferRequest.Amount req in
  is_uint64 (debitsPosted r d + A) ->
  debitsPosted r' d = debitsPosted r d + A.
Proof.
  intros r' d A Hrange.
  assert (Hr' : accounts r' =
     updateAccountBalance (updateAccountBalance (accounts r) d A true nowDebit)
                          (transferAccounts req).2 A false nowCredit).
  { subst r' d A. unfold afterTransfer, CreateTransfer.
    destruct (transferAccounts req) as [d0 c0]. reflexivity. }
  destruct (updateAccountBalance_debit_lookup (accounts r) d A nowDebit)
    as (ad & Had & HadD & _).
  unfold debitsPosted at 1. rewrite Hr'.
  rewrite (updateAccountBalance_other _ (transferAccounts req).2 d)
    by (intros H; apply (transferAccounts_distinct req); symmetry; exact H).
  rewrite Had, HadD. apply uint64_small. exact Hrange.
Qed.

(** C1 (counterexample): a debit counter at 2^64 - 1 and a transfer of 1:
    the counter is 0 afterwards, not the old value plus 1. *)
Lemma CreateTransfer_counter_wraps :
  debitsPosted repoAtMax "liability_org1" = 2 ^ 64 - 1
  /\ debitsPosted (afterTransfer repoAtMax "t2" 0 0 0 unitTransfer) "liability_org1" = 0
  /\ debitsPosted (afterTransfer repoAtMax "t2" 0 0 0 unitTransfer) "liability_org1"
     <> debitsPosted repoAtMax "liability_org1"
        + CreateTransferRequest.Amount unitTransfer.
Proof. repeat split; vm_compute; congruence. Qed.

Lemma isRedemption_true t :
  isRedemption t = true <-> t = "points_redemption" \/ t = "stamps_redemption".
Proof.
  unfold isRedemption. rewrite orb_true_iff, !String.eqb_eq. reflexivity.
Qed.

Lemma afterTransfer_counters r transferID now nowDebit nowCredit req :
  let r' := afterTransfer r transferID now nowDebit nowCredit req in
  let d := (transferAccounts req).1 in
  let c := (transferAccounts req).2 in
  let A := CreateTransferRequest.Amount req in
  debitsPosted r' d = uint64 (debitsPosted r d + A)
  /\ creditsPosted r' c = uint64 (creditsPosted r c + A).
Proof.
  intros r' d c A.
  assert (Hdc : d <> c) by apply transferAccounts_distinct.
  assert (Hr' : accounts r' =
     updateAccountBalance (updateAccountBalance (accounts r) d A true nowDebit)
                          c A false nowCredit).
  { subst r' d c A. unfold afterTransfer, CreateTransfer.
    destruct (transferAccounts req) as [d0 c0]. reflexivity. }
  destruct (updateAccountBalance_debit_lookup (accounts r) d A nowDebit)
    as (ad & Had & HadD & HadC).
  destruct (updateAccountBalance_credit_lookup
              (updateAccountBalance (accounts r) d A true nowDebit) c A nowCredit)
    as (ac & Hac & HacC & HacD).
  rewrite (updateAccountBalance_other _ d c) in HacC by assumption.
  unfold debitsPosted, creditsPosted. rewrite Hr', Hac.
  rewrite (updateAccountBalance_other _ c d) by congruence.
  rewrite Had. split; assumption.
Qed.

(** C2 (amended): the transfer CreateTransfer records, and the counters it
    moves, go by the transaction_type. When the type is exactly
    "points_redemption" or "stamps_redemption", the org's liability account
    is credited and the customer's account debited; for every other
    transaction_type (every "_accrual" type among them) the org's liability
    account is debited and the customer's account credited. The customer's
    account of the transfer is the account points_<org>_<customer> in every
    case: for "points_accrual" the credited account, and for
    "points_redemption" the debited account, is the customer's points
    account. The debited account is the one whose debits_posted grows by the
    amount, the credited account the one whose credits_posted does. *)
Theorem CreateTransfer_direction r transferID now nowDebit nowCredit req :
  let org := CreateTransferRequest.OrgID req in
  let cust := CreateTransferRequest.CustomerID req in
  let t := CreateTransferRequest.TransactionType req in
  let A := CreateTransferRequest.Amount req in
  let r' := afterTransfer r transferID now nowDebit nowCredit req in
  exists transfer,
    transfers r' !! transferID = Some transfer
    /\ (t = "points_redemption" \/ t = "stamps_redemption" ->
        Transfer.CreditAccountID transfer = generateOrgLiabilityAccount org
        /\ Transfer.DebitAccountID transfer = generateCustomerPointsAccount org cust)
    /\ (t <> "points_redemption" -> t <> "stamps_redemption" ->
        Transfer.DebitAccountID transfer = generateOrgLiabilityAccount org
        /\ Transfer.CreditAccountID transfer = generateCustomerPointsAccount org cust)
    /\ (t = "points_accrual" ->
        Transfer.CreditAccountID transfer = generateCustomerPointsAccount org cust)
    /\ (t = "points_redemption" ->
        Transfer.DebitAccountID transfer = generateCustomerPointsAccount org cust)
    /\ debitsPosted r' (Transfer.DebitAccountID transfer)
       = uint64 (debitsPosted r (Transfer.DebitAccountID transfer) + A)
    /\ creditsPosted r' (Transfer.CreditAccountID transfer)
       = uint64 (creditsPosted r (Transfer.CreditAccountID transfer) + A).
Proof.
  intros org cust t A r'. eexists. split; [apply CreateTransfer_recorded|].
  cbn [Transfer.DebitAccountID Transfer.CreditAccountID].
  destruct (afterTransfer_counters r transferID now nowDebit nowCredit req)
    as [Hdebit Hcredit].
  fold r' A in Hdebit, Hcredit.
  assert (Hcases : transferAccounts req
                   = if isRedemption t
                     then (generateCustomerPointsAccount org cust,
                           generateOrgLiabilityAccount org)
                     else (generateOrgLiabilityAccount org,
                           generateCustomerPointsAccount org cust))
    by reflexivity.
  destruct (isRedemption t) eqn:E; rewrite Hcases in *; cbn [fst snd] in *.
  - apply isRedemption_true in E.
    split; [intros _; split; reflexivity|].
    split; [intros H1 H2; destruct E; contradiction|].
    split; [intros H; destruct E as [E|E]; rewrite H in E; discriminate E|].
    split; [intros _; reflexivity|].
    split; assumption.
  - assert (Hn : ~ (t = "points_redemption" \/ t = "stamps_redemption")).
    { intros H. apply isRedemption_true in H. congruence. }
    split; [intros H; contradiction|].
    split; [intros _ _; split; reflexivity|].
    split; [intros _; reflexivity|].
    split; [intros H; exfalso; apply Hn; left; exact H|].
    split; assumption.
Qed.

(** C2 (counterexample): a transaction_type that ends in "_redemption"
    without being one of the two the repository compares with: the liability
    account is debited and the customer's account credited, not swapped. *)
Lemma CreateTransfer_suffix_redemption_not_swapped :
  Strings.HasSuffix (CreateTransferRequest.TransactionType giftRedemption)
                    "_redemption" = true
  /\ transfers (afterTransfer NewMockTigerBeetleRepo "t1" 0 0 0 giftRedemption) !! "t1"
     = Some (Transfer.mk "t1" "liability_org1" "points_org1_cust1" 10 1 "ref" 0).
Proof. split; vm_compute; reflexivity. Qed.

(** What the repository does with a stamps transfer: the customer's points
    account is credited, and the stamps balance stays at zero. *)
Lemma CreateTransfer_stamps_accrual_credits_points :
  let r := afterTransfer NewMockTigerBeetleRepo "t1" 0 0 0 stampsAccrual in
  creditsPosted r (generateCustomerPointsAccount "org1" "cust1") = 3
  /\ accounts r !! generateCustomerStampsAccount "org1" "cust1" = None
  /\ (GetBalance r "org1" "cust1").1 !! "stamps" = Some 0
  /\ (GetBalance r "org1" "cust1").1 !! "points" = Some 3.
Proof. repeat split; vm_compute; reflexivity. Qed.

Lemma GetBalance_lookup r orgID customerID :
  (GetBalance r orgID customerID).2 = None
  /\ (GetBalance r orgID customerID).1 !! "points"
     = Some (balance r (generateCustomerPointsAccount orgID customerID))
  /\ (GetBalance r orgID customerID).1 !! "stamps"
     = Some (balance r (generateCustomerStampsAccount orgID customerID))
  /\ (forall k, k <> "points" -> k <> "stamps" ->
        (GetBalance r orgID customerID).1 !! k = None).
Proof.
  unfold GetBalance, balance. simpl.
  destruct (accounts r !! generateCustomerPointsAccount orgID customerID);
    destruct (accounts r !! generateCustomerStampsAccount orgID customerID);
    repeat split; intros;
    repeat (rewrite lookup_insert; case_decide; try congruence);
    try rewrite lookup_empty; try reflexivity; try discriminate.
Qed.

Lemma GetBalance_ext r r' orgID customerID :
  balance r (generateCustomerPointsAccount orgID customerID)
  = balance r' (generateCustomerPointsAccount orgID customerID) ->
  balance r (generateCustomerStampsAccount orgID customerID)
  = balance r' (generateCustomerStampsAccount orgID customerID) ->
  GetBalance r orgID customerID = GetBalance r' orgID customerID.
Proof.
  intros Hp Hs.
  destruct (GetBalance_lookup r orgID customerID) as (He & Hpl & Hsl & Ho).
  destruct (GetBalance_lookup r' orgID customerID) as (He' & Hpl' & Hsl' & Ho').
  destruct (GetBalance r orgID customerID) as [m e].
  destruct (GetBalance r' orgID customerID) as [m' e'].
  simpl in *. subst e e'. f_equal.
  apply map_eq. intros k.
  destruct (decide (k = "points")) as [->|Hkp]; [congruence|].
  destruct (decide (k = "stamps")) as [->|Hks]; [congruence|].
  rewrite Ho, Ho'; auto.
Qed.

(** C10: for a customer with neither a points nor a stamps account,
    GetBalance returns no error and reports points 0 and stamps 0; a customer
    whose accounts exist with a zero balance gets the very same result; and
    the balance reported for an existing account is the uint64 difference
    credits_posted - debits_posted. *)
Theorem GetBalance_unknown_customer r orgID customerID :
  accounts r !! generateCustomerPointsAccount orgID customerID = None ->
  accounts r !! generateCustomerStampsAccount orgID customerID = None ->
  (GetBalance r orgID customerID).2 = None
  /\ (GetBalance r orgID customerID).1 !! "points" = Some 0
  /\ (GetBalance r orgID customerID).1 !! "stamps" = Some 0
  /\ (forall r',
        balance r' (generateCustomerPointsAccount orgID customerID) = 0 ->
        balance r' (generateCustomerStampsAccount orgID customerID) = 0 ->
        GetBalance r' orgID customerID = GetBalance r orgID customerID)
  /\ (forall r' points,
        accounts r' !! generateCustomerPointsAccount orgID customerID = Some points ->
        (GetBalance r' orgID customerID).1 !! "points"
        = Some (uint64 (Account.CreditsPosted points - Account.DebitsPosted points)))
  /\ (forall r' stamps,
        accounts r' !! generateCustomerStampsAccount orgID customerID = Some stamps ->
        (GetBalance r' orgID customerID).1 !! "stamps"
        = Some (uint64 (Account.CreditsPosted stamps - Account.DebitsPosted stamps))).
Proof.
  intros Hp Hs.
  destruct (GetBalance_lookup r orgID customerID) as (He & Hpl & Hsl & _).
  unfold balance in Hpl, Hsl. rewrite Hp in Hpl. rewrite Hs in Hsl.
  split; [assumption|]. split; [assumption|]. split; [assumption|].
  split; [|split].
  - intros r' Hp' Hs'.
    apply GetBalance_ext; rewrite ?Hp', ?Hs'; unfold balance; rewrite ?Hp, ?Hs;
      reflexivity.
  - intros r' points Hp'.
    destruct (GetBalance_lookup r' orgID customerID) as (_ & Hpl' & _ & _).
    unfold balance in Hpl'. rewrite Hp' in Hpl'. exact Hpl'.
  - intros r' stamps Hs'.
    destruct (GetBalance_lookup r' orgID customerID) as (_ & _ & Hsl' & _).
    unfold balance in Hsl'. rewrite Hs' in Hsl'. exact Hsl'.
Qed.

(** C10 (witness): the empty repository. *)
Lemma GetBalance_unknown_customer_witness :
  (GetBalance NewMockTigerBeetleRepo "org1" "cust1").2 = None
  /\ (GetBalance NewMockTigerBeetleRepo "org1" "cust1").1 !! "points" = Some 0
  /\ (GetBalance NewMockTigerBeetleRepo "org1" "cust1").1 !! "stamps" = Some 0.
Proof.
  destruct (GetBalance_unknown_customer NewMockTigerBeetleRepo "org1" "cust1")
    as (H1 & H2 & H3 & _).
  - reflexivity.
  - reflexivity.
  - repeat split; assumption.
Defined.

End LedgerFacts.

(** ** Ledger handler: validation of the amount *)

Module LedgerHandlerFacts.
Import LedgerHandler.

Lemma transferField_amount key v r r' :
  transferField key v r = Some r' ->
  match fieldNamed key, v with
  | Some FAmount, JSON.Int z =>
      CreateTransferRequest.Amount r' = z /\ is_uint64 z
  | Some FAmount, JSON.Frac _ => False
  | _, _ => CreateTransferRequest.Amount r' = CreateTransferRequest.Amount r
  end.
Proof.
  unfold transferField, JSON.assign, JSON.toString, JSON.toUint.
  destruct (fieldNamed key) as [[]|]; destruct v; simpl; intros H;
    try discriminate; try (inversion H; subst; reflexivity).
  - destruct (Z.leb_spec 0 z); destruct (Z.ltb_spec z (2 ^ 64)); simpl in H;
      try discriminate.
    inversion H; subst. simpl. unfold is_uint64. split; [reflexivity | lia].
  - destruct ((0 <=? z) && (z <? 2 ^ 16)); [|discriminate].
    inversion H; subst. reflexivity.
Qed.

Lemma decode_amount members : forall r r',
  JSON.decode transferField members r = Some r' ->
  match statedAmount members with
  | Some q => (q == inject_Z (CreateTransferRequest.Amount r'))%Q
              /\ is_uint64 (CreateTransferRequest.Amount r')
  | None => CreateTransferRequest.Amount r' = CreateTransferRequest.Amount r
  end.
Proof.
  induction members as [|[key v] rest IH]; intros r r' H; simpl in *.
  - inversion H. reflexivity.
  - destruct (transferField key v r) as [r1|] eqn:E; [|discriminate].
    specialize (IH r1 r' H). apply transferField_amount in E.
    destruct (statedAmount rest) as [q|]; [exact IH|].
    destruct (fieldNamed key) as [[]|]; destruct v; try congruence.
    + destruct E as [E1 E2]. rewrite IH, E1. split; [reflexivity | exact E2].
    + contradiction.
Qed.

(** C6: a CreateTransfer request whose body states a zero or negative amount
    is answered with HTTP 400 and an error, and the repository is left as it
    was; and whatever the body, the handler either answers 400 and leaves the
    repository untouched, or answers 201 after applying one transfer whose
    amount is strictly positive (and below 2^64). *)
Theorem CreateTransfer_rejects_nonpositive repo transferID now nowDebit nowCredit members q :
  statedAmount members = Some q -> (q <= 0)%Q ->
  (exists err,
      CreateTransfer repo transferID now nowDebit nowCredit (Some members)
      = (StatusBadRequest, ErrorBody err, repo))
  /\ (forall body status response repo',
        CreateTransfer repo transferID now nowDebit nowCredit body
        = (status, response, repo') ->
        (status = StatusBadRequest /\ repo' = repo)
        \/ (exists req,
              ShouldBindJSON body = inl req
              /\ 0 < CreateTransferRequest.Amount req < 2 ^ 64
              /\ status = StatusCreated
              /\ repo' = Ledger.afterTransfer repo transferID now nowDebit nowCredit req)).
Proof.
  intros Hq Hle. split.
  - unfold CreateTransfer, ShouldBindJSON.
    destruct (JSON.decode transferField members _) as [req|] eqn:E.
    + apply decode_amount in E. rewrite Hq in E. destruct E as [E1 E2].
      assert (Hz : CreateTransferRequest.Amount req = 0).
      { rewrite E1 in Hle. change 0%Q with (inject_Z 0) in Hle.
        rewrite <- Zle_Qle in Hle. unfold is_uint64 in E2. lia. }
      unfold required. rewrite Hz. rewrite andb_false_r. eauto.
    + eauto.
  - intros body status response repo'. unfold CreateTransfer.
    destruct (ShouldBindJSON body) as [req|err] eqn:E.
    + intros H. right. exists req. unfold Ledger.afterTransfer.
      destruct (Ledger.CreateTransfer repo transferID now nowDebit nowCredit req)
        as [[repo1 resp] e] eqn:EC.
      assert (e = None).
      { unfold Ledger.CreateTransfer in EC.
        destruct (Ledger.transferAccounts req). inversion EC. reflexivity. }
      subst e. inversion H; subst. simpl.
      split; [reflexivity|]. split; [|split; reflexivity].
      unfold ShouldBindJSON in E. destruct body as [ms|]; [|discriminate].
      destruct (JSON.decode transferField ms _) as [req'|] eqn:ED; [|discriminate].
      destruct (required req') eqn:ER; [|discriminate].
      inversion E; subst req'.
      apply decode_amount in ED.
      assert (Hr : is_uint64 (CreateTransferRequest.Amount req)).
      { destruct (statedAmount ms); [tauto|]. rewrite ED. simpl. unfold is_uint64. lia. }
      unfold required in ER. rewrite !andb_true_iff in ER. destruct ER as [_ ER].
      apply negb_true_iff, Z.eqb_neq in ER. unfold is_uint64 in Hr. lia.
    + intros H. inversion H; subst. left. split; reflexivity.
Qed.

(** C6 (witness): a body with amount -5. *)
Lemma CreateTransfer_rejects_nonpositive_witness :
  exists err,
    CreateTransfer Ledger.NewMockTigerBeetleRepo "t1" 0 0 0 (Some negativeAmountBody)
    = (StatusBadRequest, ErrorBody err, Ledger.NewMockTigerBeetleRepo).
Proof.
  apply (CreateTransfer_rejects_nonpositive Ledger.NewMockTigerBeetleRepo "t1" 0 0 0
           negativeAmountBody (inject_Z (-5))).
  - reflexivity.
  - vm_compute. discriminate.
Defined.

(** A body with amount 0 fails the [required] check. *)
Example CreateTransfer_zero_amount :
  CreateTransfer Ledger.NewMockTigerBeetleRepo "t1" 0 0 0 (Some zeroAmountBody)
  = (400, ErrorBody "Field validation failed on the 'required' tag",
     Ledger.NewMockTigerBeetleRepo).
Proof. vm_compute. reflexivity. Qed.

End LedgerHandlerFacts.

(** ** Event router: wildcard patterns *)

Module RouterFacts.
Import Strings Router.

Lemma Contains_dot_nil : Contains "" "." = false.
Proof. reflexivity. Qed.

Lemma Contains_dot_cons c s :
  Contains (String c s) "." = Ascii.eqb c "." || Contains s ".".
Proof.
  assert (Hnil : HasPrefix s "" = true) by (destruct s; reflexivity).
  simpl. rewrite Hnil, andb_true_r. reflexivity.
Qed.

Lemma Split_nonempty s sep : Split s sep <> [].
Proof.
  destruct s as [|c s]; simpl; [discriminate|].
  destruct (Ascii.eqb c sep); [discriminate|].
  destruct (Split s sep); discriminate.
Qed.

Lemma Split_noDot s : noDot s -> Split s "." = [s].
Proof.
  unfold noDot. induction s as [|c s IH]; intros H; [reflexivity|].
  rewrite Contains_dot_cons in H. apply orb_false_iff in H. destruct H as [Hc Hs].
  simpl. rewrite Hc, (IH Hs). reflexivity.
Qed.

Lemma Split_app s rest :
  noDot s -> Split (s ++ String "." rest) "." = s :: Split rest ".".
Proof.
  unfold noDot. induction s as [|c s IH]; intros H.
  - reflexivity.
  - rewrite Contains_dot_cons in H. apply orb_false_iff in H. destruct H as [Hc Hs].
    change (String c s ++ String "." rest) with (String c (s ++ String "." rest)).
    simpl. rewrite Hc. unfold String.append in IH. fold String.append in IH.
    rewrite (IH Hs). reflexivity.
Qed.

(** A string is its parts joined by dots, and no part holds a dot. *)
Lemma Split_inv s :
  match Split s "." with
  | [] => False
  | part :: parts =>
      noDot part
      /\ match parts with
         | [] => s = part
         | _ :: _ => exists rest, s = part ++ String "." rest /\ Split rest "." = parts
         end
  end.
Proof.
  induction s as [|c s IH].
  - simpl. split; reflexivity.
  - simpl. destruct (Ascii.eqb c ".") eqn:Ec.
    + apply Ascii.eqb_eq in Ec. subst c. split; [reflexivity|].
      pose proof (Split_nonempty s ".") as Hne.
      destruct (Split s ".") as [|p ps] eqn:E; [contradiction|].
      exists s. split; [reflexivity | exact E].
    + destruct (Split s ".") as [|p ps] eqn:E; [contradiction|].
      destruct IH as [Hp Hrest]. split.
      * unfold noDot. rewrite Contains_dot_cons, Ec. exact Hp.
      * destruct ps as [|p' ps'].
        -- congruence.
        -- destruct Hrest as (rest & -> & Hr). exists rest. split; [reflexivity | exact Hr].
Qed.

Lemma three_parts topic a b c :
  Split topic "." = [a; b; c] ->
  topic = a ++ String "." (b ++ String "." c) /\ noDot a.
Proof.
  intros H. pose proof (Split_inv topic) as Hi. rewrite H in Hi.
  destruct Hi as (Ha & rest & -> & Hr).
  pose proof (Split_inv rest) as Hi. rewrite Hr in Hi.
  destruct Hi as (Hb & rest' & -> & Hr').
  pose proof (Split_inv rest') as Hi. rewrite Hr' in Hi.
  destruct Hi as (Hc & ->). split; [reflexivity | exact Ha].
Qed.

Lemma matchParts_literal part parts topicPart topicParts :
  String.eqb part "*" = false ->
  matchParts (part :: parts) (topicPart :: topicParts) = true ->
  topicPart = part /\ matchParts parts topicParts = true.
Proof.
  intros Hstar. simpl. rewrite Hstar. simpl.
  destruct (String.eqb_spec part topicPart) as [->|]; simpl; [auto | discriminate].
Qed.

(** C7 (amended): under the pattern "*.pos.transaction" the matcher accepts
    exactly the topics of three dot-separated segments whose last two are
    "pos" and "transaction", that is [org ++ ".pos.transaction"] for an [org]
    without a dot; and the pattern "*" alone accepts exactly the topics
    without a dot. *)
Theorem shouldProcessTopic_wildcard topic :
  (shouldProcessTopic topic ["*.pos.transaction"] = true
   <-> exists org, topic = org ++ ".pos.transaction" /\ Contains org "." = false)
  /\ (shouldProcessTopic topic ["*"] = true <-> Contains topic "." = false).
Proof.
  split.
  - unfold shouldProcessTopic.
    change (Contains "*.pos.transaction" "*") with true.
    change (Split "*.pos.transaction" ".") with ["*"; "pos"; "transaction"].
    cbv iota. split.
    + intros H.
      destruct (Split topic ".") as [|a [|b [|c [|x l]]]] eqn:E;
        try discriminate H.
      change (length ["*"; "pos"; "transaction"] =? length [a; b; c])%nat with true in H.
      cbv iota in H.
      destruct (matchParts ["*"; "pos"; "transaction"] [a; b; c]) eqn:Hm;
        [|discriminate H].
      change (matchParts ["pos"; "transaction"] [b; c] = true) in Hm.
      apply matchParts_literal in Hm; [|reflexivity]. destruct Hm as [-> Hm].
      apply matchParts_literal in Hm; [|reflexivity]. destruct Hm as [-> _].
      apply three_parts in E. destruct E as [-> Ha]. exists a. split; [reflexivity | exact Ha].
    + intros (org & -> & Horg).
      change (org ++ ".pos.transaction") with (org ++ String "." "pos.transaction").
      rewrite (Split_app org "pos.transaction" Horg). reflexivity.
  - unfold shouldProcessTopic.
    change (Contains "*" "*") with true.
    change (Split "*" ".") with ["*"].
    cbv iota. split.
    + intros H.
      pose proof (Split_inv topic) as Hi.
      destruct (Split topic ".") as [|a [|b l]] eqn:E; try discriminate H.
      destruct Hi as [Ha ->]. exact Ha.
    + intros H. rewrite (Split_noDot topic H). reflexivity.
Qed.

(** C7 (counterexample): a topic of four segments ends in
    ".pos.transaction" and is not accepted under "*.pos.transaction"; a topic
    with dots is not accepted under "*". *)
Lemma shouldProcessTopic_suffix_not_enough :
  HasSuffix "org1.store7.pos.transaction" ".pos.transaction" = true
  /\ shouldProcessTopic "org1.store7.pos.transaction" ["*.pos.transaction"] = false
  /\ shouldProcessTopic "org1.pos.transaction" ["*"] = false.
Proof. repeat split; vm_compute; reflexivity. Qed.

End RouterFacts.

(** ** Accrual rules engine: manual loyalty actions *)

Module ProcessorFacts.
Import Processor.

Lemma toInt_Floor x : F64.toInt (F64.Floor x) = Qfloor x.
Proof.
  unfold F64.toInt, F64.Floor. destruct (Qle_bool 0 (inject_Z (Qfloor x))).
  - apply Qfloor_Z.
  - apply Qceiling_Z.
Qed.

Lemma toIntOr_Floor outOfRange x :
  - 2 ^ 63 <= Qfloor x < 2 ^ 63 ->
  F64.toIntOr outOfRange (F64.Floor x) = Qfloor x.
Proof.
  intros [Hlo Hhi]. unfold F64.toIntOr. rewrite toInt_Floor.
  apply Z.leb_le in Hlo. apply Z.ltb_lt in Hhi. rewrite Hlo, Hhi. reflexivity.
Qed.

(** C5 (amended): for a POS transaction of float64 amount a against an org
    with float64 points_per_dollar p and stamps_per_visit s: points_earned is
    0 when p <= 0; when p > 0, a and p are zero or normal numbers of float64,
    the product a * p neither underflows nor overflows (it is zero or of a
    magnitude between 2^-1022 and the largest float64) and the floor of its
    float64 value fits the int (-2^63 <= floor < 2^63), points_earned is the
    floor of the float64 product of a and p (the product rounded to nearest
    before the floor), whatever the platform does with conversions that do
    not fit; stamps_earned is s, whatever a. *)
Theorem earned_binary64 outOfRange amount settings :
  ((0 < PointsPerDollar settings)%Q ->
     F64.normal amount = true ->
     F64.normal (PointsPerDollar settings) = true ->
     F64.inRange (amount * PointsPerDollar settings) = true ->
     - 2 ^ 63 <= Qfloor (F64.mul amount (PointsPerDollar settings)) < 2 ^ 63 ->
     (earned outOfRange amount settings).1
     = Qfloor (F64.mul amount (PointsPerDollar settings)))
  /\ ((PointsPerDollar settings <= 0)%Q -> (earned outOfRange amount settings).1 = 0)
  /\ (earned outOfRange amount settings).2 = StampsPerVisit settings.
Proof.
  unfold earned, calculatePoints, F64.leb. simpl.
  destruct (Qle_bool (PointsPerDollar settings) 0) eqn:E.
  - apply Qle_bool_iff in E. repeat split; auto.
    intros H. exfalso. apply (Qlt_irrefl 0). eapply Qlt_le_trans; eauto.
  - repeat split; auto.
    + intros _ _ _ _ Hfits. apply toIntOr_Floor. exact Hfits.
    + intros H. apply Qle_bool_iff in H. congruence.
Qed.

(** C5 (witness): 50 dollars at 2 points per dollar earn 100 points. *)
Lemma earned_binary64_witness :
  (earned F64.amd64 (F64.const 50) (mkOrgSettings (F64.const 2) 1 [] 10)).1
  = Qfloor (F64.mul (F64.const 50) (F64.const 2))
  /\ Qfloor (F64.mul (F64.const 50) (F64.const 2)) = 100.
Proof.
  split; [|vm_compute; reflexivity].
  apply (earned_binary64 F64.amd64 (F64.const 50)
           (mkOrgSettings (F64.const 2) 1 [] 10)).
  - vm_compute. reflexivity.
  - vm_compute. reflexivity.
  - vm_compute. reflexivity.
  - vm_compute. reflexivity.
  - vm_compute. split; [discriminate | reflexivity].
Defined.

(** C5 (counterexample): an amount of 4.35 at 100 points per dollar, both
    normal numbers of float64 with a product in range: the product taken in
    float64 is below 435, the event earns 434 points and a transfer of 434
    points is posted, where floor(4.35 * 100) = 435. *)
Lemma calculatePoints_rounds_before_floor :
  decodePOSTransaction (BaseEvent.Payload (posEvent (435 # 100)))
  = Some (mkPOSTransaction "txn_1" (F64.const (435 # 100)) "" "" "")
  /\ F64.normal (F64.const (435 # 100)) = true
  /\ F64.normal (F64.const 100) = true
  /\ F64.inRange (F64.const (435 # 100) * F64.const 100) = true
  /\ earned F64.amd64 (F64.const (435 # 100))
            (mkOrgSettings (F64.const 100) 1 [] 10) = (434, 1)
  /\ (processPOSTransaction F64.amd64 (membershipUp 100 1) ledgerUp 0
                            (posEvent (435 # 100))).2
     = [CreatePointsTransfer "org1" "cust1" 434 "pos_transaction_txn_1";
        CreateStampsTransfer "org1" "cust1" 1 "pos_transaction_txn_1"]
  /\ Qfloor ((435 # 100) * 100) = 435.
Proof. repeat split; vm_compute; reflexivity. Qed.

(** The same product on the machine's binary64 numbers. *)
Example product_435_binary64 :
  F64.ofPrim (PrimFloat.mul (PrimFloat.div (F64.primOfInt 435) (F64.primOfInt 100))
                            (F64.primOfInt 100))
  = Some (F64.mul (F64.const (435 # 100)) (F64.const 100)).
Proof. vm_compute. reflexivity. Qed.

(** Outside the int the platform decides: 10^19 dollars at 1 point per
    dollar is a floor above 2^63 - 1; on amd64 the conversion gives -2^63,
    the test [pointsEarned > 0] fails and no points transfer is posted. *)
Example calculatePoints_out_of_range :
  calculatePoints F64.amd64 (F64.const (10 ^ 19)) (F64.const 1) = - 2 ^ 63
  /\ (processPOSTransaction F64.amd64 (membershipUp 1 1) ledgerUp 0
                            (posEvent (10 ^ 19))).2
     = [CreateStampsTransfer "org1" "cust1" 1 "pos_transaction_txn_1"].
Proof. split; vm_compute; reflexivity. Qed.

(** The scenario of the specification: 50 dollars at 2 points per dollar and
    1 stamp per visit post one transfer of 100 points and one of 1 stamp. *)
Example processPOSTransaction_fifty_dollars :
  processPOSTransaction F64.amd64 (membershipUp 2 1) ledgerUp 0 (posEvent 50)
  = (ProcessingResult.mk "evt_456" 0 true "" 100 1 []
       ["awarded 100 points"; "awarded 1 stamps"],
     [CreatePointsTransfer "org1" "cust1" 100 "pos_transaction_txn_1";
      CreateStampsTransfer "org1" "cust1" 1 "pos_transaction_txn_1"]).
Proof. vm_compute. reflexivity. Qed.




(** The two bonus actions the event generator emits are not among the
    cases of the switch. *)
Lemma processLoyaltyAction_birthday_bonus_unknown :
  processLoyaltyAction ledgerUp 0 (loyaltyEvent "birthday_bonus" 100 0)
  = (ProcessingResult.mk "evt_123" 0 false
       "unknown loyalty action type: birthday_bonus" 0 0 [] [], []).
Proof. vm_compute. reflexivity. Qed.

End ProcessorFacts.

(** ** Binary64 arithmetic: rounding is monotone *)

Module F64Facts.
Import F64.
Local Open Scope Q_scope.

Lemma pow2_pos e : 0 < pow2 e.
Proof. unfold pow2. apply Qpower_0_lt. reflexivity. Qed.

Lemma pow2_add a b : pow2 (a + b) == pow2 a * pow2 b.
Proof. unfold pow2. apply Qpower_plus. discriminate. Qed.

Lemma pow2_le a b : (a <= b)%Z -> pow2 a <= pow2 b.
Proof. intros H. unfold pow2. apply Qpower_le_compat_l; [assumption | discriminate]. Qed.

Lemma pow2_Z e : (0 <= e)%Z -> pow2 e == inject_Z (2 ^ e).
Proof. intros H. unfold pow2. symmetry. apply (Zpower_Qpower 2 e H). Qed.

Lemma pow2_sub a b : pow2 (a - b) == pow2 a / pow2 b.
Proof.
  unfold Qdiv. apply Qmult_inj_r with (z := pow2 b).
  - intros H. pose proof (pow2_pos b) as Hp. rewrite H in Hp. discriminate.
  - rewrite <- pow2_add. replace (a - b + b)%Z with a by ring.
    rewrite <- Qmult_assoc, (Qmult_comm (/ pow2 b)), Qmult_inv_r.
    + ring.
    + intros H. pose proof (pow2_pos b) as Hp. rewrite H in Hp. discriminate.
Qed.

Lemma inject_Z_log2_bounds n : (0 < n)%Z ->
  pow2 (Z.log2 n) <= inject_Z n /\ inject_Z n < pow2 (Z.log2 n + 1).
Proof.
  intros Hn. destruct (Z.log2_spec n Hn) as [Hlo Hhi].
  pose proof (Z.log2_nonneg n) as Hnn.
  rewrite !pow2_Z by lia. split.
  - rewrite <- Zle_Qle. exact Hlo.
  - rewrite <- Zlt_Qlt. replace (Z.log2 n + 1)%Z with (Z.succ (Z.log2 n)) by lia. exact Hhi.
Qed.

Lemma Qlog2_spec q : 0 < q -> pow2 (Qlog2 q) <= q /\ q < pow2 (Qlog2 q + 1).
Proof.
  intros Hq. destruct q as [n d].
  assert (Hn : (0 < n)%Z).
  { unfold Qlt in Hq. simpl in Hq. lia. }
  unfold Qlog2. simpl Qnum. simpl Qden.
  set (a := Z.log2 n). set (b := Z.log2 (Z.pos d)).
  destruct (inject_Z_log2_bounds n Hn) as [Hnlo Hnhi].
  destruct (inject_Z_log2_bounds (Z.pos d) eq_refl) as [Hdlo Hdhi].
  fold a in Hnlo, Hnhi. fold b in Hdlo, Hdhi.
  assert (Hdpos : 0 < inject_Z (Z.pos d)) by reflexivity.
  assert (Hq' : n # d == inject_Z n / inject_Z (Z.pos d)) by apply Qmake_Qdiv.
  destruct (Qle_bool (pow2 (a - b)) (n # d)) eqn:Hle.
  - apply Qle_bool_iff in Hle. split; [exact Hle|].
    rewrite Hq'. apply Qlt_shift_div_r; [exact Hdpos|].
    apply Qlt_le_trans with (pow2 (a + 1)); [exact Hnhi|].
    replace (a + 1)%Z with ((a - b + 1) + b)%Z by ring.
    rewrite pow2_add. apply Qmult_le_l; [apply pow2_pos | exact Hdlo].
  - assert (Hlt : n # d < pow2 (a - b)).
    { apply Qnot_le_lt. intros H. apply Qle_bool_iff in H. congruence. }
    split.
    + rewrite Hq'. apply Qle_shift_div_l; [exact Hdpos|].
      apply Qle_trans with (pow2 a); [|exact Hnlo].
      replace a with ((a - b - 1) + (b + 1))%Z at 2 by ring.
      rewrite pow2_add. apply Qmult_le_l; [apply pow2_pos | apply Qlt_le_weak; exact Hdhi].
    + replace (a - b - 1 + 1)%Z with (a - b)%Z by ring. exact Hlt.
Qed.

Lemma Qlog2_mono x y : 0 < x -> x <= y -> (Qlog2 x <= Qlog2 y)%Z.
Proof.
  intros Hx Hxy.
  assert (Hy : 0 < y) by (eapply Qlt_le_trans; eauto).
  destruct (Qlog2_spec x Hx) as [Hxlo _].
  destruct (Qlog2_spec y Hy) as [_ Hyhi].
  destruct (Z_le_gt_dec (Qlog2 x) (Qlog2 y)) as [H|H]; [exact H | exfalso].
  assert (pow2 (Qlog2 y + 1) <= pow2 (Qlog2 x)) by (apply pow2_le; lia).
  apply (Qlt_irrefl y).
  apply Qlt_le_trans with (pow2 (Qlog2 y + 1)); [exact Hyhi|].
  apply Qle_trans with (pow2 (Qlog2 x)); [assumption|].
  apply Qle_trans with x; assumption.
Qed.

(** Rounding to the nearest integer is monotone and fixes the integers. *)
Lemma rne_bounds x : (Qfloor x <= rne x <= Qfloor x + 1)%Z.
Proof.
  unfold rne. destruct (Qcompare _ _); [destruct (Z.even _)| |]; lia.
Qed.

Lemma rne_ge_int k x : inject_Z k <= x -> (k <= rne x)%Z.
Proof.
  intros H. pose proof (rne_bounds x) as Hb.
  apply Qfloor_resp_le in H. rewrite Qfloor_Z in H. lia.
Qed.

Lemma rne_Z k : rne (inject_Z k) = k.
Proof.
  unfold rne. rewrite Qfloor_Z.
  assert (Hz : inject_Z k - inject_Z k == 0) by ring.
  destruct (Qcompare_spec (inject_Z k - inject_Z k) (1 # 2)) as [H|H|H].
  - rewrite Hz in H. discriminate H.
  - reflexivity.
  - rewrite Hz in H. discriminate H.
Qed.

Lemma rne_le_int k x : x <= inject_Z k -> (rne x <= k)%Z.
Proof.
  intros H. pose proof (rne_bounds x) as Hb.
  pose proof (Qfloor_resp_le _ _ H) as Hf. rewrite Qfloor_Z in Hf.
  destruct (Z.eq_dec (Qfloor x) k) as [Heq|Hne]; [|lia].
  assert (Hx : x == inject_Z k).
  { apply Qle_antisym; [exact H|]. rewrite <- Heq. apply Qfloor_le. }
  unfold rne. rewrite Heq.
  assert (Hz : x - inject_Z k == 0) by (rewrite Hx; ring).
  destruct (Qcompare_spec (x - inject_Z k) (1 # 2)) as [H'|H'|H'].
  - rewrite Hz in H'. discriminate H'.
  - lia.
  - rewrite Hz in H'. discriminate H'.
Qed.

Lemma rne_mono x y : x <= y -> (rne x <= rne y)%Z.
Proof.
  intros Hxy.
  pose proof (Qfloor_resp_le _ _ Hxy) as Hf.
  pose proof (rne_bounds x) as Hbx. pose proof (rne_bounds y) as Hby.
  destruct (Z.eq_dec (Qfloor x) (Qfloor y)) as [Heq|Hne]; [|lia].
  unfold rne. rewrite <- Heq.
  assert (Hfrac : x - inject_Z (Qfloor x) <= y - inject_Z (Qfloor x)).
  { apply Qplus_le_l with (z := inject_Z (Qfloor x)). ring_simplify. exact Hxy. }
  destruct (Qcompare_spec (x - inject_Z (Qfloor x)) (1 # 2)) as [Hx|Hx|Hx];
    destruct (Qcompare_spec (y - inject_Z (Qfloor x)) (1 # 2)) as [Hy|Hy|Hy];
    try (destruct (Z.even (Qfloor x)); lia); exfalso.
  - rewrite Hx in Hfrac. apply (Qlt_irrefl (1 # 2)). eapply Qle_lt_trans; eauto.
  - rewrite Hy in Hfrac. apply (Qlt_irrefl (1 # 2)). eapply Qlt_le_trans; eauto.
  - apply (Qlt_irrefl (1 # 2)). eapply Qlt_trans; [exact Hx|]. eapply Qle_lt_trans; eauto.
Qed.

(** Rounding to 53 bits, on positive numbers. *)
Lemma round_pos_eq q : 0 < q ->
  round q == inject_Z (rne (q / pow2 (Qlog2 q - 52))) * pow2 (Qlog2 q - 52).
Proof.
  intros Hq. unfold round.
  destruct (Qeq_bool q 0) eqn:E.
  - apply Qeq_bool_iff in E. rewrite E in Hq. discriminate.
  - rewrite Qred_correct.
    assert (Habs : Qabs q = q).
    { destruct q as [n d]. unfold Qlt in Hq. simpl in Hq.
      unfold Qabs. f_equal. apply Z.abs_eq. lia. }
    rewrite Habs. reflexivity.
Qed.

Lemma scaled_bounds q : 0 < q ->
  inject_Z (2 ^ 52) <= q / pow2 (Qlog2 q - 52)
  /\ q / pow2 (Qlog2 q - 52) < inject_Z (2 ^ 53).
Proof.
  intros Hq. destruct (Qlog2_spec q Hq) as [Hlo Hhi].
  rewrite <- !pow2_Z by lia. split.
  - apply Qle_shift_div_l; [apply pow2_pos|].
    rewrite <- pow2_add. replace (52 + (Qlog2 q - 52))%Z with (Qlog2 q) by ring. exact Hlo.
  - apply Qlt_shift_div_r; [apply pow2_pos|].
    rewrite <- pow2_add. replace (53 + (Qlog2 q - 52))%Z with (Qlog2 q + 1)%Z by ring. exact Hhi.
Qed.

(** Rounding to binary64 is monotone on the positive numbers. *)
Theorem round_mono x y : 0 < x -> x <= y -> round x <= round y.
Proof.
  intros Hx Hxy.
  assert (Hy : 0 < y) by (eapply Qlt_le_trans; eauto).
  rewrite (round_pos_eq x Hx), (round_pos_eq y Hy).
  pose proof (Qlog2_mono x y Hx Hxy) as Hl.
  destruct (scaled_bounds x Hx) as [_ Hxhi].
  destruct (scaled_bounds y Hy) as [Hylo _].
  set (ex := (Qlog2 x - 52)%Z) in *. set (ey := (Qlog2 y - 52)%Z) in *.
  destruct (Z.eq_dec ex ey) as [Heq|Hne].
  - rewrite Heq. apply Qmult_le_compat_r; [|apply Qlt_le_weak, pow2_pos].
    rewrite <- Zle_Qle. apply rne_mono.
    unfold Qdiv. apply Qmult_le_compat_r; [exact Hxy|].
    apply Qlt_le_weak, Qinv_lt_0_compat, pow2_pos.
  - assert (Hlt : (ex + 1 <= ey)%Z) by (subst ex ey; lia).
    apply Qle_trans with (inject_Z (2 ^ 53) * pow2 ex).
    + apply Qmult_le_compat_r; [|apply Qlt_le_weak, pow2_pos].
      rewrite <- Zle_Qle. apply rne_le_int. apply Qlt_le_weak. exact Hxhi.
    + apply Qle_trans with (inject_Z (2 ^ 52) * pow2 ey).
      * rewrite <- !pow2_Z by lia. rewrite <- !pow2_add.
        apply pow2_le. lia.
      * apply Qmult_le_compat_r; [|apply Qlt_le_weak, pow2_pos].
        rewrite <- Zle_Qle. apply rne_ge_int. exact Hylo.
Qed.


Lemma round_one : round 1 == 1.
Proof. vm_compute. reflexivity. Qed.

Lemma ofInt_ge_1 n : (1 <= n)%Z -> 1 <= ofInt n.
Proof.
  intros H. unfold ofInt. rewrite <- round_one.
  apply round_mono; [reflexivity|]. change (inject_Z 1 <= inject_Z n). rewrite <- Zle_Qle. exact H.
Qed.

Lemma ofInt_mono a b : (1 <= a)%Z -> (a <= b)%Z -> ofInt a <= ofInt b.
Proof.
  intros Ha Hab. unfold ofInt. apply round_mono.
  - change (inject_Z 0 < inject_Z a). rewrite <- Zlt_Qlt. lia.
  - rewrite <- Zle_Qle. exact Hab.
Qed.

Lemma mul_pos_mono a b c d :
  0 < a -> a <= b -> 0 < c -> c <= d -> mul a c <= mul b d.
Proof.
  intros Ha Hab Hc Hcd. unfold mul. apply round_mono.
  - rewrite <- (Qmult_0_l c). apply Qmult_lt_compat_r; assumption.
  - apply Qmult_le_compat_nonneg; split; try assumption; apply Qlt_le_weak; assumption.
Qed.

Lemma round_pos_ge c q : 0 < c -> round c == c -> c <= q -> c <= round q.
Proof.
  intros Hc Hr Hq. rewrite <- Hr. apply round_mono; assumption.
Qed.

Lemma toInt_Ceil x : toInt (Ceil x) = Qceiling x.
Proof.
  unfold toInt, Ceil. destruct (Qle_bool 0 (inject_Z (Qceiling x))).
  - apply Qfloor_Z.
  - apply Qceiling_Z.
Qed.

Lemma Qceiling_pos x : 0 < x -> (1 <= Qceiling x)%Z.
Proof.
  intros H. pose proof (Qle_ceiling x) as Hc.
  assert (Hlt : 0 < inject_Z (Qceiling x)) by (eapply Qlt_le_trans; eauto).
  change (inject_Z 0 < inject_Z (Qceiling x)) in Hlt. rewrite <- Zlt_Qlt in Hlt. lia.
Qed.

End F64Facts.

(** ** RFM analytics: quintile boundaries *)

Module RFMFacts.
Import F64 F64Facts RFM.

(** On the ranks of small and of large populations the model computes what
    the machine's binary64 multiplication computes. *)
Example scaledRank_binary64 :
  map (fun n => map (fun i => ofPrim (primScaledRank i n)) [0; 1; 2; 3; 4])
      [5; 6; 7; 10; 11; 123; 1000; 99999; 4503599627370497]
  = map (fun n => map (fun i => Some (scaledRank i n)) [0; 1; 2; 3; 4])
      [5; 6; 7; 10; 11; 123; 1000; 99999; 4503599627370497].
Proof. vm_compute. reflexivity. Qed.

(** The quintiles of the unit test of the repository, and of five values. *)
Example calculateIntQuintiles_test :
  calculateIntQuintiles [1; 3; 5; 7; 9; 11; 13; 15; 17; 19] = Some [3; 7; 13; 15; 19]
  /\ calculateIntQuintiles [50; 40; 30; 20; 10] = Some [10; 20; 40; 40; 50].
Proof. split; vm_compute; reflexivity. Qed.

Lemma const_02_pos : (0 < const (2 # 10))%Q.
Proof. vm_compute. reflexivity. Qed.

Lemma percentile_0 : (percentile 0 == const (2 # 10))%Q.
Proof. vm_compute. reflexivity. Qed.

Lemma round_const_02 : (round (const (2 # 10)) == const (2 # 10))%Q.
Proof. vm_compute. reflexivity. Qed.

Lemma percentile_mono i j : 0 <= i -> i <= j -> (percentile i <= percentile j)%Q.
Proof.
  intros Hi Hij. unfold percentile. apply mul_pos_mono.
  - eapply Qlt_le_trans; [|apply ofInt_ge_1; lia]. reflexivity.
  - apply ofInt_mono; lia.
  - apply const_02_pos.
  - apply Qle_refl.
Qed.

Lemma percentile_pos i : 0 <= i -> (const (2 # 10) <= percentile i)%Q.
Proof.
  intros Hi. rewrite <- percentile_0. apply percentile_mono; lia.
Qed.

Lemma scaledRank_mono i j n : 0 <= i -> i <= j -> 1 <= n -> (scaledRank i n <= scaledRank j n)%Q.
Proof.
  intros Hi Hij Hn. unfold scaledRank. apply mul_pos_mono.
  - eapply Qlt_le_trans; [apply const_02_pos | apply percentile_pos; lia].
  - apply percentile_mono; assumption.
  - eapply Qlt_le_trans; [|apply ofInt_ge_1; lia]. reflexivity.
  - apply Qle_refl.
Qed.

Lemma scaledRank_pos i n : 0 <= i -> 1 <= n -> (0 < scaledRank i n)%Q.
Proof.
  intros Hi Hn. unfold scaledRank, mul.
  eapply Qlt_le_trans; [apply const_02_pos|].
  apply round_pos_ge; [apply const_02_pos | apply round_const_02 |].
  rewrite <- (Qmult_1_r (const (2 # 10))).
  apply Qmult_le_compat_nonneg; split.
  - apply Qlt_le_weak, const_02_pos.
  - apply percentile_pos; lia.
  - discriminate.
  - apply ofInt_ge_1; lia.
Qed.

Lemma quintileIndex_eq i n :
  quintileIndex i n = Z.min (Qceiling (scaledRank i n) - 1) (n - 1).
Proof.
  unfold quintileIndex. fold (percentile i). fold (scaledRank i n).
  rewrite toInt_Ceil. destruct (Z.geb_spec (Qceiling (scaledRank i n) - 1) n); lia.
Qed.

Lemma quintileIndex_range i n : 0 <= i -> 1 <= n -> 0 <= quintileIndex i n < n.
Proof.
  intros Hi Hn. rewrite quintileIndex_eq.
  pose proof (Qceiling_pos _ (scaledRank_pos i n Hi Hn)). lia.
Qed.

Lemma quintileIndex_mono i j n :
  0 <= i -> i <= j -> 1 <= n -> quintileIndex i n <= quintileIndex j n.
Proof.
  intros Hi Hij Hn. rewrite !quintileIndex_eq.
  pose proof (Qceiling_resp_le _ _ (scaledRank_mono i j n Hi Hij Hn)). lia.
Qed.


#[local] Instance Qle_refl_inst : Reflexive Qle := Qle_refl.
#[local] Instance Qle_trans_inst : Transitive Qle := Qle_trans.
#[local] Instance Qle_total_inst : Total Qle.
Proof. intros x y. destruct (Qlt_le_dec x y); [left; apply Qlt_le_weak|right]; assumption. Qed.

Section Quintiles.
Context {A : Type} (R : relation A) `{!Reflexive R}.

Lemma StronglySorted_lookup_le (l : list A) (a b : nat) (x y : A) :
  StronglySorted R l -> (a <= b)%nat -> l !! a = Some x -> l !! b = Some y -> R x y.
Proof.
  intros Hs. revert a b. induction Hs as [|z l Hs IH Hall]; intros a b Hab Ha Hb.
  - rewrite lookup_nil in Ha. discriminate.
  - destruct a as [|a], b as [|b]; simpl in *.
    + inversion Ha; inversion Hb; subst. reflexivity.
    + inversion Ha; subst. rewrite Forall_forall in Hall. apply Hall.
      eapply list_elem_of_lookup_2; eauto.
    + lia.
    + apply (IH a b); [lia | assumption | assumption].
Qed.

(** The values read by the quintile loop at an ascending list of ranks. *)
Lemma quintilesFrom_sorted (values : list A) (indices : list Z) :
  StronglySorted R values -> (1 <= length values)%nat ->
  Sorted Z.le indices -> Forall (Z.le 0) indices ->
  exists quintiles,
    quintilesFrom values indices = Some quintiles
    /\ length quintiles = length indices
    /\ Sorted R quintiles
    /\ (forall i rest, indices = i :: rest ->
          exists q rest', quintiles = q :: rest'
            /\ values !! Z.to_nat (quintileIndex i (Z.of_nat (length values))) = Some q).
Proof.
  intros Hs Hn Hsorted Hpos.
  induction indices as [|i rest IH].
  - exists []. repeat split; auto. intros i rest H; discriminate.
  - inversion Hsorted as [|? ? Hsorted' Hhd]; subst.
    inversion Hpos as [|? ? Hi Hpos']; subst.
    destruct (IH Hsorted' Hpos') as (qs & Hqs & Hlen & Hqsorted & Hhead).
    pose proof (quintileIndex_range i (Z.of_nat (length values)) Hi ltac:(lia)) as Hr.
    assert (Hlt : (Z.to_nat (quintileIndex i (Z.of_nat (length values))) < length values)%nat)
      by lia.
    destruct (lookup_lt_is_Some_2 values _ Hlt) as [v Hv].
    exists (v :: qs). simpl.
    destruct (Z.ltb_spec (quintileIndex i (Z.of_nat (length values))) 0) as [Hneg|_]; [lia|].
    rewrite Hv, Hqs. split; [reflexivity|]. split; [simpl; lia|]. split.
    + constructor; [assumption|].
      destruct rest as [|j rest'].
      * destruct qs; [constructor | simpl in Hlen; discriminate].
      * destruct (Hhead j rest' eq_refl) as (q & qs' & -> & Hq).
        constructor. inversion Hhd; subst.
        eapply (StronglySorted_lookup_le values); [exact Hs | | exact Hv | exact Hq].
        pose proof (quintileIndex_mono i j (Z.of_nat (length values)) Hi ltac:(lia) ltac:(lia)).
        pose proof (quintileIndex_range j (Z.of_nat (length values)) ltac:(lia) ltac:(lia)).
        lia.
    + intros i' rest' Heq. inversion Heq; subst. eauto.
Qed.

End Quintiles.

Lemma five_ranks : Sorted Z.le [0; 1; 2; 3; 4] /\ Forall (Z.le 0) [0; 1; 2; 3; 4].
Proof. split; repeat constructor; lia. Qed.

Lemma calculateIntQuintiles_sorted (values : list Z) :
  (1 <= length values)%nat ->
  exists quintiles, calculateIntQuintiles values = Some quintiles
    /\ length quintiles = 5%nat /\ Sorted Z.le quintiles.
Proof.
  intros Hn. unfold calculateIntQuintiles, sortInts.
  destruct five_ranks as [H1 H2].
  destruct (quintilesFrom_sorted Z.le (merge_sort Z.le values) [0;1;2;3;4])
    as (qs & Hqs & Hlen & Hs & _); auto.
  - apply StronglySorted_merge_sort; apply _.
  - rewrite (Permutation_length (merge_sort_Permutation Z.le values)). exact Hn.
  - exists qs. auto.
Qed.

Lemma calculateFloatQuintiles_sorted (values : list Q) :
  (1 <= length values)%nat ->
  exists quintiles, calculateFloatQuintiles values = Some quintiles
    /\ length quintiles = 5%nat /\ Sorted Qle quintiles.
Proof.
  intros Hn. unfold calculateFloatQuintiles, sortFloat64s.
  destruct five_ranks as [H1 H2].
  destruct (quintilesFrom_sorted Qle (merge_sort Qle values) [0;1;2;3;4])
    as (qs & Hqs & Hlen & Hs & _); auto.
  - apply StronglySorted_merge_sort; apply _.
  - rewrite (Permutation_length (merge_sort_Permutation Qle values)). exact Hn.
  - exists qs. auto.
Qed.

Lemma getDefaultQuintiles_sorted orgID now :
  let q := getDefaultQuintiles orgID now in
  Sorted Z.le (RFMQuintiles.RecencyQuintiles q)
  /\ Sorted Z.le (RFMQuintiles.FrequencyQuintiles q)
  /\ Sorted Qle (RFMQuintiles.MonetaryQuintiles q).
Proof.
  simpl. repeat split; repeat constructor; try lia; vm_compute; discriminate.
Qed.

(** C9: for every list of customer activities the storage returns,
    CalculateQuintilesForOrg returns, without error, exactly 5 boundary values
    for each of recency, frequency and monetary, each boundary greater than or
    equal to the one before it; with fewer than 5 activities these are the
    fixed default quintiles. *)
Theorem CalculateQuintilesForOrg_quintiles activities orgID now calculatedAt :
  exists q,
    CalculateQuintilesForOrg (inl activities) orgID now calculatedAt = Done (q, None)
    /\ ((length activities < 5)%nat -> q = getDefaultQuintiles orgID now)
    /\ length (RFMQuintiles.RecencyQuintiles q) = 5%nat
    /\ length (RFMQuintiles.FrequencyQuintiles q) = 5%nat
    /\ length (RFMQuintiles.MonetaryQuintiles q) = 5%nat
    /\ Sorted Z.le (RFMQuintiles.RecencyQuintiles q)
    /\ Sorted Z.le (RFMQuintiles.FrequencyQuintiles q)
    /\ Sorted Qle (RFMQuintiles.MonetaryQuintiles q).
Proof.
  unfold CalculateQuintilesForOrg.
  destruct (Nat.ltb_spec (length activities) 5) as [Hlt|Hge].
  - exists (getDefaultQuintiles orgID now).
    destruct (getDefaultQuintiles_sorted orgID now) as (H1 & H2 & H3).
    repeat split; auto.
  - destruct (calculateIntQuintiles_sorted
                (map (fun a => daysSince now (CustomerActivity.LastTransaction a)) activities))
      as (r & Hr & Hrl & Hrs); [rewrite length_map; lia|].
    destruct (calculateIntQuintiles_sorted
                (map CustomerActivity.TotalTransactions activities))
      as (f & Hf & Hfl & Hfs); [rewrite length_map; lia|].
    destruct (calculateFloatQuintiles_sorted
                (map CustomerActivity.TotalSpent activities))
      as (m & Hm & Hml & Hms); [rewrite length_map; lia|].
    rewrite Hr, Hf, Hm.
    eexists. split; [reflexivity|]. simpl. repeat split; auto. lia.
Qed.

End RFMFacts.

(** ** RFM analytics: the stored customer activity *)

Module RFMConsumerFacts.
Import ActivityStorage RFMConsumer.

(** No decoded activity carries a customer identifier. *)
Lemma findCustomer_decoded docs customerID :
  customerID <> "" -> findCustomer (map decode docs) customerID = None.
Proof.
  intros Hid. induction docs as [|d docs IH]; [reflexivity|].
  destruct customerID as [|c rest]; [contradiction | exact IH].
Qed.

Lemma getExistingActivity_nil docs orgID customerID :
  customerID <> "" -> getExistingActivity docs orgID customerID None = (None, None).
Proof.
  intros Hid. unfold getExistingActivity, GetCustomerActivities.
  rewrite findCustomer_decoded by exact Hid. reflexivity.
Qed.

(** C4 (the code at the failing input, and at every input like it): a POS
    transaction event of a customer with a non-empty identifier, the read of
    the collection succeeding. getExistingActivity finds no activity of the
    customer, on the first event because there is none, on every later one
    because the decoded activities are zero-valued, and returns a nil
    pointer with a nil error; processMessage reads FirstTransaction through
    it and panics. Nothing is stored, whatever the collection holds. *)
Theorem processMessage_named_customer_panics docs updateFailure calculator
    updatedAt createdAt event transaction :
  AnalyticsEvent.EventType event = "pos.transaction" ->
  AnalyticsEvent.Payload event = Some transaction ->
  AnalyticsEvent.CustomerID event <> "" ->
  processMessage docs None updateFailure calculator updatedAt createdAt (Some event)
  = Panic.
Proof.
  intros Htype Hpayload Hid.
  unfold processMessage. rewrite Htype, Hpayload. simpl negb. cbv iota.
  rewrite getExistingActivity_nil by exact Hid. reflexivity.
Qed.

(** C4 (witness): the first event of a customer, on an empty collection. *)
Lemma processMessage_named_customer_panics_witness :
  processMessage [] None None calculatorUp 100 100 (Some firstEvent) = Panic.
Proof.
  apply (processMessage_named_customer_panics [] None calculatorUp 100 100 firstEvent
           (POSTransaction.mk "txn_1" (F64.const 10) 100)).
  - reflexivity.
  - reflexivity.
  - discriminate.
Defined.

(** The one way an event is stored: its read of the collection fails, the
    error is taken for "not found", and the totals start again at one
    transaction and the amount of the event. After the first event (10) is
    stored this way, the second (5) panics when its read succeeds, although
    the customer has a record; when its read fails too, total_transactions
    stays at 1 and total_spent falls from 10 to 5; and an event with an
    earlier timestamp moves last_transaction to 50, before the
    first_transaction of 100 that the upsert leaves alone. *)
Lemma processMessage_failed_read_restarts_totals :
  processMessage [] (Some "timeout") None calculatorUp 100 100 (Some firstEvent)
  = Done ([storedActivity], None)
  /\ processMessage [storedActivity] None None calculatorUp 200 200 (Some secondEvent)
     = Panic
  /\ processMessage [storedActivity] (Some "timeout") None calculatorUp 200 200
       (Some secondEvent)
     = Done ([ActivityDoc.mk "org1" "" "cust1" 200 1 (F64.const 5) 200 100 100], None)
  /\ (F64.const 5 < ActivityDoc.total_spent storedActivity)%Q
  /\ processMessage [storedActivity] (Some "timeout") None calculatorUp 200 200
       (Some lateEvent)
     = Done ([ActivityDoc.mk "org1" "" "cust1" 50 1 (F64.const 10) 200 100 100], None).
Proof. repeat split; vm_compute; reflexivity. Qed.

End RFMConsumerFacts.

(** ** Tier engine: the upgrade log *)

Module TiersFacts.
Import Tiers.

(** C3 (the code at the failing input): a customer stored with current_tier
    "Silver" and previous_tier "Bronze" (the state the upgrade to Silver
    leaves) makes one more transaction; the tier computed for the event is
    "Silver" again, equal to the current tier, and ProcessCustomerMetrics
    appends a second Bronze-to-Silver TierUpgrade record. *)
Theorem ProcessCustomerMetrics_repeats_upgrade :
  option_map CustomerTier.CurrentTier (tierBefore silverCustomer (silverMetrics 6))
    = Some "Silver"
  /\ (exists rule,
        calculateTier (silverMetrics 6) GetDefaultTierRules = Done rule
        /\ TierRule.Name rule = "Silver")
  /\ tier_upgrades silverCustomer
     = [TierUpgrade.mk "org1" "cust1" "Bronze" "Silver" "transaction"
          (F64.const 20) 1000 false]
  /\ tier_upgrades (afterMetrics silverCustomer 2000 (silverMetrics 6))
     = [TierUpgrade.mk "org1" "cust1" "Bronze" "Silver" "transaction"
          (F64.const 20) 1000 false;
        TierUpgrade.mk "org1" "cust1" "Bronze" "Silver" "transaction"
          (F64.const 20) 2000 false].
Proof.
  split; [vm_compute; reflexivity|].
  split; [eexists; split; vm_compute; reflexivity|].
  split; vm_compute; reflexivity.
Qed.

(** An event that computes the current tier leaves current_tier and
    previous_tier as they were; the test of [ProcessCustomerMetrics] reads
    these two fields, not the change. *)
Lemma updateCustomerTier_same_tier current newTier metrics now :
  CustomerTier.CurrentTier current = TierRule.Name newTier ->
  CustomerTier.CurrentTier (updateCustomerTier current newTier metrics now)
    = CustomerTier.CurrentTier current
  /\ CustomerTier.PreviousTier (updateCustomerTier current newTier metrics now)
    = CustomerTier.PreviousTier current.
Proof.
  intros H. unfold updateCustomerTier.
  destruct (calculateNextTierProgress newTier metrics) as [next progress].
  rewrite H, String.eqb_refl. simpl. split; reflexivity.
Qed.
End TiersFacts.


(** ** Binary64 rounding: sign and order *)

Module F64Order.
Import F64 F64Facts.
Local Open Scope Q_scope.

Lemma round_0 q : q == 0 -> round q = 0.
Proof.
  intros H. unfold round. apply Qeq_bool_iff in H. rewrite H. reflexivity.
Qed.

Lemma round_eq q : ~ q == 0 ->
  round q == inject_Z (rne (q / pow2 (Qlog2 (Qabs q) - 52))) * pow2 (Qlog2 (Qabs q) - 52).
Proof.
  intros Hq. unfold round.
  destruct (Qeq_bool q 0) eqn:E.
  - apply Qeq_bool_iff in E. contradiction.
  - apply Qred_correct.
Qed.

Lemma round_nonneg q : 0 <= q -> 0 <= round q.
Proof.
  intros Hq. destruct (Qeq_dec q 0) as [H0|H0].
  - rewrite (round_0 q H0). apply Qle_refl.
  - rewrite (round_eq q H0).
    apply Qmult_le_0_compat; [|apply Qlt_le_weak, pow2_pos].
    change 0 with (inject_Z 0). rewrite <- Zle_Qle. apply rne_ge_int.
    change (inject_Z 0) with 0.
    apply Qle_shift_div_l; [apply pow2_pos|]. rewrite Qmult_0_l. exact Hq.
Qed.

Lemma round_nonpos q : q <= 0 -> round q <= 0.
Proof.
  intros Hq. destruct (Qeq_dec q 0) as [H0|H0].
  - rewrite (round_0 q H0). apply Qle_refl.
  - rewrite (round_eq q H0).
    apply Qle_trans with (0 * pow2 (Qlog2 (Qabs q) - 52));
      [|rewrite Qmult_0_l; apply Qle_refl].
    apply Qmult_le_compat_r; [|apply Qlt_le_weak, pow2_pos].
    change 0 with (inject_Z 0). rewrite <- Zle_Qle. apply rne_le_int.
    change (inject_Z 0) with 0.
    apply Qle_shift_div_r; [apply pow2_pos|]. rewrite Qmult_0_l. exact Hq.
Qed.

Lemma rne_comp x y : x == y -> rne x = rne y.
Proof.
  intros H. unfold rne. rewrite (Qfloor_comp _ _ H).
  assert (Hc : Qcompare (x - inject_Z (Qfloor y)) (1 # 2)
               = Qcompare (y - inject_Z (Qfloor y)) (1 # 2)).
  { apply Qcompare_comp; [rewrite H; reflexivity | reflexivity]. }
  rewrite Hc. reflexivity.
Qed.

Lemma Qfloor_opp_frac x : ~ x == inject_Z (Qfloor x) -> Qfloor (- x) = (- Qfloor x - 1)%Z.
Proof.
  intros Hn.
  pose proof (Qfloor_le x) as Hlo. pose proof (Qlt_floor x) as Hhi.
  assert (Hlt : inject_Z (Qfloor x) < x).
  { apply Qle_lteq in Hlo. destruct Hlo as [H|H]; [exact H|]. exfalso. apply Hn. symmetry. exact H. }
  assert (H1 : inject_Z (- Qfloor x - 1) <= - x).
  { rewrite Z.sub_1_r, <- Z.opp_succ, inject_Z_opp.
    apply Qopp_le_compat. apply Qlt_le_weak.
    replace (Z.succ (Qfloor x)) with (Qfloor x + 1)%Z by lia. exact Hhi. }
  assert (H2 : - x < inject_Z (- Qfloor x - 1 + 1)).
  { replace (- Qfloor x - 1 + 1)%Z with (- Qfloor x)%Z by lia.
    rewrite inject_Z_opp. apply Qopp_lt_compat. exact Hlt. }
  pose proof (Qfloor_resp_le _ _ H1) as Ha. rewrite Qfloor_Z in Ha.
  pose proof (Qlt_floor (- x)) as Hb.
  pose proof (Qfloor_le (- x)) as Hc.
  assert (Hd : inject_Z (Qfloor (- x)) < inject_Z (- Qfloor x - 1 + 1)).
  { eapply Qle_lt_trans; eauto. }
  rewrite <- Zlt_Qlt in Hd. lia.
Qed.

Lemma rne_opp x : rne (- x) = (- rne x)%Z.
Proof.
  destruct (Qeq_dec x (inject_Z (Qfloor x))) as [Hi|Hn].
  - rewrite (rne_comp x _ Hi), rne_Z.
    assert (H : - x == inject_Z (- Qfloor x)).
    { rewrite inject_Z_opp. rewrite <- Hi. reflexivity. }
    rewrite (rne_comp _ _ H), rne_Z. reflexivity.
  - unfold rne. rewrite (Qfloor_opp_frac x Hn).
    set (f := Qfloor x) in *.
    assert (Hfr : - x - inject_Z (- f - 1) == 1 - (x - inject_Z f)).
    { unfold Zminus. rewrite !inject_Z_plus, !inject_Z_opp. simpl. ring. }
    assert (Hc : Qcompare (- x - inject_Z (- f - 1)) (1 # 2)
                 = CompOpp (Qcompare (x - inject_Z f) (1 # 2))).
    { rewrite (Qcompare_comp _ _ Hfr _ _ (Qeq_refl (1 # 2))).
      destruct (Qcompare_spec (x - inject_Z f) (1 # 2)) as [H|H|H]; simpl.
      - apply Qeq_alt. rewrite H. reflexivity.
      - apply Qgt_alt. apply Qplus_lt_l with (z := (x - inject_Z f) - (1 # 2)).
        assert (E1 : (1 # 2) + (x - inject_Z f - (1 # 2)) == x - inject_Z f) by ring.
        assert (E2 : 1 - (x - inject_Z f) + (x - inject_Z f - (1 # 2)) == 1 # 2) by ring.
        rewrite E1, E2. exact H.
      - apply Qlt_alt. apply Qplus_lt_l with (z := (x - inject_Z f) - (1 # 2)).
        assert (E1 : (1 # 2) + (x - inject_Z f - (1 # 2)) == x - inject_Z f) by ring.
        assert (E2 : 1 - (x - inject_Z f) + (x - inject_Z f - (1 # 2)) == 1 # 2) by ring.
        rewrite E1, E2. exact H. }
    rewrite Hc.
    destruct (Qcompare (x - inject_Z f) (1 # 2)); simpl; try lia.
    replace (- f - 1)%Z with (- (f + 1))%Z by lia.
    rewrite Z.even_opp. rewrite Z.even_add. simpl.
    destruct (Z.even f); simpl; lia.
Qed.

Lemma Qabs_opp_eq q : Qabs (- q) = Qabs q.
Proof. destruct q as [n d]. unfold Qabs, Qopp. simpl. rewrite Z.abs_opp. reflexivity. Qed.

Lemma round_opp q : round (- q) == - round q.
Proof.
  destruct (Qeq_dec q 0) as [H0|H0].
  - rewrite (round_0 q H0). rewrite (round_0 (- q)); [reflexivity|].
    rewrite H0. reflexivity.
  - assert (H0' : ~ - q == 0).
    { intros H. apply H0. rewrite <- (Qopp_involutive q). rewrite H. reflexivity. }
    rewrite (round_eq q H0), (round_eq (- q) H0'). rewrite Qabs_opp_eq.
    set (e := (Qlog2 (Qabs q) - 52)%Z).
    assert (Hd : - q / pow2 e == - (q / pow2 e)) by (unfold Qdiv; ring).
    rewrite (rne_comp _ _ Hd), rne_opp, inject_Z_opp. ring.
Qed.

(** Rounding to binary64 is monotone. *)
Lemma round_monotone x y : x <= y -> round x <= round y.
Proof.
  intros Hxy.
  destruct (Qlt_le_dec 0 x) as [Hx|Hx]; [apply round_mono; assumption|].
  destruct (Qlt_le_dec y 0) as [Hy|Hy].
  - apply Qopp_le_compat in Hxy.
    assert (H : round (- y) <= round (- x)).
    { apply round_mono; [|exact Hxy].
      change 0 with (- 0). apply Qopp_lt_compat. exact Hy. }
    rewrite !round_opp in H. apply Qopp_le_compat in H.
    rewrite !Qopp_involutive in H. exact H.
  - apply Qle_trans with 0; [apply round_nonpos | apply round_nonneg]; assumption.
Qed.

End F64Order.


(** ** Ledger: the books, balances and accounts; the routes *)

Module LedgerBooksFacts.
Import Ledger LedgerFacts.

Section Totals.
Variable f : Account.t -> Z.

Lemma total_insert_fresh (m : gmap string Account.t) k a :
  m !! k = None -> total f (<[k := a]> m) = f a + total f m.
Proof.
  intros H. unfold total.
  rewrite (map_fold_insert_L (fun (_ : string) account sum => f account + sum)); auto.
  intros. lia.
Qed.

Lemma total_insert (m : gmap string Account.t) k a :
  total f (<[k := a]> m)
  = total f m - match m !! k with Some old => f old | None => 0 end + f a.
Proof.
  destruct (m !! k) as [old|] eqn:E.
  - rewrite <- (insert_delete_eq m k a).
    rewrite total_insert_fresh by apply lookup_delete_eq.
    rewrite <- (insert_delete_id m k old E) at 2.
    rewrite total_insert_fresh by apply lookup_delete_eq. lia.
  - rewrite total_insert_fresh by assumption. lia.
Qed.
End Totals.

Lemma uint64_shift a b k : a = b + k * 2 ^ 64 -> uint64 a = uint64 b.
Proof. intros ->. unfold uint64. apply Z_mod_plus_full. Qed.

Lemma uint64_add_shift A : exists k, forall x, uint64 (x + A) = x + A + k x * 2 ^ 64.
Proof.
  exists (fun x => - ((x + A) / 2 ^ 64)). intros x. unfold uint64.
  rewrite Z.mod_eq by lia. lia.
Qed.

Lemma afterTransfer_accounts r transferID now nowDebit nowCredit req :
  accounts (afterTransfer r transferID now nowDebit nowCredit req)
  = updateAccountBalance
      (updateAccountBalance (accounts r) (transferAccounts req).1
                            (CreateTransferRequest.Amount req) true nowDebit)
      (transferAccounts req).2 (CreateTransferRequest.Amount req) false nowCredit.
Proof.
  unfold afterTransfer, CreateTransfer.
  destruct (transferAccounts req) as [d0 c0]. reflexivity.
Qed.

Lemma afterTransfer_books r transferID now nowDebit nowCredit req :
  let r' := afterTransfer r transferID now nowDebit nowCredit req in
  uint64 (totalDebits r' - totalCredits r') = uint64 (totalDebits r - totalCredits r).
Proof.
  intros r'.
  pose proof (afterTransfer_accounts r transferID now nowDebit nowCredit req) as Hr'.
  pose proof (transferAccounts_distinct req) as Hdc.
  set (d := (transferAccounts req).1) in *. set (c := (transferAccounts req).2) in *.
  set (A := CreateTransferRequest.Amount req) in *.
  unfold totalDebits, totalCredits. subst r'. rewrite Hr'.
  unfold updateAccountBalance at 1 3.
  rewrite !total_insert.
  rewrite !(updateAccountBalance_other _ d c) by assumption.
  unfold updateAccountBalance.
  rewrite !total_insert.
  set (dd := match accounts r !! d with Some a0 => Account.DebitsPosted a0 | None => 0 end).
  set (cc := match accounts r !! c with Some a0 => Account.CreditsPosted a0 | None => 0 end).
  destruct (uint64_add_shift A) as [k Hk].
  apply (uint64_shift _ _ (k dd - k cc)).
  subst dd cc.
  destruct (accounts r !! d) as [ad|]; destruct (accounts r !! c) as [ac|]; simpl;
    rewrite !Hk; lia.
Qed.

(** X1: Every CreateTransfer keeps the books balanced modulo 2^64: the sum
    of debits_posted over all accounts minus the sum of credits_posted is
    the same modulo 2^64 before and after the call. So after any run of
    CreateTransfer calls on a new repository the two sums are equal modulo
    2^64. *)
Theorem CreateTransfer_books_balanced :
  (forall r transferID now nowDebit nowCredit req,
      let r' := afterTransfer r transferID now nowDebit nowCredit req in
      uint64 (totalDebits r' - totalCredits r')
      = uint64 (totalDebits r - totalCredits r))
  /\ (forall calls,
        let r := afterTransfers NewMockTigerBeetleRepo calls in
        uint64 (totalDebits r) = uint64 (totalCredits r)).
Proof.
  split; [apply afterTransfer_books|].
  intros calls r.
  assert (H : uint64 (totalDebits r - totalCredits r) = 0).
  { subst r. unfold afterTransfers.
    assert (H0 : uint64 (totalDebits NewMockTigerBeetleRepo
                         - totalCredits NewMockTigerBeetleRepo) = 0) by reflexivity.
    revert H0. generalize NewMockTigerBeetleRepo.
    induction calls as [|[[[[transferID now] nowDebit] nowCredit] req] calls IH];
      intros r0 H0; simpl; [exact H0|].
    apply IH. rewrite afterTransfer_books. exact H0. }
  unfold uint64 in *.
  rewrite Zminus_mod in H.
  pose proof (Z.mod_pos_bound (totalDebits r) (2 ^ 64) ltac:(lia)).
  pose proof (Z.mod_pos_bound (totalCredits r) (2 ^ 64) ltac:(lia)).
  destruct (Z.eq_dec (totalDebits r mod 2 ^ 64) (totalCredits r mod 2 ^ 64)); [assumption|].
  exfalso.
  destruct (Z_lt_le_dec (totalDebits r mod 2 ^ 64) (totalCredits r mod 2 ^ 64)).
  - rewrite <- (Z_mod_plus_full _ 1) in H. rewrite Z.mod_small in H; lia.
  - rewrite Z.mod_small in H; lia.
Qed.

(** Account identifiers are told apart by their first byte. *)
Lemma stamps_ne_liability org cust org' :
  generateCustomerStampsAccount org cust <> generateOrgLiabilityAccount org'.
Proof. intros H. inversion H. Qed.

Lemma stamps_ne_points org cust org' cust' :
  generateCustomerStampsAccount org cust <> generateCustomerPointsAccount org' cust'.
Proof. intros H. inversion H. Qed.

Lemma transferAccounts_cases req :
  let l := generateOrgLiabilityAccount (CreateTransferRequest.OrgID req) in
  let p := generateCustomerPointsAccount (CreateTransferRequest.OrgID req)
                                         (CreateTransferRequest.CustomerID req) in
  transferAccounts req
  = if isRedemption (CreateTransferRequest.TransactionType req) then (p, l) else (l, p).
Proof. reflexivity. Qed.

Lemma afterTransfer_balance_other r transferID now nowDebit nowCredit req id :
  id <> generateOrgLiabilityAccount (CreateTransferRequest.OrgID req) ->
  id <> generateCustomerPointsAccount (CreateTransferRequest.OrgID req)
                                      (CreateTransferRequest.CustomerID req) ->
  balance (afterTransfer r transferID now nowDebit nowCredit req) id = balance r id.
Proof.
  intros Hl Hp. unfold balance. rewrite afterTransfer_accounts.
  rewrite !updateAccountBalance_other; [reflexivity| |];
    rewrite transferAccounts_cases; destruct (isRedemption _); cbn [fst snd];
    congruence.
Qed.

Lemma afterTransfer_points_balance r transferID now nowDebit nowCredit req :
  let p := generateCustomerPointsAccount (CreateTransferRequest.OrgID req)
                                         (CreateTransferRequest.CustomerID req) in
  let A := CreateTransferRequest.Amount req in
  balance (afterTransfer r transferID now nowDebit nowCredit req) p
  = uint64 (if isRedemption (CreateTransferRequest.TransactionType req)
            then balance r p - A else balance r p + A).
Proof.
  intros p A. unfold balance. rewrite afterTransfer_accounts.
  rewrite transferAccounts_cases. fold p A.
  set (l := generateOrgLiabilityAccount (CreateTransferRequest.OrgID req)).
  assert (Hlp : l <> p) by apply liability_ne_points.
  destruct (uint64_add_shift A) as [k Hk].
  destruct (isRedemption _); cbn [fst snd].
  - rewrite (updateAccountBalance_other _ l p) by assumption.
    unfold updateAccountBalance at 1. rewrite lookup_insert_eq.
    destruct (accounts r !! p) as [a|]; simpl.
    + rewrite Hk.
      apply (uint64_shift _ _ (- k (Account.DebitsPosted a)
                               + (Account.CreditsPosted a - Account.DebitsPosted a) / 2 ^ 64)).
      unfold uint64. rewrite (Z.mod_eq (Account.CreditsPosted a - _)) by lia. lia.
    + rewrite Hk. apply (uint64_shift _ _ (- k 0)). lia.
  - unfold updateAccountBalance at 1. rewrite lookup_insert_eq.
    rewrite (updateAccountBalance_other _ l p) by assumption.
    destruct (accounts r !! p) as [a|]; simpl.
    + rewrite Hk.
      apply (uint64_shift _ _ (k (Account.CreditsPosted a)
                               + (Account.CreditsPosted a - Account.DebitsPosted a) / 2 ^ 64)).
      unfold uint64. rewrite (Z.mod_eq (Account.CreditsPosted a - _)) by lia. lia.
    + rewrite Z.sub_0_r. unfold uint64. apply Z.mod_mod. lia.
Qed.

(** X2: After a CreateTransfer of amount A for (org, customer), GetBalance
    for that customer reports the points balance (old - A) mod 2^64 when the
    type is one of the two redemption types and (old + A) mod 2^64 for every
    other type, the old balance being 0 when the account does not exist. No
    transfer changes the stamps balance GetBalance reports, for any customer
    and any transaction type, and GetBalance is unchanged for every customer
    whose points account is another one. *)
Theorem CreateTransfer_moves_points_balance r transferID now nowDebit nowCredit req :
  let orgID := CreateTransferRequest.OrgID req in
  let customerID := CreateTransferRequest.CustomerID req in
  let A := CreateTransferRequest.Amount req in
  let before := balance r (generateCustomerPointsAccount orgID customerID) in
  let r' := afterTransfer r transferID now nowDebit nowCredit req in
  (GetBalance r' orgID customerID).1 !! "points"
  = Some (uint64 (if isRedemption (CreateTransferRequest.TransactionType req)
                  then before - A else before + A))
  /\ (forall org cust,
        (GetBalance r' org cust).1 !! "stamps" = (GetBalance r org cust).1 !! "stamps")
  /\ (forall org cust,
        generateCustomerPointsAccount org cust
        <> generateCustomerPointsAccount orgID customerID ->
        GetBalance r' org cust = GetBalance r org cust).
Proof.
  intros orgID customerID A before r'. split; [|split].
  - destruct (GetBalance_lookup r' orgID customerID) as (_ & -> & _ & _).
    f_equal. apply afterTransfer_points_balance.
  - intros org cust.
    destruct (GetBalance_lookup r org cust) as (_ & _ & -> & _).
    destruct (GetBalance_lookup r' org cust) as (_ & _ & -> & _).
    f_equal. apply afterTransfer_balance_other; [apply stamps_ne_liability|].
    apply stamps_ne_points.
  - intros org cust Hne. apply GetBalance_ext.
    + apply afterTransfer_balance_other; [|exact Hne].
      intros H. symmetry in H. revert H. apply liability_ne_points.
    + apply afterTransfer_balance_other; [apply stamps_ne_liability|].
      apply stamps_ne_points.
Qed.

(** X3: Account identifiers join org and customer with an underscore, so
    they do not tell the pairs apart: for all strings o, i and c, GetBalance
    for org o_i and customer c is GetBalance for org o and customer i_c (the
    two pairs share their points account and their stamps account). *)
Theorem GetBalance_shared_account r orgID infix customerID :
  GetBalance r (orgID ++ "_" ++ infix) customerID
  = GetBalance r orgID (infix ++ "_" ++ customerID).
Proof.
  assert (Happ : forall a b c : string, (a ++ b) ++ c = a ++ (b ++ c)).
  { intros a b c. induction a as [|x a IH]; [reflexivity|].
    change (String x ((a ++ b) ++ c) = String x (a ++ (b ++ c))).
    rewrite IH. reflexivity. }
  assert (Hp : generateCustomerPointsAccount (orgID ++ "_" ++ infix) customerID
               = generateCustomerPointsAccount orgID (infix ++ "_" ++ customerID)).
  { unfold generateCustomerPointsAccount. f_equal. rewrite !Happ. reflexivity. }
  assert (Hs : generateCustomerStampsAccount (orgID ++ "_" ++ infix) customerID
               = generateCustomerStampsAccount orgID (infix ++ "_" ++ customerID)).
  { unfold generateCustomerStampsAccount. f_equal. rewrite !Happ. reflexivity. }
  unfold GetBalance. rewrite Hp, Hs. reflexivity.
Qed.

Lemma hexDigit_not_prefix n :
  hexDigit n <> "l"%char /\ hexDigit n <> "p"%char /\ hexDigit n <> "s"%char.
Proof.
  do 16 (destruct n as [|n]; [repeat split; discriminate|]).
  repeat split; discriminate.
Qed.

Lemma generateStringID_not_account bytes :
  bytes <> [] ->
  (forall org, generateStringID bytes <> generateOrgLiabilityAccount org)
  /\ (forall org cust, generateStringID bytes <> generateCustomerPointsAccount org cust)
  /\ (forall org cust, generateStringID bytes <> generateCustomerStampsAccount org cust).
Proof.
  intros Hne. destruct bytes as [|b rest]; [contradiction|].
  destruct (hexDigit_not_prefix (nat_of_ascii b / 16)) as (Hl & Hp & Hs).
  set (c := hexDigit (nat_of_ascii b / 16)) in *.
  change (generateStringID (b :: rest))
    with (String c (String (hexDigit (nat_of_ascii b mod 16)) (generateStringID rest))).
  split; [|split].
  - intros org H.
    change (generateOrgLiabilityAccount org) with (String "l" ("iability_" ++ org)) in H.
    injection H as H _. contradiction.
  - intros org cust H.
    change (generateCustomerPointsAccount org cust)
      with (String "p" ("oints_" ++ org ++ "_" ++ cust)) in H.
    injection H as H _. contradiction.
  - intros org cust H.
    change (generateCustomerStampsAccount org cust)
      with (String "s" ("tamps_" ++ org ++ "_" ++ cust)) in H.
    injection H as H _. contradiction.
Qed.

(** X4: CreateAccount returns no error; the account it returns has the
    generated id, the org_id and customer_id of the request and zero posted
    and pending counters; GetAccount with that id returns this account,
    GetAccount with any other id answers as before the call, and the
    transfers are untouched. *)
Theorem CreateAccount_then_GetAccount r accountID now req :
  let r' := (CreateAccount r accountID now req).1.1 in
  let account := (CreateAccount r accountID now req).1.2 in
  (CreateAccount r accountID now req).2 = None
  /\ GetAccount r' accountID = (Some account, None)
  /\ Account.ID account = accountID
  /\ Account.OrgID account = CreateAccountRequest.OrgID req
  /\ Account.CustomerID account = CreateAccountRequest.CustomerID req
  /\ Account.DebitsPosted account = 0 /\ Account.CreditsPosted account = 0
  /\ Account.DebitsPending account = 0 /\ Account.CreditsPending account = 0
  /\ (forall id, id <> accountID -> GetAccount r' id = GetAccount r id)
  /\ transfers r' = transfers r.
Proof.
  simpl. unfold GetAccount. simpl. rewrite lookup_insert_eq.
  repeat split; auto.
  intros id Hid. rewrite lookup_insert_ne by congruence. reflexivity.
Qed.

(** X5: The id of an account made by CreateAccount is a string of
    hexadecimal digits (generateStringID, of at least one random byte) and
    so never a liability_, points_ or stamps_ identifier: creating the
    account changes no balance that GetBalance reports, and after any run of
    CreateTransfer calls the account is still stored as it was created. *)
Theorem CreateAccount_outside_transfers r bytes now req :
  bytes <> [] ->
  let accountID := generateStringID bytes in
  let r' := (CreateAccount r accountID now req).1.1 in
  let account := (CreateAccount r accountID now req).1.2 in
  (forall orgID customerID,
      GetBalance r' orgID customerID = GetBalance r orgID customerID)
  /\ (forall calls, accounts (afterTransfers r' calls) !! accountID = Some account).
Proof.
  intros Hne accountID r' account.
  destruct (generateStringID_not_account bytes Hne) as (Hl & Hp & Hs).
  fold accountID in Hl, Hp, Hs.
  split.
  - intros orgID customerID. symmetry.
    apply GetBalance_ext; unfold balance; subst r'; simpl;
      rewrite lookup_insert_ne; auto.
  - intros calls.
    assert (H0 : accounts r' !! accountID = Some account).
    { subst r'. simpl. apply lookup_insert_eq. }
    revert H0. generalize r'. clear r'.
    induction calls as [|[[[[transferID now'] nowDebit] nowCredit] req'] calls IH];
      intros r0 H0; simpl; [exact H0|].
    apply IH. rewrite afterTransfer_accounts.
    rewrite !updateAccountBalance_other; [exact H0| |];
      rewrite transferAccounts_cases; destruct (isRedemption _); cbn [fst snd];
      intros H; symmetry in H; revert H; first [apply Hl | apply Hp].
Qed.

Lemma CreateAccount_outside_transfers_witness :
  GetBalance (CreateAccount NewMockTigerBeetleRepo
                (generateStringID ["a"; "b"; "c"; "d"; "e"; "f"; "g"; "h"]%char) 0
                (CreateAccountRequest.mk "org1" "cust1" 2 1)).1.1 "org1" "cust1"
  = GetBalance NewMockTigerBeetleRepo "org1" "cust1".
Proof.
  apply (CreateAccount_outside_transfers NewMockTigerBeetleRepo
           ["a"; "b"; "c"; "d"; "e"; "f"; "g"; "h"]%char 0
           (CreateAccountRequest.mk "org1" "cust1" 2 1)).
  discriminate.
Defined.

End LedgerBooksFacts.

Module LedgerRoutesFacts.
Import LedgerHandler LedgerFacts LedgerBooksFacts.

Lemma accountField_kept key v r r' :
  accountField key v r = Some r' ->
  (CreateAccountRequest.AccountType r' = CreateAccountRequest.AccountType r
   \/ 0 <= CreateAccountRequest.AccountType r' < 2 ^ 32).
Proof.
  unfold accountField, JSON.assign, JSON.toString, JSON.toUint.
  destruct (JSON.EqualFold key "org_id");
    [destruct v; intros H; inversion H; auto|].
  destruct (JSON.EqualFold key "customer_id");
    [destruct v; intros H; inversion H; auto|].
  destruct (JSON.EqualFold key "account_type").
  { destruct v; intros H; try discriminate; try (inversion H; auto; fail).
    destruct (Z.leb_spec 0 z); destruct (Z.ltb_spec z (2 ^ 32)); simpl in H;
      try discriminate. inversion H. simpl. right. lia. }
  destruct (JSON.EqualFold key "code").
  { destruct v; intros H; try discriminate; try (inversion H; auto; fail).
    destruct ((0 <=? z) && (z <? 2 ^ 16)); [|discriminate]. inversion H. auto. }
  intros H. inversion H. auto.
Qed.

Lemma decode_accountType members : forall r r',
  JSON.decode accountField members r = Some r' ->
  (CreateAccountRequest.AccountType r' = CreateAccountRequest.AccountType r
   \/ 0 <= CreateAccountRequest.AccountType r' < 2 ^ 32).
Proof.
  induction members as [|[key v] rest IH]; intros r r' H; simpl in H.
  - inversion H. auto.
  - destruct (accountField key v r) as [r1|] eqn:E; [|discriminate].
    apply accountField_kept in E. destruct (IH _ _ H) as [H1|H1]; [|auto].
    rewrite H1. exact E.
Qed.

(** X6: POST /accounts either answers 400 with an error and leaves the
    repository unchanged, or answers 201 with an account that has the
    generated id, a non-empty org_id, an account_type between 1 and 2^32 - 1
    and zero posted counters. After a 201, GET /accounts/:id with that id
    (when not empty) answers 200 with the same account; an empty id answers
    400 'account ID is required'. *)
Theorem CreateAccount_route repo accountID now body :
  let '(status, response, repo') := CreateAccount repo accountID now body in
  (status = StatusBadRequest /\ repo' = repo
   /\ exists err, response = ErrorResponse err)
  \/ (status = StatusCreated
      /\ exists account,
           response = AccountResponse (Some account)
           /\ Account.ID account = accountID
           /\ Account.OrgID account <> ""
           /\ 0 < Account.AccountType account < 2 ^ 32
           /\ Account.DebitsPosted account = 0
           /\ Account.CreditsPosted account = 0
           /\ (accountID <> "" ->
               GetAccount repo' accountID = (StatusOK, AccountResponse (Some account)))
           /\ GetAccount repo' "" = (StatusBadRequest,
                                       ErrorResponse "account ID is required")).
Proof.
  unfold CreateAccount, ShouldBindAccountJSON.
  destruct body as [members|]; [|left; eauto].
  destruct (JSON.decode accountField members _) as [req|] eqn:E; [|left; eauto].
  destruct (requiredAccount req) eqn:Er; [|left; eauto].
  right. simpl. split; [reflexivity|]. eexists. split; [reflexivity|]. simpl.
  unfold requiredAccount in Er. apply andb_true_iff in Er. destruct Er as [Ho Ht].
  apply negb_true_iff in Ho, Ht. apply Z.eqb_neq in Ht.
  apply decode_accountType in E. simpl in E.
  repeat split; auto; try lia.
  - intros H. rewrite H in Ho. discriminate.
  - intros Hid. unfold GetAccount.
    destruct (String.eqb_spec accountID ""); [contradiction|].
    unfold Ledger.GetAccount. simpl. rewrite lookup_insert_eq. reflexivity.
Qed.

(** X7: When the body of POST /transfers binds to a request with a non-empty
    customer_id, the handler answers 201, and GET /balance for the org and
    customer of the request then answers 200 with points_balance = (old -
    amount) mod 2^64 for one of the two redemption types and (old + amount)
    mod 2^64 for every other type, and with stamps_balance as it was before. *)
Theorem CreateTransfer_then_GetBalance repo transferID now nowDebit nowCredit body req :
  ShouldBindJSON body = inl req ->
  CreateTransferRequest.CustomerID req <> "" ->
  let orgID := CreateTransferRequest.OrgID req in
  let customerID := CreateTransferRequest.CustomerID req in
  let A := CreateTransferRequest.Amount req in
  let points := Ledger.balance repo (Ledger.generateCustomerPointsAccount orgID customerID) in
  let stamps := Ledger.balance repo (Ledger.generateCustomerStampsAccount orgID customerID) in
  exists response repo',
    CreateTransfer repo transferID now nowDebit nowCredit body
    = (StatusCreated, TransferBody response, repo')
    /\ GetBalance repo' orgID customerID
       = (StatusOK,
          BalanceResponse orgID customerID
            (uint64 (if Ledger.isRedemption (CreateTransferRequest.TransactionType req)
                     then points - A else points + A))
            stamps).
Proof.
  intros Hb Hc orgID customerID A points stamps.
  unfold CreateTransfer. rewrite Hb.
  destruct (Ledger.CreateTransfer repo transferID now nowDebit nowCredit req)
    as [[repo1 resp] e] eqn:EC.
  assert (He : e = None /\ repo1 = Ledger.afterTransfer repo transferID now nowDebit nowCredit req).
  { unfold Ledger.afterTransfer. rewrite EC. split; [|reflexivity].
    unfold Ledger.CreateTransfer in EC.
    destruct (Ledger.transferAccounts req). inversion EC. reflexivity. }
  destruct He as [-> ->].
  eexists. eexists. split; [reflexivity|].
  unfold GetBalance.
  assert (Ho : orgID <> "").
  { unfold ShouldBindJSON in Hb. destruct body as [ms|]; [|discriminate].
    destruct (JSON.decode transferField ms _) as [req'|]; [|discriminate].
    destruct (required req') eqn:Er; [|discriminate]. inversion Hb; subst req'.
    unfold required in Er. rewrite !andb_true_iff in Er. destruct Er as [[Er _] _].
    apply negb_true_iff in Er. intros H. subst orgID. rewrite H in Er. discriminate. }
  destruct (String.eqb_spec orgID ""); [contradiction|].
  destruct (String.eqb_spec customerID ""); [contradiction|].
  change (false || false) with false. cbv iota.
  pose proof (afterTransfer_points_balance repo transferID now nowDebit nowCredit req) as Hp.
  pose proof (afterTransfer_balance_other repo transferID now nowDebit nowCredit req
                (Ledger.generateCustomerStampsAccount orgID customerID)
                (stamps_ne_liability _ _ _) (stamps_ne_points _ _ _ _)) as Hs.
  destruct (GetBalance_lookup (Ledger.afterTransfer repo transferID now nowDebit nowCredit req)
              orgID customerID) as (He & Hp1 & Hs1 & _).
  rewrite Hs in Hs1. fold stamps in Hs1.
  cbv zeta in Hp. fold orgID customerID A points in Hp. rewrite Hp in Hp1.
  destruct (Ledger.GetBalance (Ledger.afterTransfer repo transferID now nowDebit nowCredit req)
              orgID customerID) as [balances err].
  cbn [fst snd] in Hp1, Hs1, He. subst err. cbv beta iota. rewrite Hp1, Hs1. reflexivity.
Qed.

Lemma CreateTransfer_then_GetBalance_witness :
  exists response repo',
    CreateTransfer Ledger.NewMockTigerBeetleRepo "t1" 0 0 0
      (Some [("org_id", JSON.Str "org1"); ("customer_id", JSON.Str "cust1");
             ("transaction_type", JSON.Str "points_accrual"); ("amount", JSON.Int 25)])
    = (StatusCreated, TransferBody response, repo')
    /\ GetBalance repo' "org1" "cust1"
       = (StatusOK, BalanceResponse "org1" "cust1" 25 0).
Proof.
  apply (CreateTransfer_then_GetBalance Ledger.NewMockTigerBeetleRepo "t1" 0 0 0
           (Some [("org_id", JSON.Str "org1"); ("customer_id", JSON.Str "cust1");
                  ("transaction_type", JSON.Str "points_accrual");
                  ("amount", JSON.Int 25)])
           (CreateTransferRequest.mk "org1" "cust1" "points_accrual" 25 0 "")).
  - vm_compute. reflexivity.
  - discriminate.
Defined.

End LedgerRoutesFacts.


(** ** Topics: the router, the mock broker and the analytics consumers *)

Module RoutingFacts.
Import Strings Router RouterFacts.

Lemma HasPrefix_app s t : HasPrefix (s ++ t) s = true.
Proof.
  induction s as [|c s IH]; [destruct t; reflexivity|].
  change (HasPrefix (String c (s ++ t)) (String c s) = true).
  simpl. rewrite Ascii.eqb_refl. exact IH.
Qed.

Lemma Contains_HasPrefix s t : HasPrefix s t = true -> Contains s t = true.
Proof. intros H. destruct s; simpl in *; rewrite H; reflexivity. Qed.

Lemma Contains_app a b c : Contains (a ++ b ++ c) b = true.
Proof.
  induction a as [|x a IH].
  - change ("" ++ b ++ c) with (b ++ c).
    apply Contains_HasPrefix. apply HasPrefix_app.
  - change (Contains (String x (a ++ b ++ c)) b = true).
    simpl. rewrite IH. apply orb_true_r.
Qed.

(** Under a pattern of a star and two literal segments the router accepts
    the topics of three segments that end in the two. *)
Lemma shouldProcessTopic_star a b topic rest :
  noDot a -> noDot b -> a <> "*" -> b <> "*" ->
  shouldProcessTopic topic (("*." ++ a ++ "." ++ b) :: rest) = true
  <-> (exists org, noDot org /\ topic = org ++ "." ++ a ++ "." ++ b)
      \/ shouldProcessTopic topic rest = true.
Proof.
  intros Ha Hb Han Hbn.
  assert (Hsplit : Split ("*." ++ a ++ "." ++ b) "." = ["*"; a; b]).
  { change ("*." ++ a ++ "." ++ b) with ("*" ++ String "." (a ++ String "." b)).
    rewrite (Split_app "*" _ eq_refl). rewrite (Split_app a b Ha).
    rewrite (Split_noDot b Hb). reflexivity. }
  cbn [shouldProcessTopic].
  change (Contains ("*." ++ a ++ "." ++ b) "*") with true. cbv iota.
  rewrite Hsplit. split.
  - intros H.
    destruct (Split topic ".") as [|x [|y [|z [|w l]]]] eqn:E; try (right; exact H).
    change (length ["*"; a; b] =? length [x; y; z])%nat with true in H. cbv iota in H.
    destruct (matchParts ["*"; a; b] [x; y; z]) eqn:Hm; [|right; exact H].
    left. change (matchParts [a; b] [y; z] = true) in Hm.
    apply matchParts_literal in Hm; [|apply String.eqb_neq; exact Han].
    destruct Hm as [-> Hm].
    apply matchParts_literal in Hm; [|apply String.eqb_neq; exact Hbn].
    destruct Hm as [-> _].
    apply three_parts in E. destruct E as [-> Hx]. exists x. split; [exact Hx | reflexivity].
  - intros [(org & Horg & ->)|H].
    + change (org ++ "." ++ a ++ "." ++ b) with (org ++ String "." (a ++ String "." b)).
      rewrite (Split_app org _ Horg), (Split_app a b Ha), (Split_noDot b Hb).
      change (length ["*"; a; b] =? length [org; a; b])%nat with true. cbv iota.
      simpl. rewrite !String.eqb_refl. simpl.
      rewrite !andb_false_r. reflexivity.
    + destruct (length ["*"; a; b] =? length (Split topic "."))%nat;
        [destruct (matchParts _ _); [reflexivity | exact H] | exact H].
Qed.

(** What the stream processor subscribes to. *)
Lemma shouldProcessTopic_topics topic :
  shouldProcessTopic topic topics = true
  <-> exists org, noDot org
        /\ (topic = org ++ ".pos.transaction"
            \/ topic = org ++ ".loyalty.action"
            \/ topic = org ++ ".customer.updated").
Proof.
  unfold topics.
  change "*.pos.transaction" with ("*." ++ "pos" ++ "." ++ "transaction").
  change "*.loyalty.action" with ("*." ++ "loyalty" ++ "." ++ "action").
  change "*.customer.updated" with ("*." ++ "customer" ++ "." ++ "updated").
  rewrite !shouldProcessTopic_star by (reflexivity || discriminate).
  cbn [shouldProcessTopic]. split.
  - intros [(org & H & ->) | [(org & H & ->) | [(org & H & ->) | H] ] ];
      try discriminate; exists org; (split; [exact H|]); auto.
  - intros (org & H & [-> | [-> | ->] ]); [left|right; left|right; right; left];
      exists org; split; auto.
Qed.

Lemma length_append (a b : string) :
  String.length (a ++ b) = (String.length a + String.length b)%nat.
Proof.
  induction a as [|x a IH]; [reflexivity|].
  change (S (String.length (a ++ b)) = S (String.length a + String.length b)).
  rewrite IH. reflexivity.
Qed.

Lemma substring_all s : substring 0 (String.length s) s = s.
Proof. induction s as [|c s IH]; [reflexivity|]. simpl. rewrite IH. reflexivity. Qed.

Lemma substring_suffix a b :
  substring (String.length a) (String.length b) (a ++ b) = b.
Proof.
  induction a as [|x a IH]; [apply substring_all|].
  change (substring (S (String.length a)) (String.length b) (String x (a ++ b)) = b).
  simpl. exact IH.
Qed.

Lemma topicMatches_suffix org suffix :
  MockKafka.topicMatches (String "*" suffix) (org ++ suffix) = true.
Proof.
  unfold MockKafka.topicMatches.
  destruct (String.eqb (String "*" suffix) "*"); [reflexivity|].
  rewrite length_append.
  replace (String.length org + String.length suffix - String.length suffix)%nat
    with (String.length org) by lia.
  rewrite substring_suffix, String.eqb_refl, andb_true_r.
  apply Nat.leb_le. lia.
Qed.

(** X8: Every topic that shouldProcessTopic of the stream processor accepts
    for its subscription list is matched by topicMatches of the mock broker
    under one of the patterns of the list. The converse fails: topicMatches
    matches by suffix and '*' matches every topic, so the broker delivers
    org1.store7.pos.transaction under *.pos.transaction, which
    shouldProcessTopic rejects. *)
Theorem topicMatches_covers_router :
  (forall topic, shouldProcessTopic topic topics = true ->
      exists pattern, In pattern topics /\ MockKafka.topicMatches pattern topic = true)
  /\ (forall topic, MockKafka.topicMatches "*" topic = true)
  /\ MockKafka.topicMatches "*.pos.transaction" "org1.store7.pos.transaction" = true
  /\ shouldProcessTopic "org1.store7.pos.transaction" topics = false.
Proof.
  split; [|split; [reflexivity | split; vm_compute; reflexivity]].
  intros topic H. apply shouldProcessTopic_topics in H.
  destruct H as (org & _ & [-> | [-> | ->] ]).
  - exists "*.pos.transaction". split; [simpl; auto | apply topicMatches_suffix].
  - exists "*.loyalty.action". split; [simpl; auto | apply topicMatches_suffix].
  - exists "*.customer.updated". split; [simpl; auto | apply topicMatches_suffix].
Qed.

(** X9: Every topic that shouldProcessTopic accepts for the patterns
    *.pos.transaction and *.loyalty.action is accepted by
    shouldProcessMessage of the RFM processor and of the tier processor (a
    substring test). The converse fails: both accept
    org1.pos.transaction.v2, which shouldProcessTopic rejects. *)
Theorem shouldProcessMessage_covers_router :
  (forall topic,
      shouldProcessTopic topic ["*.pos.transaction"; "*.loyalty.action"] = true ->
      RFMConsumer.shouldProcessMessage topic = true
      /\ TierConsumer.shouldProcessMessage topic = true)
  /\ RFMConsumer.shouldProcessMessage "org1.pos.transaction.v2" = true
  /\ TierConsumer.shouldProcessMessage "org1.pos.transaction.v2" = true
  /\ shouldProcessTopic "org1.pos.transaction.v2" topics = false.
Proof.
  split; [|repeat split; vm_compute; reflexivity].
  intros topic H.
  change "*.pos.transaction" with ("*." ++ "pos" ++ "." ++ "transaction") in H.
  change "*.loyalty.action" with ("*." ++ "loyalty" ++ "." ++ "action") in H.
  rewrite !shouldProcessTopic_star in H by (reflexivity || discriminate).
  unfold RFMConsumer.shouldProcessMessage, TierConsumer.shouldProcessMessage.
  destruct H as [(org & _ & ->) | [(org & _ & ->) | H] ]; [| |discriminate H].
  - change (org ++ "." ++ "pos" ++ "." ++ "transaction")
      with (org ++ ".pos.transaction" ++ "").
    rewrite Contains_app. split; reflexivity.
  - change (org ++ "." ++ "loyalty" ++ "." ++ "action")
      with (org ++ ".loyalty.action" ++ "").
    rewrite Contains_app, orb_true_r. split; reflexivity.
Qed.

End RoutingFacts.

Module DispatchFacts.
Import Strings Router RouterFacts RoutingFacts Processor.

(** X10: ProcessEvent answers every decoded event whose type is neither
    pos.transaction nor loyalty.action with a failed result 'unknown event
    type: <type>', a nil error and no ledger call. customer.updated is such
    a type, although the stream processor takes its topic:
    shouldProcessTopic accepts <org>.customer.updated for every org without
    a dot. *)
Theorem ProcessEvent_unknown_event_type :
  (forall outOfRange membership ledger now event,
      BaseEvent.EventType event <> EventTypePOSTransaction ->
      BaseEvent.EventType event <> EventTypeLoyaltyAction ->
      ProcessEvent outOfRange membership ledger now (inl event)
      = (Some (failed (BaseEvent.EventID event) now
                      ("unknown event type: " ++ BaseEvent.EventType event)),
         None, []))
  /\ (forall org, noDot org ->
        shouldProcessTopic (org ++ ".customer.updated") topics = true)
  /\ EventTypeCustomerUpdated <> EventTypePOSTransaction
  /\ EventTypeCustomerUpdated <> EventTypeLoyaltyAction.
Proof.
  split; [|split; [|split; discriminate]].
  - intros outOfRange membership ledger now event Hp Hl. unfold ProcessEvent.
    apply String.eqb_neq in Hp, Hl. rewrite Hp, Hl. reflexivity.
  - intros org Horg. apply shouldProcessTopic_topics. exists org. auto.
Qed.

End DispatchFacts.


(** ** Accrual rules: POS transactions and rewards *)

Module AccrualFacts.
Import Processor ProcessorFacts F64Order.

(** X11: For a fixed points_per_dollar p, calculatePoints never falls when
    the amount grows, float64 rounding notwithstanding: if a <= a', the
    products a*p and a'*p neither underflow nor overflow, and the floors of
    their float64 values fit the int (the smaller not below -2^63, the
    larger below 2^63), then calculatePoints(a, p) <= calculatePoints(a',
    p). *)
Theorem calculatePoints_monotone outOfRange amount amount' pointsPerDollar :
  (amount <= amount')%Q ->
  F64.inRange (amount * pointsPerDollar) = true ->
  F64.inRange (amount' * pointsPerDollar) = true ->
  - 2 ^ 63 <= Qfloor (F64.mul amount pointsPerDollar) ->
  Qfloor (F64.mul amount' pointsPerDollar) < 2 ^ 63 ->
  calculatePoints outOfRange amount pointsPerDollar
  <= calculatePoints outOfRange amount' pointsPerDollar.
Proof.
  intros H _ _ Hlo Hhi. unfold calculatePoints, F64.leb.
  destruct (Qle_bool pointsPerDollar 0) eqn:E; [lia|].
  assert (Hp : (0 < pointsPerDollar)%Q).
  { apply Qnot_le_lt. intros Hle. apply Qle_bool_iff in Hle. congruence. }
  assert (Hle : Qfloor (F64.mul amount pointsPerDollar)
                <= Qfloor (F64.mul amount' pointsPerDollar)).
  { apply Qfloor_resp_le. unfold F64.mul. apply round_monotone.
    apply Qmult_le_compat_r; [exact H | apply Qlt_le_weak; exact Hp]. }
  rewrite !toIntOr_Floor by lia. exact Hle.
Qed.

Lemma calculatePoints_monotone_witness :
  calculatePoints F64.amd64 (F64.const 10) (F64.const 2)
  <= calculatePoints F64.amd64 (F64.const 50) (F64.const 2).
Proof.
  apply (calculatePoints_monotone F64.amd64 (F64.const 10) (F64.const 50) (F64.const 2));
    vm_compute; first [discriminate | reflexivity].
Defined.

Lemma calculatePoints_nonpos outOfRange amount pointsPerDollar :
  (amount <= 0)%Q ->
  - 2 ^ 63 <= Qfloor (F64.mul amount pointsPerDollar) ->
  calculatePoints outOfRange amount pointsPerDollar <= 0.
Proof.
  intros H Hlo. unfold calculatePoints, F64.leb.
  destruct (Qle_bool pointsPerDollar 0) eqn:E; [lia|].
  assert (Hp : (0 < pointsPerDollar)%Q).
  { apply Qnot_le_lt. intros Hle. apply Qle_bool_iff in Hle. congruence. }
  assert (Hr : (F64.round (amount * pointsPerDollar) <= 0)%Q).
  { apply round_nonpos.
    apply Qle_trans with (0 * pointsPerDollar)%Q;
      [|rewrite Qmult_0_l; apply Qle_refl].
    apply Qmult_le_compat_r; [exact H | apply Qlt_le_weak; exact Hp]. }
  apply Qfloor_resp_le in Hr. change (Qfloor 0) with 0 in Hr.
  unfold F64.mul in *. rewrite toIntOr_Floor by lia. exact Hr.
Qed.

(** X12: A POS transaction of an amount <= 0 (a refund) earns no points:
    when the payload decodes and, for the organization found, the float64
    product of the amount and points_per_dollar is in range with a floor not
    below -2^63, points_earned of the result is 0 and no points transfer is
    posted to the ledger. *)
Theorem processPOSTransaction_refund outOfRange membership ledger now event transaction :
  decodePOSTransaction (BaseEvent.Payload event) = Some transaction ->
  (Amount transaction <= 0)%Q ->
  (forall org,
     GetOrganization membership (BaseEvent.OrgID event) = inl org ->
     F64.inRange (Amount transaction * PointsPerDollar (Settings org)) = true
     /\ - 2 ^ 63
        <= Qfloor (F64.mul (Amount transaction) (PointsPerDollar (Settings org)))) ->
  let result := (processPOSTransaction outOfRange membership ledger now event).1 in
  let calls := (processPOSTransaction outOfRange membership ledger now event).2 in
  ProcessingResult.PointsEarned result = 0
  /\ Forall (fun call => isPointsCall call = false) calls.
Proof.
  intros Hd Ha Hfits. unfold processPOSTransaction. rewrite Hd.
  destruct (GetCustomer membership _); [split; [reflexivity | constructor]|].
  destruct (GetOrganization membership _) as [org|err]; [|split; [reflexivity | constructor]].
  unfold earned.
  destruct (Hfits org eq_refl) as [_ Hlo].
  pose proof (calculatePoints_nonpos outOfRange (Amount transaction)
                (PointsPerDollar (Settings org)) Ha Hlo) as Hp.
  destruct (Z.ltb_spec 0 (calculatePoints outOfRange (Amount transaction)
                            (PointsPerDollar (Settings org)))) as [H|_]; [lia|].
  destruct (0 <? StampsPerVisit (Settings org)); [destruct (ledger _)|];
    simpl; split; try reflexivity; repeat constructor.
Qed.

Lemma processPOSTransaction_refund_witness :
  ProcessingResult.PointsEarned
    (processPOSTransaction F64.amd64 (membershipUp 2 1) ledgerUp 0 (posEvent (-5))).1 = 0.
Proof.
  apply (processPOSTransaction_refund F64.amd64 (membershipUp 2 1) ledgerUp 0
           (posEvent (-5)) (mkPOSTransaction "txn_1" (F64.const (-5)) "" "" "")).
  - reflexivity.
  - vm_compute. discriminate.
  - intros org H. injection H as <-. split; vm_compute; [reflexivity | discriminate].
Defined.

(** X13: If processPOSTransaction returns a successful result, then the
    payload decoded, the organization was found, the ledger calls made are
    exactly the points transfer (when the points are positive) followed by
    the stamps transfer (when the stamps are positive), each with the
    reference pos_transaction_<transaction_id>, the ledger accepted every
    one of them, and points_earned and stamps_earned are the computed
    quantities where positive and 0 otherwise. *)
Theorem processPOSTransaction_success outOfRange membership ledger now event :
  let result := (processPOSTransaction outOfRange membership ledger now event).1 in
  let calls := (processPOSTransaction outOfRange membership ledger now event).2 in
  ProcessingResult.Success result = true ->
  exists transaction org,
    decodePOSTransaction (BaseEvent.Payload event) = Some transaction
    /\ GetOrganization membership (BaseEvent.OrgID event) = inl org
    /\ let points := (earned outOfRange (Amount transaction) (Settings org)).1 in
       let stamps := (earned outOfRange (Amount transaction) (Settings org)).2 in
       let reference := "pos_transaction_" ++ TransactionID transaction in
       calls
       = ((if 0 <? points
           then [CreatePointsTransfer (BaseEvent.OrgID event)
                   (BaseEvent.CustomerID event) points reference]
           else [])
          ++ (if 0 <? stamps
              then [CreateStampsTransfer (BaseEvent.OrgID event)
                      (BaseEvent.CustomerID event) stamps reference]
              else []))%list
       /\ Forall (fun call => ledger call = None) calls
       /\ ProcessingResult.PointsEarned result = Z.max 0 points
       /\ ProcessingResult.StampsEarned result = Z.max 0 stamps.
Proof.
  cbv zeta. unfold processPOSTransaction.
  destruct (decodePOSTransaction _) as [transaction|]; [|discriminate].
  destruct (GetCustomer membership _); [discriminate|].
  destruct (GetOrganization membership _) as [org|err]; [|discriminate].
  intros H. exists transaction, org. split; [reflexivity|]. split; [reflexivity|].
  revert H. unfold earned. cbn [fst snd].
  set (points := calculatePoints _ _ _). set (stamps := StampsPerVisit _).
  destruct (Z.ltb_spec 0 points) as [Hp|Hp];
    destruct (Z.ltb_spec 0 stamps) as [Hs|Hs].
  - destruct (ledger (CreatePointsTransfer _ _ _ _)) eqn:E1; [discriminate|].
    destruct (ledger (CreateStampsTransfer _ _ _ _)) eqn:E2; [discriminate|].
    intros _. cbn. repeat split; auto; lia.
  - destruct (ledger (CreatePointsTransfer _ _ _ _)) eqn:E1; [discriminate|].
    intros _. cbn. repeat split; auto; lia.
  - destruct (ledger (CreateStampsTransfer _ _ _ _)) eqn:E2; [discriminate|].
    intros _. cbn. repeat split; auto; lia.
  - intros _. cbn. repeat split; auto; lia.
Qed.

Lemma processPOSTransaction_success_witness :
  exists transaction org,
    decodePOSTransaction (BaseEvent.Payload (posEvent 50)) = Some transaction
    /\ GetOrganization (membershipUp 2 1) "org1" = inl org
    /\ (processPOSTransaction F64.amd64 (membershipUp 2 1) ledgerUp 0 (posEvent 50)).2
       = [CreatePointsTransfer "org1" "cust1" 100 "pos_transaction_txn_1";
          CreateStampsTransfer "org1" "cust1" 1 "pos_transaction_txn_1"].
Proof.
  destruct (processPOSTransaction_success F64.amd64 (membershipUp 2 1) ledgerUp 0 (posEvent 50)
              eq_refl) as (transaction & org & Hd & Ho & Hc & _).
  exists transaction, org. split; [exact Hd|]. split; [exact Ho|].
  vm_compute. reflexivity.
Defined.

(** X14: When the payload decodes, customer and organization are found, both
    quantities are positive, and the ledger accepts the points transfer and
    refuses the stamps transfer, processPOSTransaction returns a failed
    result with the error 'failed to create stamps transfer: <err>' that
    still reports the points as earned (stamps 0, no rewards, the one action
    'awarded <n> points'); the ledger calls are the points transfer and then
    the stamps transfer, and nothing reverses the points transfer. *)
Theorem processPOSTransaction_no_rollback outOfRange membership ledger now event
    transaction org err :
  decodePOSTransaction (BaseEvent.Payload event) = Some transaction ->
  GetCustomer membership (BaseEvent.CustomerID event) = None ->
  GetOrganization membership (BaseEvent.OrgID event) = inl org ->
  let points := (earned outOfRange (Amount transaction) (Settings org)).1 in
  let stamps := (earned outOfRange (Amount transaction) (Settings org)).2 in
  let reference := "pos_transaction_" ++ TransactionID transaction in
  let pointsCall :=
    CreatePointsTransfer (BaseEvent.OrgID event) (BaseEvent.CustomerID event)
                         points reference in
  let stampsCall :=
    CreateStampsTransfer (BaseEvent.OrgID event) (BaseEvent.CustomerID event)
                         stamps reference in
  0 < points -> 0 < stamps ->
  ledger pointsCall = None -> ledger stampsCall = Some err ->
  processPOSTransaction outOfRange membership ledger now event
  = (ProcessingResult.mk (BaseEvent.EventID event) now false
       ("failed to create stamps transfer: " ++ err) points 0 []
       ["awarded " ++ itoa points ++ " points"],
     [pointsCall; stampsCall]).
Proof.
  intros Hd Hc Ho points stamps reference pointsCall stampsCall Hp Hs Hlp Hls.
  unfold processPOSTransaction. rewrite Hd, Hc, Ho.
  unfold earned in *. cbn [fst snd] in *.
  fold points stamps reference. fold pointsCall stampsCall.
  apply Z.ltb_lt in Hp, Hs. rewrite Hp, Hs, Hlp, Hls. reflexivity.
Qed.

Lemma processPOSTransaction_no_rollback_witness :
  processPOSTransaction F64.amd64 (membershipUp 2 1) ledgerStampsDown 0 (posEvent 50)
  = (ProcessingResult.mk "evt_456" 0 false
       "failed to create stamps transfer: ledger service returned status 500"
       100 0 [] ["awarded 100 points"],
     [CreatePointsTransfer "org1" "cust1" 100 "pos_transaction_txn_1";
      CreateStampsTransfer "org1" "cust1" 1 "pos_transaction_txn_1"]).
Proof.
  apply (processPOSTransaction_no_rollback F64.amd64 (membershipUp 2 1) ledgerStampsDown 0
           (posEvent 50) (mkPOSTransaction "txn_1" (F64.const 50) "" "" "")
           (mkOrganization "org1" "Org" (mkOrgSettings (F64.const 2) 1 [] 10))
           "ledger service returned status 500");
    try reflexivity; vm_compute; reflexivity.
Defined.

Lemma sublist_map {A B : Type} (f : A -> B) (l1 l2 : list A) :
  sublist l1 l2 -> sublist (List.map f l1) (List.map f l2).
Proof. induction 1; simpl; constructor; assumption. Qed.

Lemma filter_length {A : Type} (f : A -> bool) (l : list A) :
  (length (List.filter f l) <= length l)%nat.
Proof. induction l as [|x l IH]; simpl; [lia|]. destruct (f x); simpl; lia. Qed.

(** X15: checkRewardThresholds is monotone: with at least as many points and
    at least as many stamps (at the same instant), every reward triggered
    before is triggered again, in the same order (the first list is a
    sublist of the second). It returns at most one reward per threshold, and
    none when neither the points nor the stamps are positive. *)
Theorem checkRewardThresholds_monotone thresholds points stamps points' stamps' now :
  points <= points' -> stamps <= stamps' ->
  sublist (checkRewardThresholds thresholds points stamps now)
          (checkRewardThresholds thresholds points' stamps' now)
  /\ (length (checkRewardThresholds thresholds points' stamps' now)
      <= length thresholds)%nat
  /\ (points' <= 0 -> stamps' <= 0 ->
      checkRewardThresholds thresholds points' stamps' now = []).
Proof.
  intros Hp Hs. unfold checkRewardThresholds. split; [|split].
  - apply sublist_map.
    induction thresholds as [|t l IH]; [constructor|]. simpl.
    destruct (Z.ltb_spec 0 (ThresholdPoints t)); destruct (Z.ltb_spec 0 (ThresholdStamps t));
      destruct (Z.leb_spec (ThresholdPoints t) points);
      destruct (Z.leb_spec (ThresholdPoints t) points');
      destruct (Z.leb_spec (ThresholdStamps t) stamps);
      destruct (Z.leb_spec (ThresholdStamps t) stamps');
      simpl; try lia; try (apply sublist_skip; exact IH);
      try (apply sublist_cons; exact IH); exact IH.
  - rewrite length_map. apply filter_length.
  - intros Hp0 Hs0.
    induction thresholds as [|t l IH]; [reflexivity|]. simpl.
    destruct (Z.ltb_spec 0 (ThresholdPoints t)); destruct (Z.ltb_spec 0 (ThresholdStamps t));
      destruct (Z.leb_spec (ThresholdPoints t) points');
      destruct (Z.leb_spec (ThresholdStamps t) stamps');
      simpl; try lia; exact IH.
Qed.

Lemma checkRewardThresholds_monotone_witness :
  sublist (checkRewardThresholds testThresholds 150 2 0)
          (checkRewardThresholds testThresholds 250 12 0).
Proof.
  apply (checkRewardThresholds_monotone testThresholds 150 2 250 12 0); lia.
Defined.

End AccrualFacts.


(** ** RFM: scores and segments *)

Module ScoreFacts.
Import RFM F64Order.

Lemma recencyFrom_range quintiles : forall i daysSinceLast,
  0 <= i -> i + Z.of_nat (length quintiles) <= 5 ->
  1 <= recencyFrom i daysSinceLast quintiles <= Z.max 1 (5 - i).
Proof.
  induction quintiles as [|t l IH]; intros i d Hi Hl; simpl in *; [lia|].
  destruct (d <=? t); [lia|].
  specialize (IH (i + 1) d ltac:(lia) ltac:(lia)). lia.
Qed.

Lemma recencyFrom_antitone quintiles : forall i d d',
  0 <= i -> i + Z.of_nat (length quintiles) <= 5 -> d <= d' ->
  recencyFrom i d' quintiles <= recencyFrom i d quintiles.
Proof.
  induction quintiles as [|t l IH]; intros i d d' Hi Hl Hd; simpl in *; [lia|].
  destruct (Z.leb_spec d t); destruct (Z.leb_spec d' t); try lia.
  - pose proof (recencyFrom_range l (i + 1) d' ltac:(lia) ltac:(lia)). lia.
  - apply IH; lia.
Qed.

Section ScoreFrom.
Context {A : Type}.

Lemma scoreFrom_range (reached : A -> bool) reversed : forall i,
  Z.of_nat (length reversed) = i + 1 ->
  1 <= scoreFrom reached reversed i <= Z.max 1 (i + 1).
Proof.
  induction reversed as [|t l IH]; intros i Hl; simpl in *; [lia|].
  destruct (reached t); [lia|].
  specialize (IH (i - 1) ltac:(lia)). lia.
Qed.

Lemma scoreFrom_monotone (reached reached' : A -> bool) reversed : forall i,
  (forall t, reached t = true -> reached' t = true) ->
  Z.of_nat (length reversed) = i + 1 ->
  scoreFrom reached reversed i <= scoreFrom reached' reversed i.
Proof.
  induction reversed as [|t l IH]; intros i Himp Hl; simpl in *; [lia|].
  destruct (reached t) eqn:E.
  - rewrite (Himp t E). lia.
  - destruct (reached' t).
    + pose proof (scoreFrom_range reached l (i - 1) ltac:(lia)). lia.
    + apply IH; [assumption | lia].
Qed.
End ScoreFrom.

Lemma rev_length_pred {A : Type} (l : list A) :
  Z.of_nat (length (rev l)) = Z.of_nat (length l) - 1 + 1.
Proof. rewrite length_rev. lia. Qed.

(** X16: For fixed quintiles the three RFM scores are monotone in the
    figures of the customer: fewer days since the last transaction never
    give a lower recency score (for at most five recency thresholds), more
    transactions never give a lower frequency score, and a larger total
    spent never gives a lower monetary score. *)
Theorem scores_monotone daysSinceLast daysSinceLast' totalTransactions
    totalTransactions' totalSpent totalSpent' (quintiles : RFMQuintiles.t) :
  (length (RFMQuintiles.RecencyQuintiles quintiles) <= 5)%nat ->
  daysSinceLast <= daysSinceLast' ->
  totalTransactions <= totalTransactions' ->
  (totalSpent <= totalSpent')%Q ->
  getRecencyScore daysSinceLast' (RFMQuintiles.RecencyQuintiles quintiles)
  <= getRecencyScore daysSinceLast (RFMQuintiles.RecencyQuintiles quintiles)
  /\ getFrequencyScore totalTransactions (RFMQuintiles.FrequencyQuintiles quintiles)
     <= getFrequencyScore totalTransactions' (RFMQuintiles.FrequencyQuintiles quintiles)
  /\ getMonetaryScore totalSpent (RFMQuintiles.MonetaryQuintiles quintiles)
     <= getMonetaryScore totalSpent' (RFMQuintiles.MonetaryQuintiles quintiles).
Proof.
  intros Hl Hd Ht Hs. split; [|split].
  - apply recencyFrom_antitone; lia.
  - apply scoreFrom_monotone; [|apply rev_length_pred].
    intros t H. apply Z.leb_le in H. apply Z.leb_le. lia.
  - apply scoreFrom_monotone; [|apply rev_length_pred].
    intros t H. unfold F64.leb in *. apply Qle_bool_iff in H. apply Qle_bool_iff.
    eapply Qle_trans; eauto.
Qed.

Lemma scores_monotone_witness :
  getRecencyScore 40 [7; 30; 90; 180; 365] <= getRecencyScore 3 [7; 30; 90; 180; 365].
Proof.
  apply (scores_monotone 3 40 1 1 0%Q 0%Q (getDefaultQuintiles "org1" 0));
    simpl; try lia. apply Qle_refl.
Defined.

Lemma RFMSegments_names key segment :
  RFMSegments !! key = Some segment -> In segment segmentNames.
Proof.
  unfold RFMSegments. intros H. apply elem_of_list_to_map_2 in H.
  match type of H with
  | _ ∈ ?l => assert (Hall : Forall (fun kv : string * string => In kv.2 segmentNames) l)
  end.
  { repeat (constructor; [solve [simpl; repeat (first [left; reflexivity | right])]|]).
    constructor. }
  rewrite Forall_forall in Hall. apply (Hall _ H).
Qed.

Lemma getRFMSegment_in_names r f m : In (getRFMSegment r f m) segmentNames.
Proof.
  unfold getRFMSegment.
  destruct (RFMSegments !! _) as [segment|] eqn:E.
  - eapply RFMSegments_names; eauto.
  - repeat (match goal with
            | |- context [if ?b then _ else _] => destruct b
            end; cbv iota);
      solve [simpl; repeat (first [left; reflexivity | right])].
Qed.

(** X17: getRFMSegment returns one of the nine segment names for every
    triple of integers. For a key that the table RFMSegments does not hold,
    the rules never answer 'New Customers' or 'About to Sleep': each of the
    two rules is shadowed by the rule before it. *)
Theorem getRFMSegment_names r f m :
  let key := Processor.itoa r ++ Processor.itoa f ++ Processor.itoa m in
  In (getRFMSegment r f m) segmentNames
  /\ (RFMSegments !! key = None ->
      getRFMSegment r f m <> "New Customers"
      /\ getRFMSegment r f m <> "About to Sleep").
Proof.
  intros key. split; [apply getRFMSegment_in_names|].
  unfold getRFMSegment. fold key.
  destruct (RFMSegments !! key) as [segment|] eqn:E.
  - discriminate.
  - intros _.
    destruct (Z.leb_spec 4 r); destruct (Z.leb_spec 3 r); destruct (Z.leb_spec r 2);
      destruct (Z.leb_spec r 3); try lia;
      destruct (Z.leb_spec 4 f); destruct (Z.leb_spec 3 f); destruct (Z.leb_spec f 2);
      try lia;
      destruct (Z.leb_spec 4 m); destruct (Z.leb_spec 3 m); destruct (Z.leb_spec m 2);
      try lia; simpl; split; discriminate.
Qed.

Ltac score_cases r :=
  let H := fresh in
  assert (H : r = 1 \/ r = 2 \/ r = 3 \/ r = 4 \/ r = 5) by lia;
  destruct H as [-> | [-> | [-> | [-> | ->] ] ] ].

Ltac segment_value :=
  match goal with
  | |- context [getRFMSegment ?r ?f ?m] =>
      let v := eval vm_compute in (getRFMSegment r f m) in
      change (getRFMSegment r f m) with v
  end.

(** X18: For scores between 1 and 5: the segment is 'Champions' exactly when
    the three scores are all at least 4 and are not 4, 4, 4. A customer with
    recency at least 4 and frequency at most 2 is 'Lost' when the monetary
    score is at least 3 (no entry of the table and no rule covers a recent,
    rare, valuable customer) and a 'Potential Loyalist' when it is at most
    2. *)
Theorem getRFMSegment_champions r f m :
  1 <= r <= 5 -> 1 <= f <= 5 -> 1 <= m <= 5 ->
  (getRFMSegment r f m = "Champions"
   <-> 4 <= r /\ 4 <= f /\ 4 <= m /\ ~ (r = 4 /\ f = 4 /\ m = 4))
  /\ (4 <= r -> f <= 2 -> 3 <= m -> getRFMSegment r f m = "Lost")
  /\ (4 <= r -> f <= 2 -> m <= 2 -> getRFMSegment r f m = "Potential Loyalists").
Proof.
  intros Hr Hf Hm.
  score_cases r; score_cases f; score_cases m; segment_value;
    (split; [split; [intros H; first [discriminate H | lia]
                    | intros H; first [reflexivity | exfalso; lia]]
            | split; intros; first [reflexivity | exfalso; lia]]).
Qed.

Lemma getRFMSegment_champions_witness : getRFMSegment 5 1 5 = "Lost".
Proof.
  destruct (getRFMSegment_champions 5 1 5 ltac:(lia) ltac:(lia) ltac:(lia))
    as (_ & H & _).
  apply H; lia.
Defined.

(** X19: For quintiles of at most five thresholds per dimension,
    calculateRFMScore gives a recency, a frequency and a monetary score
    between 1 and 5 and one of the nine segment names; the average order
    value is a finite number exactly when total_transactions is not 0
    (otherwise the division is by zero). *)
Theorem calculateRFMScore_scores activity quintiles now calculatedAt updatedAt :
  (length (RFMQuintiles.RecencyQuintiles quintiles) <= 5)%nat ->
  (length (RFMQuintiles.FrequencyQuintiles quintiles) <= 5)%nat ->
  (length (RFMQuintiles.MonetaryQuintiles quintiles) <= 5)%nat ->
  let score := calculateRFMScore activity quintiles now calculatedAt updatedAt in
  1 <= RFMScore.RecencyScore score <= 5
  /\ 1 <= RFMScore.FrequencyScore score <= 5
  /\ 1 <= RFMScore.MonetaryScore score <= 5
  /\ In (RFMScore.RFMSegment score) segmentNames
  /\ (RFMScore.AvgOrderValue score = None
      <-> CustomerActivity.TotalTransactions activity = 0).
Proof.
  intros Hr Hf Hm. simpl.
  pose proof (recencyFrom_range (RFMQuintiles.RecencyQuintiles quintiles) 0
                (daysSince now (CustomerActivity.LastTransaction activity))
                ltac:(lia) ltac:(lia)) as H1.
  pose proof (scoreFrom_range
                (fun threshold => threshold <=? CustomerActivity.TotalTransactions activity)
                (rev (RFMQuintiles.FrequencyQuintiles quintiles)) _
                (rev_length_pred _)) as H2.
  pose proof (scoreFrom_range
                (fun threshold => F64.leb threshold (CustomerActivity.TotalSpent activity))
                (rev (RFMQuintiles.MonetaryQuintiles quintiles)) _
                (rev_length_pred _)) as H3.
  unfold getRecencyScore, getFrequencyScore, getMonetaryScore.
  split; [lia|]. split; [lia|]. split; [lia|]. split.
  - apply getRFMSegment_in_names.
  - destruct (Z.eqb_spec (CustomerActivity.TotalTransactions activity) 0);
      split; intros; congruence.
Qed.

Lemma calculateRFMScore_scores_witness :
  1 <= RFMScore.RecencyScore
         (calculateRFMScore
            (CustomerActivity.mk "org1" "loc1" "cust1" 900 (F64.const 80) 900 900 1
                                 (F64.const 80))
            (getDefaultQuintiles "org1" 1000) 1000 1000 1000) <= 5.
Proof.
  destruct (calculateRFMScore_scores
              (CustomerActivity.mk "org1" "loc1" "cust1" 900 (F64.const 80) 900 900 1
                                   (F64.const 80))
              (getDefaultQuintiles "org1" 1000) 1000 1000 1000) as [H _].
  - simpl. lia.
  - simpl. lia.
  - simpl. lia.
  - exact H.
Defined.

Lemma default_thresholds :
  (F64.const 10 == 10 /\ F64.const 25 == 25 /\ F64.const 50 == 50
   /\ F64.const 100 == 100 /\ F64.const 250 == 250)%Q.
Proof. repeat split; vm_compute; reflexivity. Qed.

Lemma getMonetaryScore_default spent orgID now :
  let m := getMonetaryScore spent
             (RFMQuintiles.MonetaryQuintiles (getDefaultQuintiles orgID now)) in
  ((50 <= spent)%Q -> m = 3 \/ m = 4 \/ m = 5)
  /\ ((spent < 50)%Q -> m = 1 \/ m = 2).
Proof.
  destruct default_thresholds as (E10 & E25 & E50 & E100 & E250).
  unfold getDefaultQuintiles. cbn [RFMQuintiles.MonetaryQuintiles].
  unfold getMonetaryScore. cbn [rev app length scoreFrom]. unfold F64.leb.
  split.
  - intros Hs.
    assert (H50 : Qle_bool (F64.const 50) spent = true).
    { apply Qle_bool_iff. rewrite E50. exact Hs. }
    destruct (Qle_bool (F64.const 250) spent); [right; right; reflexivity|].
    destruct (Qle_bool (F64.const 100) spent); [right; left; reflexivity|].
    rewrite H50. left. reflexivity.
  - intros Hs.
    assert (Hno : forall c, (50 <= c)%Q -> Qle_bool c spent = false).
    { intros c Hc. destruct (Qle_bool c spent) eqn:E; [|reflexivity].
      apply Qle_bool_iff in E. exfalso. apply (Qlt_irrefl spent).
      eapply Qlt_le_trans; [exact Hs|]. eapply Qle_trans; eauto. }
    rewrite (Hno (F64.const 250)) by (rewrite E250; discriminate).
    rewrite (Hno (F64.const 100)) by (rewrite E100; discriminate).
    rewrite (Hno (F64.const 50)) by (rewrite E50; discriminate).
    destruct (Qle_bool (F64.const 25) spent); [right; reflexivity|].
    destruct (Qle_bool (F64.const 10) spent); left; reflexivity.
Qed.

(** X20: Under the default quintiles a customer with one transaction, made
    at most 7 days ago, scores recency 5 and frequency 1; when the total
    spent is at least 50 the monetary score is 3 or more and the segment is
    'Lost', when it is below 50 the monetary score is at most 2 and the
    segment is 'Potential Loyalists'. *)
Theorem calculateRFMScore_first_purchase activity orgID quintilesNow now calculatedAt
    updatedAt :
  CustomerActivity.TotalTransactions activity = 1 ->
  daysSince now (CustomerActivity.LastTransaction activity) <= 7 ->
  let score :=
    calculateRFMScore activity (getDefaultQuintiles orgID quintilesNow) now
                      calculatedAt updatedAt in
  RFMScore.RecencyScore score = 5
  /\ RFMScore.FrequencyScore score = 1
  /\ ((50 <= CustomerActivity.TotalSpent activity)%Q ->
      3 <= RFMScore.MonetaryScore score /\ RFMScore.RFMSegment score = "Lost")
  /\ ((CustomerActivity.TotalSpent activity < 50)%Q ->
      RFMScore.MonetaryScore score <= 2
      /\ RFMScore.RFMSegment score = "Potential Loyalists").
Proof.
  intros Ht Hd score. subst score. unfold calculateRFMScore.
  cbn [RFMScore.RecencyScore RFMScore.FrequencyScore RFMScore.MonetaryScore
       RFMScore.RFMSegment].
  destruct (getMonetaryScore_default (CustomerActivity.TotalSpent activity)
              orgID quintilesNow) as [Hhi Hlo].
  cbv zeta in Hhi, Hlo.
  set (m := getMonetaryScore _ _) in *.
  rewrite Ht.
  assert (Hr : getRecencyScore (daysSince now (CustomerActivity.LastTransaction activity))
                 (RFMQuintiles.RecencyQuintiles (getDefaultQuintiles orgID quintilesNow))
               = 5).
  { unfold getDefaultQuintiles. cbn [RFMQuintiles.RecencyQuintiles].
    unfold getRecencyScore. cbn [recencyFrom].
    apply Z.leb_le in Hd. rewrite Hd. reflexivity. }
  assert (Hf : getFrequencyScore 1
                 (RFMQuintiles.FrequencyQuintiles (getDefaultQuintiles orgID quintilesNow))
               = 1).
  { vm_compute. reflexivity. }
  rewrite Hr, Hf.
  split; [reflexivity|]. split; [reflexivity|]. split.
  - intros Hs. destruct (Hhi Hs) as [-> | [-> | ->] ];
      (split; [lia | vm_compute; reflexivity]).
  - intros Hs. destruct (Hlo Hs) as [-> | ->];
      (split; [lia | vm_compute; reflexivity]).
Qed.

Lemma calculateRFMScore_first_purchase_witness :
  RFMScore.RFMSegment
    (calculateRFMScore
       (CustomerActivity.mk "org1" "loc1" "cust1" 900 (F64.const 80) 900 900 1
                            (F64.const 80))
       (getDefaultQuintiles "org1" 1000) 1000 1000 1000)
  = "Lost".
Proof.
  destruct (calculateRFMScore_first_purchase
              (CustomerActivity.mk "org1" "loc1" "cust1" 900 (F64.const 80) 900 900 1
                                   (F64.const 80))
              "org1" 1000 1000 1000 1000 eq_refl) as (_ & _ & H & _).
  - vm_compute. discriminate.
  - apply H. vm_compute. discriminate.
Defined.

End ScoreFacts.


(** ** RFM: the quintile cache and the stored scores *)

Module RFMStorageFacts.
Import RFM RFMFacts RFMStorage.

Lemma CalculateQuintilesForOrg_done activities orgID now calculatedAt :
  exists q,
    CalculateQuintilesForOrg (inl activities) orgID now calculatedAt = Done (q, None)
    /\ RFMQuintiles.OrgID q = orgID.
Proof.
  unfold CalculateQuintilesForOrg.
  destruct (Nat.ltb_spec (length activities) 5) as [Hlt|Hge].
  - eexists. split; reflexivity.
  - destruct (calculateIntQuintiles_sorted
                (map (fun a => daysSince now (CustomerActivity.LastTransaction a)) activities))
      as (r & Hr & _); [rewrite length_map; lia|].
    destruct (calculateIntQuintiles_sorted
                (map CustomerActivity.TotalTransactions activities))
      as (f & Hf & _); [rewrite length_map; lia|].
    destruct (calculateFloatQuintiles_sorted
                (map CustomerActivity.TotalSpent activities))
      as (m & Hm & _); [rewrite length_map; lia|].
    rewrite Hr, Hf, Hm. eexists. split; reflexivity.
Qed.

Lemma find_upsertQuintiles q docs :
  List.find (fun d => String.eqb (RFMQuintiles.OrgID d) (RFMQuintiles.OrgID q))
            (upsertQuintiles q docs) = Some q.
Proof.
  induction docs as [|d rest IH]; simpl.
  - rewrite String.eqb_refl. reflexivity.
  - destruct (String.eqb (RFMQuintiles.OrgID d) (RFMQuintiles.OrgID q)) eqn:E; simpl.
    + rewrite String.eqb_refl. reflexivity.
    + rewrite E. exact IH.
Qed.

Lemma GetQuintiles_found s orgID q :
  GetQuintiles s orgID None = (Some q, None) -> RFMQuintiles.OrgID q = orgID.
Proof.
  unfold GetQuintiles.
  destruct (List.find _ _) as [q'|] eqn:E; [|discriminate].
  intros H. inversion H; subst. apply find_some in E. destruct E as [_ E].
  apply String.eqb_eq in E. exact E.
Qed.

Lemma GetQuintiles_saved s q :
  GetQuintiles (SaveQuintiles s q None).1 (RFMQuintiles.OrgID q) None = (Some q, None).
Proof. unfold GetQuintiles, SaveQuintiles. simpl. rewrite find_upsertQuintiles. reflexivity. Qed.

Lemma GetQuintiles_cases s orgID failure :
  (exists q, GetQuintiles s orgID failure = (Some q, None) /\ failure = None)
  \/ (exists err, GetQuintiles s orgID failure = (None, Some err)).
Proof.
  unfold GetQuintiles. destruct failure; [right; eauto|].
  destruct (List.find _ _); [left | right]; eauto.
Qed.

Lemma GetOrCalculateQuintiles_hit s q failures clock orgID :
  GetQuintiles s orgID None = (Some q, None) ->
  getQuintilesFailure failures = None ->
  GoTime.Sub (sinceNow clock) (RFMQuintiles.CalculatedAt q) <= 24 * GoTime.Hour ->
  GetOrCalculateQuintiles s failures clock orgID = Done (s, q, None).
Proof.
  intros Hg Hf Hfresh. unfold GetOrCalculateQuintiles.
  rewrite Hf, Hg. apply Z.ltb_ge in Hfresh. rewrite Hfresh. reflexivity.
Qed.

Lemma GetOrCalculateQuintiles_done s clock orgID :
  exists s1 q,
    GetOrCalculateQuintiles s noFailures clock orgID = Done (s1, q, None)
    /\ RFMQuintiles.OrgID q = orgID
    /\ GetQuintiles s1 orgID None = (Some q, None)
    /\ customer_activities s1 = customer_activities s
    /\ rfm_scores s1 = rfm_scores s
    /\ (forall stored,
          GetQuintiles s orgID None = (Some stored, None) ->
          GoTime.Sub (sinceNow clock) (RFMQuintiles.CalculatedAt stored)
          <= 24 * GoTime.Hour ->
          s1 = s /\ q = stored).
Proof.
  destruct (CalculateQuintilesForOrg_done
              (map ActivityStorage.decode
                 (List.filter (fun d => String.eqb (ActivityDoc.org_id d) orgID)
                              (customer_activities s)))
              orgID (quintilesNow clock) (quintilesCalculatedAt clock))
    as (qn & Hcalc & Horg).
  assert (Hnew : GetQuintiles (SaveQuintiles s qn None).1 orgID None = (Some qn, None)).
  { rewrite <- Horg. apply GetQuintiles_saved. }
  unfold GetOrCalculateQuintiles at 1.
  cbn [noFailures getQuintilesFailure findActivitiesFailure saveQuintilesFailure].
  unfold ActivityStorage.GetCustomerActivities. rewrite Hcalc.
  destruct (GetQuintiles_cases s orgID None) as [(q0 & Hg & _)|(err & Hg)]; rewrite Hg.
  - destruct (Z.ltb_spec (24 * GoTime.Hour)
                (GoTime.Sub (sinceNow clock) (RFMQuintiles.CalculatedAt q0))) as [Hstale|Hfresh].
    + exists (SaveQuintiles s qn None).1, qn.
      split; [reflexivity|]. split; [exact Horg|]. split; [exact Hnew|].
      split; [reflexivity|]. split; [reflexivity|].
      intros stored Hst Hf. inversion Hst; subst. lia.
    + exists s, q0. split; [reflexivity|].
      split; [eapply GetQuintiles_found; eauto|]. split; [exact Hg|].
      split; [reflexivity|]. split; [reflexivity|].
      intros stored Hst _. inversion Hst. auto.
  - exists (SaveQuintiles s qn None).1, qn.
    split; [reflexivity|]. split; [exact Horg|]. split; [exact Hnew|].
    split; [reflexivity|]. split; [reflexivity|].
    intros stored Hst. discriminate.
Qed.

(** X21: With a database that does not fail, GetOrCalculateQuintiles returns
    quintiles of the org, without error or panic. Stored quintiles at most
    24 hours old are returned as they are and nothing is written. After the
    call the org has stored quintiles with the thresholds returned, and
    every later call made within 24 hours of their calculated_at (its read
    not failing) returns the stored quintiles and leaves the storage
    unchanged. *)
Theorem GetOrCalculateQuintiles_cache s clock orgID :
  exists s1 q stored,
    GetOrCalculateQuintiles s noFailures clock orgID = Done (s1, q, None)
    /\ RFMQuintiles.OrgID q = orgID
    /\ (forall old,
          GetQuintiles s orgID None = (Some old, None) ->
          GoTime.Sub (sinceNow clock) (RFMQuintiles.CalculatedAt old)
          <= 24 * GoTime.Hour ->
          s1 = s /\ q = old)
    /\ GetQuintiles s1 orgID None = (Some stored, None)
    /\ RFMQuintiles.RecencyQuintiles stored = RFMQuintiles.RecencyQuintiles q
    /\ RFMQuintiles.FrequencyQuintiles stored = RFMQuintiles.FrequencyQuintiles q
    /\ RFMQuintiles.MonetaryQuintiles stored = RFMQuintiles.MonetaryQuintiles q
    /\ (forall failures clock',
          getQuintilesFailure failures = None ->
          GoTime.Sub (sinceNow clock') (RFMQuintiles.CalculatedAt stored)
          <= 24 * GoTime.Hour ->
          GetOrCalculateQuintiles s1 failures clock' orgID = Done (s1, stored, None)).
Proof.
  destruct (GetOrCalculateQuintiles_done s clock orgID)
    as (s1 & q & Hd & Horg & Hg & _ & _ & Hst).
  exists s1, q, q. split; [exact Hd|]. split; [exact Horg|]. split; [exact Hst|].
  split; [exact Hg|]. split; [reflexivity|]. split; [reflexivity|].
  split; [reflexivity|].
  intros failures clock' Hf Hfresh. apply GetOrCalculateQuintiles_hit; assumption.
Qed.

(** X22: GetOrCalculateQuintiles never panics, and it returns an error
    exactly when reading the stored quintiles gives an error (none stored,
    or the database fails) and reading the customer activities fails as
    well; nothing is written then. An error of SaveQuintiles is dropped: the
    call still returns without error and the storage is unchanged. *)
Theorem GetOrCalculateQuintiles_error s failures clock orgID :
  exists s1 q err,
    GetOrCalculateQuintiles s failures clock orgID = Done (s1, q, err)
    /\ (err <> None
        <-> (GetQuintiles s orgID (getQuintilesFailure failures)).2 <> None
            /\ findActivitiesFailure failures <> None)
    /\ (err <> None -> s1 = s)
    /\ (saveQuintilesFailure failures <> None -> s1 = s).
Proof.
  unfold GetOrCalculateQuintiles.
  destruct (GetQuintiles_cases s orgID (getQuintilesFailure failures))
    as [(q0 & Hg & Hf)|(e & Hg)]; rewrite Hg; cbn [snd].
  - assert (Hkeep : exists s1 q,
               (mkStorage (customer_activities s) (rfm_quintiles s) (rfm_scores s), q0,
                @None string) = (s1, q, None) /\ s1 = s).
    { destruct s. eauto. }
    destruct (24 * GoTime.Hour <? _).
    + unfold ActivityStorage.GetCustomerActivities.
      destruct (findActivitiesFailure failures) as [ferr|] eqn:Ef.
      * simpl. exists s, q0, None. split; [reflexivity|].
        split; [split; [congruence | intros [H _]; congruence]|]. auto.
      * destruct (CalculateQuintilesForOrg_done
                    (map ActivityStorage.decode
                       (List.filter (fun d => String.eqb (ActivityDoc.org_id d) orgID)
                                    (customer_activities s)))
                    orgID (quintilesNow clock) (quintilesCalculatedAt clock))
          as (qn & Hcalc & _).
        rewrite Hcalc. eexists _, qn, None. split; [reflexivity|].
        split; [split; [congruence | intros [H _]; congruence]|].
        split; [congruence|].
        intros Hs. unfold SaveQuintiles.
        destruct (saveQuintilesFailure failures); [reflexivity | congruence].
    + exists s, q0, None. split; [reflexivity|].
      split; [split; [congruence | intros [H _]; congruence]|]. auto.
  - unfold ActivityStorage.GetCustomerActivities.
    destruct (findActivitiesFailure failures) as [ferr|] eqn:Ef.
    + simpl. eexists s, _, (Some _). split; [reflexivity|].
      split; [split; [intros _; split; congruence | congruence]|]. auto.
    + destruct (CalculateQuintilesForOrg_done
                  (map ActivityStorage.decode
                     (List.filter (fun d => String.eqb (ActivityDoc.org_id d) orgID)
                                  (customer_activities s)))
                  orgID (quintilesNow clock) (quintilesCalculatedAt clock))
        as (qn & Hcalc & _).
      rewrite Hcalc. eexists _, qn, None. split; [reflexivity|].
      split; [split; [congruence | intros [_ H]; congruence]|].
      split; [congruence|].
      intros Hs. unfold SaveQuintiles.
      destruct (saveQuintilesFailure failures); [reflexivity | congruence].
Qed.

Lemma find_upsertScore score docs :
  List.find (fun d => String.eqb (RFMScore.OrgID d) (RFMScore.OrgID score)
                      && String.eqb (RFMScore.LocationID d) (RFMScore.LocationID score)
                      && String.eqb (RFMScore.CustomerID d) (RFMScore.CustomerID score))
            (upsertScore score docs) = Some score.
Proof.
  induction docs as [|d rest IH]; simpl.
  - rewrite !String.eqb_refl. reflexivity.
  - unfold sameCustomer at 1.
    destruct (String.eqb (RFMScore.OrgID d) (RFMScore.OrgID score)
              && String.eqb (RFMScore.LocationID d) (RFMScore.LocationID score)
              && String.eqb (RFMScore.CustomerID d) (RFMScore.CustomerID score)) eqn:E;
      simpl.
    + rewrite !String.eqb_refl. reflexivity.
    + rewrite E. exact IH.
Qed.

(** X23: With a database that does not fail, ProcessCustomerTransaction
    returns no error and stores the score under the org, location and
    customer of the activity: GetRFMScoreByLocation then finds a score whose
    recency, frequency and monetary scores and segment are those
    calculateRFMScore computes from the activity and the quintiles
    GetOrCalculateQuintiles returned, with the totals of the activity; the
    customer activities are not touched. *)
Theorem ProcessCustomerTransaction_stores_score s clock activity :
  exists s1 q s' stored,
    GetOrCalculateQuintiles s noFailures clock (CustomerActivity.OrgID activity)
    = Done (s1, q, None)
    /\ ProcessCustomerTransaction s noFailures clock activity = Done (s', None)
    /\ GetRFMScoreByLocation s' (CustomerActivity.OrgID activity)
         (CustomerActivity.LocationID activity)
         (CustomerActivity.CustomerID activity) None
       = (Some stored, None)
    /\ (let score :=
          calculateRFMScore activity q (scoreNow clock) (scoreCalculatedAt clock)
                            (scoreUpdatedAt clock) in
        RFMScore.RecencyScore stored = RFMScore.RecencyScore score
        /\ RFMScore.FrequencyScore stored = RFMScore.FrequencyScore score
        /\ RFMScore.MonetaryScore stored = RFMScore.MonetaryScore score
        /\ RFMScore.RFMSegment stored = RFMScore.RFMSegment score
        /\ RFMScore.TotalTransactions stored
           = CustomerActivity.TotalTransactions activity
        /\ RFMScore.TotalSpent stored = CustomerActivity.TotalSpent activity)
    /\ customer_activities s' = customer_activities s.
Proof.
  destruct (GetOrCalculateQuintiles_done s clock (CustomerActivity.OrgID activity))
    as (s1 & q & Hd & Horg & Hg & Ha & _ & _).
  unfold ProcessCustomerTransaction. rewrite Hd.
  eexists s1, q, _, _. split; [reflexivity|]. split; [reflexivity|].
  unfold SaveRFMScore, GetRFMScoreByLocation, noFailures. cbn.
  pose proof (find_upsertScore
                (calculateRFMScore activity q (scoreNow clock)
                   (scoreCalculatedAt clock) (scoreUpdatedAt clock))
                (rfm_scores s1)) as Hfind.
  cbn [calculateRFMScore RFMScore.OrgID RFMScore.LocationID RFMScore.CustomerID] in Hfind.
  rewrite Hfind. split; [reflexivity|]. split; [|exact Ha].
  repeat split.
Qed.

End RFMStorageFacts.


(** ** Tiers: the rules *)

Module TierRulesFacts.
Import Tiers F64Order F64Facts.

#[local] Instance higherLevel_trans : Transitive higherLevel.
Proof. intros x y z. unfold higherLevel. lia. Qed.
#[local] Instance higherLevel_total : Total higherLevel.
Proof. intros x y. unfold higherLevel. lia. Qed.

Lemma find_first {A : Type} (p : A -> bool) (l : list A) (x : A) :
  List.find p l = Some x ->
  exists l1 l2, l = (l1 ++ x :: l2)%list /\ p x = true
                /\ Forall (fun y => p y = false) l1.
Proof.
  induction l as [|y l IH]; simpl; [discriminate|].
  destruct (p y) eqn:E.
  - intros H. inversion H; subst. exists [], l. repeat split; auto.
  - intros H. destruct (IH H) as (l1 & l2 & -> & Hx & Hall).
    exists (y :: l1), l2. repeat split; auto.
Qed.

Lemma find_none_all {A : Type} (p : A -> bool) (l : list A) :
  List.find p l = None -> Forall (fun y => p y = false) l.
Proof.
  induction l as [|y l IH]; simpl; [constructor|].
  destruct (p y) eqn:E; [discriminate|]. intros H. constructor; auto.
Qed.

Lemma StronglySorted_app_head {A : Type} (R : relation A) (l1 l2 : list A) (x : A) :
  StronglySorted R (l1 ++ x :: l2) -> Forall (R x) l2 /\ Forall (fun y => R y x) l1.
Proof.
  induction l1 as [|y l1 IH]; simpl; intros H.
  - inversion H; subst. split; [assumption | constructor].
  - inversion H as [|? ? Hs Hall]; subst. destruct (IH Hs) as [H1 H2].
    split; [assumption|]. constructor; [|assumption].
    rewrite Forall_forall in Hall. apply Hall. apply elem_of_app. right. left.
Qed.

Lemma In_elem_of {A : Type} (x : A) (l : list A) : In x l <-> x ∈ l.
Proof. symmetry. apply list_elem_of_In. Qed.

(** [calculateTier]: the rule it returns. *)
Lemma calculateTier_found metrics rules :
  rules <> [] ->
  exists tier,
    calculateTier metrics rules = Done tier /\ In tier rules
    /\ (forall rule, In rule rules -> meetsRequirements metrics rule = true ->
          meetsRequirements metrics tier = true
          /\ TierRule.Level rule <= TierRule.Level tier)
    /\ ((forall rule, In rule rules -> meetsRequirements metrics rule = false) ->
        forall rule, In rule rules -> TierRule.Level tier <= TierRule.Level rule).
Proof.
  intros Hne. unfold calculateTier.
  pose proof (merge_sort_Permutation higherLevel rules) as Hperm.
  pose proof (StronglySorted_merge_sort higherLevel rules) as Hsorted.
  set (sorted := merge_sort higherLevel rules) in *.
  assert (Hin : forall r, In r rules <-> In r sorted).
  { intros r. rewrite !In_elem_of. split; intros H.
    - rewrite Hperm. exact H.
    - rewrite <- Hperm. exact H. }
  destruct (List.find (meetsRequirements metrics) sorted) as [tier|] eqn:E.
  - exists tier. split; [reflexivity|].
    destruct (find_first _ _ _ E) as (l1 & l2 & Hl & Hmeets & Hbefore).
    rewrite Hl in Hsorted. destruct (StronglySorted_app_head _ _ _ _ Hsorted) as [Hafter _].
    split; [apply Hin; rewrite Hl; apply in_or_app; right; left; reflexivity|].
    split.
    + intros rule Hr Hm. split; [exact Hmeets|].
      apply Hin in Hr. rewrite Hl in Hr. apply in_app_or in Hr.
      destruct Hr as [Hr|[Hr|Hr]].
      * rewrite Forall_forall in Hbefore. apply In_elem_of in Hr.
        specialize (Hbefore _ Hr). congruence.
      * subst. lia.
      * rewrite Forall_forall in Hafter. apply In_elem_of in Hr.
        apply (Hafter _ Hr).
    + intros Hnone. exfalso.
      assert (In tier rules) by (apply Hin; rewrite Hl; apply in_or_app; right; left; reflexivity).
      rewrite (Hnone tier) in Hmeets by assumption. discriminate.
  - destruct (last sorted) as [tier|] eqn:El.
    + exists tier. split; [reflexivity|].
      apply last_Some in El. destruct El as [l1 Hl].
      split; [apply Hin; rewrite Hl; apply in_or_app; right; left; reflexivity|].
      split.
      * intros rule Hr Hm. exfalso. apply find_none_all in E.
        rewrite Forall_forall in E. apply Hin, In_elem_of in Hr.
        specialize (E _ Hr). congruence.
      * intros _ rule Hr. apply Hin in Hr. rewrite Hl in Hr, Hsorted.
        destruct (StronglySorted_app_head _ _ _ _ Hsorted) as [_ Hb].
        apply in_app_or in Hr. destruct Hr as [Hr|[Hr|[]]].
        -- rewrite Forall_forall in Hb. apply In_elem_of in Hr. apply (Hb _ Hr).
        -- subst. lia.
    + exfalso. apply last_None in El. apply Hne.
      apply Permutation_nil_r. rewrite <- El. symmetry. exact Hperm.
Qed.

(** X24: calculateTier panics on an empty rule list. On any other list it
    returns one of the rules: when the requirements of some rule are met, a
    rule that is met and whose level is at least that of every rule met;
    when none is met, a rule of the lowest level. *)
Theorem calculateTier_highest metrics rules :
  (rules = [] -> calculateTier metrics rules = Panic)
  /\ (rules <> [] ->
      exists tier,
        calculateTier metrics rules = Done tier /\ In tier rules
        /\ (forall rule, In rule rules -> meetsRequirements metrics rule = true ->
              meetsRequirements metrics tier = true
              /\ TierRule.Level rule <= TierRule.Level tier)
        /\ ((forall rule, In rule rules -> meetsRequirements metrics rule = false) ->
            forall rule, In rule rules -> TierRule.Level tier <= TierRule.Level rule)).
Proof.
  split.
  - intros ->. reflexivity.
  - intros Hne. apply calculateTier_found. exact Hne.
Qed.

Lemma meetsRequirements_monotone metrics metrics' rule :
  (CustomerMetrics.TotalSpent metrics <= CustomerMetrics.TotalSpent metrics')%Q ->
  (CustomerMetrics.SpentThisYear metrics <= CustomerMetrics.SpentThisYear metrics')%Q ->
  CustomerMetrics.TotalVisits metrics <= CustomerMetrics.TotalVisits metrics' ->
  CustomerMetrics.VisitsThisYear metrics <= CustomerMetrics.VisitsThisYear metrics' ->
  meetsRequirements metrics rule = true -> meetsRequirements metrics' rule = true.
Proof.
  intros H1 H2 H3 H4. unfold meetsRequirements, F64.leb.
  rewrite !andb_true_iff, !Z.leb_le, !Qle_bool_iff.
  intros [[[Ha Hb] Hc] Hd].
  repeat split; try lia; eapply Qle_trans; eauto.
Qed.

(** X25: Better metrics never give a lower tier: when total spent, spent
    this year, total visits and visits this year are all at least as large,
    the level of the tier calculateTier returns is at least as high, for
    every rule list. *)
Theorem calculateTier_monotone metrics metrics' rules tier tier' :
  (CustomerMetrics.TotalSpent metrics <= CustomerMetrics.TotalSpent metrics')%Q ->
  (CustomerMetrics.SpentThisYear metrics <= CustomerMetrics.SpentThisYear metrics')%Q ->
  CustomerMetrics.TotalVisits metrics <= CustomerMetrics.TotalVisits metrics' ->
  CustomerMetrics.VisitsThisYear metrics <= CustomerMetrics.VisitsThisYear metrics' ->
  calculateTier metrics rules = Done tier ->
  calculateTier metrics' rules = Done tier' ->
  TierRule.Level tier <= TierRule.Level tier'.
Proof.
  intros H1 H2 H3 H4 Ht Ht'.
  destruct rules as [|r0 rules0]; [discriminate Ht|].
  set (rules := r0 :: rules0) in *.
  destruct (calculateTier_found metrics rules ltac:(discriminate))
    as (t & Et & Hin & Hmet & Hnone).
  destruct (calculateTier_found metrics' rules ltac:(discriminate))
    as (t' & Et' & Hin' & Hmet' & Hnone').
  rewrite Et in Ht. rewrite Et' in Ht'. inversion Ht; inversion Ht'; subst t t'.
  destruct (meetsRequirements metrics tier) eqn:Em.
  - apply (Hmet' tier Hin).
    eapply meetsRequirements_monotone; eauto.
  - apply Hnone; [|exact Hin'].
    intros rule Hr. destruct (meetsRequirements metrics rule) eqn:E; [|reflexivity].
    destruct (Hmet rule Hr E) as [Hc _]. congruence.
Qed.

Lemma calculateTier_monotone_witness :
  exists tier tier',
    calculateTier (silverMetrics 4) GetDefaultTierRules = Done tier
    /\ calculateTier (silverMetrics 6) GetDefaultTierRules = Done tier'
    /\ TierRule.Level tier <= TierRule.Level tier'.
Proof.
  eexists _, _. split; [vm_compute; reflexivity|]. split; [vm_compute; reflexivity|].
  apply (calculateTier_monotone (silverMetrics 4) (silverMetrics 6) GetDefaultTierRules);
    [apply Qle_refl | apply Qle_refl | simpl; lia | simpl; lia
    | vm_compute; reflexivity | vm_compute; reflexivity].
Defined.

Lemma default_rules_ascending :
  merge_sort lowerLevel GetDefaultTierRules = GetDefaultTierRules.
Proof. vm_compute. reflexivity. Qed.

Lemma Qdiv_nonneg a b : (0 <= a -> 0 <= b -> 0 <= a / b)%Q.
Proof.
  intros Ha Hb. unfold Qdiv. apply Qmult_le_0_compat; [exact Ha|].
  apply Qinv_le_0_compat. exact Hb.
Qed.

Lemma ofInt_nonneg z : 0 <= z -> (0 <= F64.ofInt z)%Q.
Proof.
  intros H. unfold F64.ofInt. apply round_nonneg.
  change 0%Q with (inject_Z 0). rewrite <- Zle_Qle. exact H.
Qed.

Lemma clamp_le_1 progress :
  ((if F64.ltb (F64.const 1) progress then F64.const 1 else progress) <= 1)%Q.
Proof.
  unfold F64.ltb. destruct (Qle_bool progress (F64.const 1)) eqn:E; simpl.
  - apply Qle_bool_iff in E. exact E.
  - vm_compute. discriminate.
Qed.

Lemma clamp_nonneg progress :
  (0 <= progress)%Q ->
  (0 <= (if F64.ltb (F64.const 1) progress then F64.const 1 else progress))%Q.
Proof.
  intros H. destruct (F64.ltb _ _); [vm_compute; discriminate | exact H].
Qed.

Lemma progress_nonneg spent visits (nextTier : TierRule.t) :
  (0 <= spent)%Q -> 0 <= visits ->
  (0 <= F64.div
          (F64.add
             (if F64.ltb 0 (TierRule.MinSpentYear nextTier)
              then F64.div spent (TierRule.MinSpentYear nextTier) else 0)
             (if 0 <? TierRule.MinVisitsYear nextTier
              then F64.div (F64.ofInt visits) (F64.ofInt (TierRule.MinVisitsYear nextTier))
              else 0))
          (F64.const 2))%Q.
Proof.
  intros Hs Hv. unfold F64.div, F64.add.
  apply round_nonneg. apply Qdiv_nonneg; [|vm_compute; discriminate].
  apply round_nonneg.
  assert (H1 : (0 <= (if F64.ltb 0 (TierRule.MinSpentYear nextTier)
                     then F64.round (spent / TierRule.MinSpentYear nextTier) else 0))%Q).
  { unfold F64.ltb. destruct (Qle_bool (TierRule.MinSpentYear nextTier) 0) eqn:E; simpl;
      [apply Qle_refl|].
    apply round_nonneg. apply Qdiv_nonneg; [exact Hs|].
    apply Qlt_le_weak, Qnot_le_lt. intros H. apply Qle_bool_iff in H. congruence. }
  assert (H2 : (0 <= (if 0 <? TierRule.MinVisitsYear nextTier
                     then F64.round (F64.ofInt visits
                                     / F64.ofInt (TierRule.MinVisitsYear nextTier))
                     else 0))%Q).
  { destruct (Z.ltb_spec 0 (TierRule.MinVisitsYear nextTier)); [|apply Qle_refl].
    apply round_nonneg. apply Qdiv_nonneg; apply ofInt_nonneg; lia. }
  change 0%Q with (0 + 0)%Q at 1. apply Qplus_le_compat; assumption.
Qed.

(** X26: calculateNextTierProgress names as next tier the default rule of
    the lowest level above the level of the current tier (Bronze below level
    1, then Silver, Gold, Platinum and Diamond for the levels 1 to 4, none
    from level 5 on), taken from the default rules whatever rules the org
    has. The progress is never above 1, is 1 when there is no next tier, and
    is not negative when the spending and the visits of the year are not
    negative. *)
Theorem calculateNextTierProgress_next currentTier metrics :
  let level := TierRule.Level currentTier in
  let next := (calculateNextTierProgress currentTier metrics).1 in
  let progress := (calculateNextTierProgress currentTier metrics).2 in
  next = (if level <? 1 then "Bronze" else if level <? 2 then "Silver"
          else if level <? 3 then "Gold" else if level <? 4 then "Platinum"
          else if level <? 5 then "Diamond" else "")
  /\ (progress <= 1)%Q
  /\ (5 <= level -> (progress == 1)%Q)
  /\ ((0 <= CustomerMetrics.SpentThisYear metrics)%Q ->
      0 <= CustomerMetrics.VisitsThisYear metrics -> (0 <= progress)%Q).
Proof.
  intros level next progress. subst next progress.
  unfold calculateNextTierProgress. rewrite default_rules_ascending.
  unfold GetDefaultTierRules. cbn [List.find TierRule.Level]. fold level.
  destruct (Z.ltb_spec level 1); [|destruct (Z.ltb_spec level 2);
    [|destruct (Z.ltb_spec level 3); [|destruct (Z.ltb_spec level 4);
      [|destruct (Z.ltb_spec level 5)]]]];
    cbn [fst snd TierRule.Name];
    (split; [reflexivity|]);
    (split; [first [apply clamp_le_1 | vm_compute; discriminate]|]);
    (split; [intros; first [lia | vm_compute; reflexivity]|]);
    intros Hs Hv;
    first [apply clamp_nonneg; apply progress_nonneg; assumption
          | vm_compute; discriminate].
Qed.

End TierRulesFacts.


(** ** Tiers: the stored tier and the consumer *)

Module TierStorageFacts.
Import Tiers TierRulesFacts.

Lemma find_upsertTier tier tiers :
  match List.find (fun t => String.eqb (CustomerTier.OrgID t) (CustomerTier.OrgID tier)
                            && String.eqb (CustomerTier.CustomerID t)
                                          (CustomerTier.CustomerID tier)) tiers with
  | Some stored => CustomerTier.LocationID stored = CustomerTier.LocationID tier
  | None => True
  end ->
  List.find (fun t => String.eqb (CustomerTier.OrgID t) (CustomerTier.OrgID tier)
                      && String.eqb (CustomerTier.CustomerID t)
                                    (CustomerTier.CustomerID tier))
            (upsertTier tier tiers) = Some tier.
Proof.
  induction tiers as [|d rest IH]; simpl.
  - intros _. rewrite !String.eqb_refl. reflexivity.
  - destruct (String.eqb (CustomerTier.OrgID d) (CustomerTier.OrgID tier)) eqn:Eo;
      destruct (String.eqb (CustomerTier.CustomerID d) (CustomerTier.CustomerID tier)) eqn:Ec;
      simpl.
    + intros Hl. rewrite Hl, String.eqb_refl. simpl. rewrite !String.eqb_refl. reflexivity.
    + intros H. rewrite andb_false_r. simpl. rewrite Eo, Ec. simpl. apply IH. exact H.
    + intros H. rewrite Eo, Ec. simpl. apply IH. exact H.
    + intros H. rewrite Eo, Ec. simpl. apply IH. exact H.
Qed.

Lemma find_upsertConfig config configs :
  List.find (fun c => String.eqb (OrgTierConfig.OrgID c) (OrgTierConfig.OrgID config))
            (upsertConfig config configs) = Some config.
Proof.
  induction configs as [|c rest IH]; simpl.
  - rewrite String.eqb_refl. reflexivity.
  - destruct (String.eqb (OrgTierConfig.OrgID c) (OrgTierConfig.OrgID config)) eqn:E; simpl.
    + rewrite String.eqb_refl. reflexivity.
    + rewrite E. exact IH.
Qed.

Lemma ProcessCustomerMetrics_unfold s now metrics :
  ProcessCustomerMetrics s noFailures now metrics
  = match calculateTier metrics (OrgTierConfig.TierRules (configFor s now metrics)) with
    | Panic => Panic
    | Done newTier =>
        let updated := updateCustomerTier (tierFor s now metrics) newTier metrics now in
        Done (mkStorage
                (match GetTierConfig s (CustomerMetrics.OrgID metrics) None with
                 | (Some config, None) => tier_configs s
                 | _ => upsertConfig (configFor s now metrics) (tier_configs s)
                 end)
                (upsertTier updated (customer_tiers s))
                (if negb (String.eqb (CustomerTier.CurrentTier updated)
                                     (CustomerTier.PreviousTier updated))
                    && negb (String.eqb (CustomerTier.PreviousTier updated) "")
                 then (tier_upgrades s
                       ++ [TierUpgrade.mk (CustomerMetrics.OrgID metrics)
                             (CustomerMetrics.CustomerID metrics)
                             (CustomerTier.PreviousTier updated)
                             (CustomerTier.CurrentTier updated) "transaction"
                             (CustomerMetrics.TransactionAmount metrics) now false])%list
                 else tier_upgrades s),
              None)
    end.
Proof.
  unfold ProcessCustomerMetrics, configFor, tierFor, noFailures.
  cbn [getTierConfigFailure saveTierConfigFailure getCustomerTierFailure
       saveCustomerTierFailure saveTierUpgradeFailure].
  destruct (GetTierConfig s (CustomerMetrics.OrgID metrics) None) as [[config|] [e|]] eqn:Ec;
    cbn [SaveTierConfig fst snd].
  all: unfold GetCustomerTier; cbn [customer_tiers].
  all: destruct (List.find _ (customer_tiers s)) as [tier|];
    destruct (calculateTier metrics _) as [newTier|]; try reflexivity;
    cbn [SaveCustomerTier SaveTierUpgrade fst snd tier_configs customer_tiers tier_upgrades];
    cbv zeta;
    match goal with
    | |- context [if ?b then _ else _] => destruct b
    end; try reflexivity; destruct s; reflexivity.
Qed.

Lemma tierFor_ids s now metrics :
  CustomerTier.OrgID (tierFor s now metrics) = CustomerMetrics.OrgID metrics
  /\ CustomerTier.CustomerID (tierFor s now metrics) = CustomerMetrics.CustomerID metrics.
Proof.
  unfold tierFor, GetCustomerTier.
  destruct (List.find _ (customer_tiers s)) as [tier|] eqn:E; simpl; [|split; reflexivity].
  apply find_some in E. destruct E as [_ E].
  apply andb_prop in E. destruct E as [Eo Ec].
  apply String.eqb_eq in Eo. apply String.eqb_eq in Ec. split; assumption.
Qed.

Lemma updateCustomerTier_ids current newTier metrics now :
  CustomerTier.OrgID (updateCustomerTier current newTier metrics now)
  = CustomerTier.OrgID current
  /\ CustomerTier.LocationID (updateCustomerTier current newTier metrics now)
     = CustomerTier.LocationID current
  /\ CustomerTier.CustomerID (updateCustomerTier current newTier metrics now)
     = CustomerTier.CustomerID current.
Proof.
  unfold updateCustomerTier.
  destruct (calculateNextTierProgress newTier metrics). repeat split.
Qed.

Lemma updateCustomerTier_current current newTier metrics now :
  CustomerTier.CurrentTier (updateCustomerTier current newTier metrics now)
  = TierRule.Name newTier.
Proof.
  unfold updateCustomerTier.
  destruct (calculateNextTierProgress newTier metrics). cbn [CustomerTier.CurrentTier].
  destruct (String.eqb (CustomerTier.CurrentTier current) (TierRule.Name newTier)) eqn:E;
    simpl; [apply String.eqb_eq; exact E | reflexivity].
Qed.

Lemma GetCustomerTier_after s now metrics newTier :
  calculateTier metrics (OrgTierConfig.TierRules (configFor s now metrics)) = Done newTier ->
  GetCustomerTier (afterMetrics s now metrics) (CustomerMetrics.OrgID metrics)
                  (CustomerMetrics.CustomerID metrics) None
  = (Some (updateCustomerTier (tierFor s now metrics) newTier metrics now), None).
Proof.
  intros Hnew. unfold afterMetrics. rewrite ProcessCustomerMetrics_unfold, Hnew.
  cbv zeta. unfold GetCustomerTier at 1. cbn [customer_tiers].
  set (updated := updateCustomerTier (tierFor s now metrics) newTier metrics now).
  destruct (tierFor_ids s now metrics) as [Ho Hc].
  destruct (updateCustomerTier_ids (tierFor s now metrics) newTier metrics now)
    as [Uo [Ul Uc]].
  fold updated in Uo, Ul, Uc.
  assert (Hfind := find_upsertTier updated (customer_tiers s)).
  rewrite Uo, Uc, Ho, Hc in Hfind. rewrite Hfind; [reflexivity|].
  rewrite Ul. unfold tierFor, GetCustomerTier.
  destruct (List.find _ (customer_tiers s)); [reflexivity | exact I].
Qed.

Lemma GetTierConfig_after s now metrics newTier :
  calculateTier metrics (OrgTierConfig.TierRules (configFor s now metrics)) = Done newTier ->
  GetTierConfig (afterMetrics s now metrics) (CustomerMetrics.OrgID metrics) None
  = (Some (configFor s now metrics), None).
Proof.
  intros Hnew. unfold afterMetrics. rewrite ProcessCustomerMetrics_unfold, Hnew.
  cbv zeta. unfold GetTierConfig at 1. cbn [tier_configs].
  unfold configFor, GetTierConfig.
  destruct (List.find _ (tier_configs s)) as [config|] eqn:E.
  - rewrite E. reflexivity.
  - pose proof (find_upsertConfig
      (OrgTierConfig.mk (CustomerMetrics.OrgID metrics) GetDefaultTierRules now now)
      (tier_configs s)) as H.
    cbn [OrgTierConfig.OrgID] in H. rewrite H. reflexivity.
Qed.

(** X27: With a database that does not fail and rules on which calculateTier
    returns a tier T, ProcessCustomerMetrics returns no error;
    GetCustomerTier for the org and customer then finds a record whose
    current tier is the name of T, whose multiplier and benefits are those
    of T, whose next tier and progress are those of
    calculateNextTierProgress and whose six totals are those of the metrics
    (whatever location_id the record on file carries), and the org has a
    stored configuration with the rules that were used. *)
Theorem ProcessCustomerMetrics_round_trip s now metrics newTier :
  calculateTier metrics (OrgTierConfig.TierRules (configFor s now metrics)) = Done newTier ->
  exists s' stored config,
    ProcessCustomerMetrics s noFailures now metrics = Done (s', None)
    /\ GetCustomerTier s' (CustomerMetrics.OrgID metrics)
                       (CustomerMetrics.CustomerID metrics) None = (Some stored, None)
    /\ CustomerTier.CurrentTier stored = TierRule.Name newTier
    /\ CustomerTier.PointsMultiplier stored = TierRule.PointsMultiplier newTier
    /\ CustomerTier.Benefits stored = TierRule.Benefits newTier
    /\ CustomerTier.NextTier stored = (calculateNextTierProgress newTier metrics).1
    /\ CustomerTier.ProgressToNext stored = (calculateNextTierProgress newTier metrics).2
    /\ CustomerTier.TotalSpent stored = CustomerMetrics.TotalSpent metrics
    /\ CustomerTier.TotalVisits stored = CustomerMetrics.TotalVisits metrics
    /\ CustomerTier.SpentThisYear stored = CustomerMetrics.SpentThisYear metrics
    /\ CustomerTier.VisitsThisYear stored = CustomerMetrics.VisitsThisYear metrics
    /\ CustomerTier.SpentThisMonth stored = CustomerMetrics.SpentThisMonth metrics
    /\ CustomerTier.VisitsThisMonth stored = CustomerMetrics.VisitsThisMonth metrics
    /\ GetTierConfig s' (CustomerMetrics.OrgID metrics) None = (Some config, None)
    /\ OrgTierConfig.TierRules config
       = OrgTierConfig.TierRules (configFor s now metrics).
Proof.
  intros Hnew.
  exists (afterMetrics s now metrics),
         (updateCustomerTier (tierFor s now metrics) newTier metrics now),
         (configFor s now metrics).
  split.
  { unfold afterMetrics. rewrite ProcessCustomerMetrics_unfold, Hnew. reflexivity. }
  split; [apply GetCustomerTier_after; exact Hnew|].
  split; [apply updateCustomerTier_current|].
  unfold updateCustomerTier. destruct (calculateNextTierProgress newTier metrics).
  cbn [CustomerTier.PointsMultiplier CustomerTier.Benefits CustomerTier.NextTier
       CustomerTier.ProgressToNext CustomerTier.TotalSpent CustomerTier.TotalVisits
       CustomerTier.SpentThisYear CustomerTier.VisitsThisYear
       CustomerTier.SpentThisMonth CustomerTier.VisitsThisMonth fst snd].
  repeat (split; [reflexivity|]).
  split; [|reflexivity].
  apply GetTierConfig_after with (newTier := newTier). exact Hnew.
Qed.

Lemma ProcessCustomerMetrics_round_trip_witness :
  exists s' stored,
    ProcessCustomerMetrics (mkStorage [] [] []) noFailures 1000 (silverMetrics 5)
    = Done (s', None)
    /\ GetCustomerTier s' "org1" "cust1" None = (Some stored, None)
    /\ CustomerTier.CurrentTier stored = "Silver".
Proof.
  destruct (calculateTier (silverMetrics 5) GetDefaultTierRules) as [newTier|] eqn:E;
    [|vm_compute in E; discriminate].
  destruct (ProcessCustomerMetrics_round_trip (mkStorage [] [] []) 1000 (silverMetrics 5)
              newTier E) as (s' & stored & config & H1 & H2 & H3 & _).
  exists s', stored. split; [exact H1|]. split; [exact H2|].
  rewrite H3. vm_compute in E. injection E as <-. reflexivity.
Defined.

(** X28: With a database that does not fail: when the tier calculateTier
    returns differs from the current tier on record (a customer without a
    record counts as Bronze) and that current tier is not empty,
    ProcessCustomerMetrics appends exactly one TierUpgrade, from the tier on
    record to the new one, triggered by 'transaction' with the amount of the
    transaction and not notified; a fall to a lower tier is recorded like a
    rise. *)
Theorem ProcessCustomerMetrics_records_change s now metrics newTier :
  calculateTier metrics (OrgTierConfig.TierRules (configFor s now metrics)) = Done newTier ->
  CustomerTier.CurrentTier (tierFor s now metrics) <> TierRule.Name newTier ->
  CustomerTier.CurrentTier (tierFor s now metrics) <> "" ->
  tier_upgrades (afterMetrics s now metrics)
  = (tier_upgrades s
     ++ [TierUpgrade.mk (CustomerMetrics.OrgID metrics)
           (CustomerMetrics.CustomerID metrics)
           (CustomerTier.CurrentTier (tierFor s now metrics))
           (TierRule.Name newTier) "transaction"
           (CustomerMetrics.TransactionAmount metrics) now false])%list.
Proof.
  intros Hnew Hchange Hold. unfold afterMetrics.
  rewrite ProcessCustomerMetrics_unfold, Hnew. cbv zeta. cbn [tier_upgrades].
  rewrite updateCustomerTier_current.
  assert (Hprev : CustomerTier.PreviousTier
                    (updateCustomerTier (tierFor s now metrics) newTier metrics now)
                  = CustomerTier.CurrentTier (tierFor s now metrics)).
  { unfold updateCustomerTier. destruct (calculateNextTierProgress newTier metrics).
    cbn [CustomerTier.PreviousTier].
    destruct (String.eqb (CustomerTier.CurrentTier (tierFor s now metrics))
                         (TierRule.Name newTier)) eqn:E; [|reflexivity].
    apply String.eqb_eq in E. contradiction. }
  rewrite Hprev.
  assert (E1 : String.eqb (TierRule.Name newTier)
                          (CustomerTier.CurrentTier (tierFor s now metrics)) = false).
  { apply String.eqb_neq. congruence. }
  assert (E2 : String.eqb (CustomerTier.CurrentTier (tierFor s now metrics)) "" = false).
  { apply String.eqb_neq. exact Hold. }
  rewrite E1, E2. reflexivity.
Qed.


Lemma ProcessCustomerMetrics_records_change_witness :
  tier_upgrades
    (afterMetrics silverCustomer 2000
       (CustomerMetrics.mk "org1" "" "cust1" (F64.const 270) 6 (F64.const 20) 1
          (F64.const 20) 1 2000 (F64.const 20)))
  = (tier_upgrades silverCustomer
     ++ [TierUpgrade.mk "org1" "cust1" "Silver" "Bronze" "transaction" (F64.const 20)
           2000 false])%list.
Proof.
  destruct (calculateTier
              (CustomerMetrics.mk "org1" "" "cust1" (F64.const 270) 6 (F64.const 20) 1
                 (F64.const 20) 1 2000 (F64.const 20))
              GetDefaultTierRules) as [newTier|] eqn:E; [|vm_compute in E; discriminate].
  assert (Hname : TierRule.Name newTier = "Bronze").
  { vm_compute in E. injection E as <-. reflexivity. }
  rewrite <- Hname.
  apply (ProcessCustomerMetrics_records_change silverCustomer 2000
           (CustomerMetrics.mk "org1" "" "cust1" (F64.const 270) 6 (F64.const 20) 1
              (F64.const 20) 1 2000 (F64.const 20)) newTier).
  - exact E.
  - rewrite Hname. vm_compute. discriminate.
  - vm_compute. discriminate.
Defined.

Lemma calculateTier_panics metrics rules :
  calculateTier metrics rules = Panic <-> rules = [].
Proof.
  split.
  - unfold calculateTier.
    destruct (List.find _ (merge_sort higherLevel rules)); [discriminate|].
    destruct (last (merge_sort higherLevel rules)) eqn:E; [discriminate|].
    intros _. apply last_None in E.
    apply Permutation.Permutation_nil. rewrite <- E.
    apply merge_sort_Permutation.
  - intros ->. reflexivity.
Qed.

(** X29: ProcessCustomerMetrics panics (the index out of range of
    calculateTier) exactly when the tier configuration of the org is read
    without error and has an empty rule list; with any other stored
    configuration, and when the read fails and the default rules are used,
    it returns, whatever else the database does. *)
Theorem ProcessCustomerMetrics_panics_on_empty_rules s failures now metrics :
  ProcessCustomerMetrics s failures now metrics = Panic
  <-> exists config,
        GetTierConfig s (CustomerMetrics.OrgID metrics) (getTierConfigFailure failures)
        = (Some config, None)
        /\ OrgTierConfig.TierRules config = [].
Proof.
  unfold ProcessCustomerMetrics.
  destruct (GetTierConfig s (CustomerMetrics.OrgID metrics) (getTierConfigFailure failures))
    as [[config|] [e|]] eqn:Ec.
  1, 3, 4: split;
    [ cbn [OrgTierConfig.TierRules];
      destruct (calculateTier metrics GetDefaultTierRules) eqn:E;
        [ cbv zeta;
          match goal with |- context [SaveCustomerTier ?a ?b ?c] =>
            destruct (SaveCustomerTier a b c) as [s2 [err|]] end;
          [discriminate|];
          match goal with |- context [if ?b then _ else _] => destruct b end;
          discriminate
        | apply calculateTier_panics in E; discriminate ]
    | intros [c [H _]]; discriminate ].
  split.
  - destruct (calculateTier metrics (OrgTierConfig.TierRules config)) eqn:E.
    + cbv zeta.
      match goal with |- context [SaveCustomerTier ?a ?b ?c] =>
        destruct (SaveCustomerTier a b c) as [s2 [err|]] end; [discriminate|].
      match goal with |- context [if ?b then _ else _] => destruct b end; discriminate.
    + intros _. exists config. split; [reflexivity|].
      apply calculateTier_panics in E. exact E.
  - intros [c [H Hr]]. injection H as <-.
    apply (calculateTier_panics metrics) in Hr. rewrite Hr. reflexivity.
Qed.

End TierStorageFacts.

Module TierConsumerFacts.
Import Tiers TierConsumer TierStorageFacts.

Lemma calculateTier_done metrics rules :
  rules <> [] -> exists newTier, calculateTier metrics rules = Done newTier.
Proof.
  intros Hrules. destruct (calculateTier metrics rules) as [newTier|] eqn:E.
  - exists newTier. reflexivity.
  - apply calculateTier_panics in E. contradiction.
Qed.

Lemma configFor_rules s now metrics :
  (forall config,
     GetTierConfig s (CustomerMetrics.OrgID metrics) None = (Some config, None) ->
     OrgTierConfig.TierRules config <> []) ->
  OrgTierConfig.TierRules (configFor s now metrics) <> [].
Proof.
  intros Hrules. unfold configFor.
  destruct (GetTierConfig s (CustomerMetrics.OrgID metrics) None) as [[config|] [e|]];
    try discriminate.
  apply Hrules. reflexivity.
Qed.

(** X30: For a pos.transaction event of a customer who has a tier record,
    with a database that does not fail and no stored configuration without
    rules, the tier processor returns no error and the record found
    afterwards has total_visits = the old value + 1 and 1 <=
    visits_this_month <= visits_this_year <= total_visits, provided the old
    record had 0 <= visits_this_month <= visits_this_year <= total_visits <
    2^63 - 1 and the start of the year is not after the start of the month. *)
Theorem processMessage_counts_visit s tierSince yearStart monthStart now event
    transaction existing :
  AnalyticsEvent.EventType event = "pos.transaction" ->
  AnalyticsEvent.Payload event = Some transaction ->
  GetCustomerTier s (AnalyticsEvent.OrgID event) (AnalyticsEvent.CustomerID event) None
  = (Some existing, None) ->
  (forall config,
     GetTierConfig s (AnalyticsEvent.OrgID event) None = (Some config, None) ->
     OrgTierConfig.TierRules config <> []) ->
  yearStart <= monthStart ->
  0 <= CustomerTier.VisitsThisMonth existing ->
  CustomerTier.VisitsThisMonth existing <= CustomerTier.VisitsThisYear existing ->
  CustomerTier.VisitsThisYear existing <= CustomerTier.TotalVisits existing ->
  CustomerTier.TotalVisits existing < 2 ^ 63 - 1 ->
  exists s' stored,
    processMessage s None noFailures tierSince yearStart monthStart now (Some event)
    = Done (s', None)
    /\ GetCustomerTier s' (AnalyticsEvent.OrgID event) (AnalyticsEvent.CustomerID event)
                       None = (Some stored, None)
    /\ CustomerTier.TotalVisits stored = CustomerTier.TotalVisits existing + 1
    /\ 1 <= CustomerTier.VisitsThisMonth stored
    /\ CustomerTier.VisitsThisMonth stored <= CustomerTier.VisitsThisYear stored
    /\ CustomerTier.VisitsThisYear stored <= CustomerTier.TotalVisits stored.
Proof.
  intros Htype Hpayload Hget Hrules Hstarts Hm Hmy Hyt Hmax.
  unfold processMessage. rewrite Htype, Hpayload, Hget. cbn [String.eqb negb].
  change (negb ("pos.transaction" =? "pos.transaction")%string) with false. cbv iota.
  set (metrics := metricsOf existing event transaction yearStart monthStart).
  destruct (calculateTier_done metrics
              (OrgTierConfig.TierRules (configFor s now metrics))) as [newTier Hnew].
  { apply configFor_rules. exact Hrules. }
  exists (afterMetrics s now metrics),
         (updateCustomerTier (tierFor s now metrics) newTier metrics now).
  split.
  { unfold afterMetrics. rewrite ProcessCustomerMetrics_unfold, Hnew. reflexivity. }
  split.
  { apply (GetCustomerTier_after s now metrics newTier Hnew). }
  unfold updateCustomerTier. destruct (calculateNextTierProgress newTier metrics).
  cbn [CustomerTier.TotalVisits CustomerTier.VisitsThisMonth CustomerTier.VisitsThisYear].
  subst metrics. unfold metricsOf.
  cbn [CustomerMetrics.TotalVisits CustomerMetrics.VisitsThisMonth
       CustomerMetrics.VisitsThisYear].
  unfold GoTime.Before, int64.
  assert (Hwrap : forall n, 0 <= n < 2 ^ 63 - 1 ->
                    (n + 1 + 2 ^ 63) mod 2 ^ 64 - 2 ^ 63 = n + 1).
  { intros n Hn. rewrite Z.mod_small; lia. }
  rewrite !Hwrap by lia.
  destruct (Z.ltb_spec (CustomerTier.LastTransaction existing) yearStart);
    destruct (Z.ltb_spec (CustomerTier.LastTransaction existing) monthStart);
    repeat split; lia.
Qed.


Lemma processMessage_counts_visit_witness :
  exists s' stored,
    processMessage silverCustomer None noFailures 2000 500 900 2000
      (Some (AnalyticsEvent.mk "evt_6" "pos.transaction" "org1" "loc1" "cust1" 2000
               (Some (POSTransaction.mk "txn_6" (F64.const 20) 2000))))
    = Done (s', None)
    /\ GetCustomerTier s' "org1" "cust1" None = (Some stored, None)
    /\ CustomerTier.TotalVisits stored = 6
    /\ 1 <= CustomerTier.VisitsThisMonth stored
    /\ CustomerTier.VisitsThisMonth stored <= CustomerTier.VisitsThisYear stored
    /\ CustomerTier.VisitsThisYear stored <= CustomerTier.TotalVisits stored.
Proof.
  destruct (GetCustomerTier silverCustomer "org1" "cust1" None) as [[existing|] [e|]] eqn:E;
    try (vm_compute in E; discriminate).
  assert (Hvisits : CustomerTier.TotalVisits existing = 5
                    /\ CustomerTier.VisitsThisYear existing = 3
                    /\ CustomerTier.VisitsThisMonth existing = 3).
  { vm_compute in E. injection E as <-. repeat split. }
  destruct Hvisits as [Ht [Hy Hm]].
  destruct (processMessage_counts_visit silverCustomer 2000 500 900 2000
              (AnalyticsEvent.mk "evt_6" "pos.transaction" "org1" "loc1" "cust1" 2000
                 (Some (POSTransaction.mk "txn_6" (F64.const 20) 2000)))
              (POSTransaction.mk "txn_6" (F64.const 20) 2000) existing)
    as [s' [stored [H1 [H2 [H3 [H4 [H5 H6]]]]]]].
  - reflexivity.
  - reflexivity.
  - exact E.
  - intros config Hc. vm_compute in Hc. injection Hc as <-. discriminate.
  - lia.
  - lia.
  - lia.
  - lia.
  - lia.
  - exists s', stored. rewrite Ht in H3. repeat (split; [assumption|]). assumption.
Defined.

End TierConsumerFacts.
